(** * h5.coap: the wire codec, identifiers and client state machines

    A shallow embedding of the CoAP client library [h5.coap]
    (lib/helpers.js, lib/codeRegistry.js, lib/optionNumberRegistry.js,
    lib/Option.js, lib/Options.js, lib/BlockOption.js, lib/Message.js,
    lib/EndpointAddress.js, lib/TokenManager.js, lib/ClientTransaction.js,
    lib/ClientExchange.js, lib/Client.js) together with the properties of
    its specification.

    Conventions of the embedding.
    - A byte is a [Z]; a Node [Buffer] is a [list Z].  Nothing below relies
      on a buffer element being in [0, 255] unless a lemma says so.
    - A JavaScript number that is only ever an integer (message ID, option
      number, block number, counters) is a [Z]; the bitwise operators are
      the ones of [Z], all operands staying far below 2^31.  A number that
      may be fractional (option values going through
      [encodeNumericValue], timeouts) is an exact rational [Q]; [NaN],
      the infinities and rounding are outside the model.
    - [throw] is the [Err] case of [result]; [null] is [None].
    - An object mutated in place is a record threaded through the
      functions that mutate it.
    - [setImmediate(receiver.emit.bind(thisArg, event, args...))] appends
      a [Deferred] call to a queue; the call records the object [emit]
      will run on, because only the listeners of that object are invoked.
    - [Array.prototype.sort] is stable (ECMAScript 2019). *)

From Stdlib Require Import ZArith QArith Qround Lia Lqa Ascii String List Permutation Sorted.
From stdpp Require Import base option list gmap strings.
Import ListNotations.

Close Scope Q_scope.
Local Open Scope Z_scope.

Set Default Proof Using "Type".

(** ** Exceptions *)

Inductive Error : Type :=
| InvalidCoapVersion (version : Z)
| UnknownMessageCode (code : Z)
| UnknownMessageOption (number : Z)
| InvalidMessageType (type : Z)
| InvalidMessageId (id : Z)
| TokenTooLong (length : Z)
| InvalidPayloadMarker
| ReaderUnderflow
| BuilderRange (value : Z)
| LoopBound
| NotARequest
| TypeError.

Inductive result (A : Type) : Type :=
| Ok (a : A)
| Err (e : Error).

Arguments Ok {A} a.
Arguments Err {A} e.

#[global] Instance result_ret : MRet result := fun _ a => Ok a.

#[global] Instance result_fmap : FMap result := fun _ _ f r =>
  match r with
  | Ok a => Ok (f a)
  | Err e => Err e
  end.

#[global] Instance result_bind : MBind result := fun _ _ k r =>
  match r with
  | Ok a => k a
  | Err e => Err e
  end.

(** ** IEEE-754 binary64, the format of [writeDoubleBE] / [readDoubleBE]

    The value of a finite double is a rational.  [encode] rounds to the
    nearest double, ties to even, and saturates at infinity; [decode] reads
    the exponent-2047 patterns ([NaN], the infinities), which no rational
    stands for, as 0. *)
Module Ieee754.

(** [p / q] rounded to the nearest integer, ties to even, for [q > 0]. *)
Definition round_half_even (p q : Z) : Z :=
  let f := p / q in
  let r := p mod q in
  if 2 * r <? q then f
  else if q <? 2 * r then f + 1
  else if Z.even f then f else f + 1.

(** The 63 bits after the sign of the double nearest to [n / d],
    for positive [n] and [d]. *)
Definition magnitude_bits (n d : Z) : Z :=
  let e0 := Z.log2 n - Z.log2 d in
  let e := if (0 <=? e0) then (if d * 2 ^ e0 <=? n then e0 else e0 - 1)
           else (if d <=? n * 2 ^ (- e0) then e0 else e0 - 1) in
  let E := Z.max e (-1022) in
  let m := if 0 <=? 52 - E then round_half_even (n * 2 ^ (52 - E)) d
           else round_half_even n (d * 2 ^ (E - 52)) in
  Z.min ((E + 1022) * 2 ^ 52 + m) (2047 * 2 ^ 52).

Definition bits (v : Q) : Z :=
  match Qnum v with
  | Z0 => 0
  | Zpos n => magnitude_bits (Zpos n) (Zpos (Qden v))
  | Zneg n => 2 ^ 63 + magnitude_bits (Zpos n) (Zpos (Qden v))
  end.

Definition encode (v : Q) : list Z :=
  let b := bits v in
  map (fun i => Z.land (Z.shiftr b (8 * i)) 255) [7; 6; 5; 4; 3; 2; 1; 0].

Definition of_bits (b : Z) : Q :=
  let sign := Z.testbit b 63 in
  let biased := Z.land (Z.shiftr b 52) 2047 in
  let fraction := Z.land b (2 ^ 52 - 1) in
  let magnitude :=
    if biased =? 2047 then 0%Q
    else if biased =? 0 then (fraction # Pos.pow 2 1074)%Q
    else if 1075 <=? biased then inject_Z ((2 ^ 52 + fraction) * 2 ^ (biased - 1075))
    else ((2 ^ 52 + fraction) # Pos.pow 2 (Z.to_pos (1075 - biased)))%Q in
  if sign then Qopp magnitude else magnitude.

Definition decode (bytes : list Z) : Q :=
  of_bits (fold_left (fun acc b => acc * 256 + Z.land b 255) bytes 0).

End Ieee754.

(** ** Node buffers and the [h5.buffers] reader and builder

    [h5.buffers] is an npm dependency.  [BufferBuilder] appends big-endian
    fields and rejects a value outside the field's range; [BufferReader]
    consumes from the front and throws when too few bytes are left. *)
Module Buffer.

(** [new Buffer(size)] *)
Definition alloc (size : nat) : list Z := replicate size 0.

(** [new Buffer([a, b, ...])]: every element is stored modulo 256. *)
Definition from_array (l : list Z) : list Z := map (fun x => Z.land x 255) l.

(** Store [bytes] at [offset], never growing the buffer. *)
Fixpoint write (buffer : list Z) (offset : nat) (bytes : list Z) : list Z :=
  match buffer, offset with
  | [], _ => []
  | b :: buffer', S offset' => b :: write buffer' offset' bytes
  | b :: buffer', O =>
      match bytes with
      | [] => b :: buffer'
      | x :: bytes' => x :: write buffer' O bytes'
      end
  end.

(** [buffer.writeUInt16BE(value, offset, true)] *)
Definition writeUInt16BE (buffer : list Z) (value : Z) (offset : nat) : list Z :=
  write buffer offset [Z.land (Z.shiftr value 8) 255; Z.land value 255].

(** [buffer.writeUInt32BE(value, offset, true)] *)
Definition writeUInt32BE (buffer : list Z) (value : Z) (offset : nat) : list Z :=
  write buffer offset
    [Z.land (Z.shiftr value 24) 255; Z.land (Z.shiftr value 16) 255;
     Z.land (Z.shiftr value 8) 255; Z.land value 255].

(** [buffer.writeDoubleBE(value, offset, true)] *)
Definition writeDoubleBE (buffer : list Z) (value : Q) (offset : nat)
  : list Z :=
  write buffer offset (Ieee754.encode value).

(** [buffer[i]], for an index inside the buffer. *)
Definition get (buffer : list Z) (i : nat) : Z := nth i buffer 0.

(** [buffer.readUInt16BE(offset)] *)
Definition readUInt16BE (buffer : list Z) (offset : nat) : Z :=
  Z.lor (Z.shiftl (get buffer offset) 8) (get buffer (S offset)).

(** [buffer.readUInt32BE(offset)] *)
Definition readUInt32BE (buffer : list Z) (offset : nat) : Z :=
  get buffer offset * 16777216
  + Z.lor (Z.lor (Z.shiftl (get buffer (offset + 1)) 16)
                 (Z.shiftl (get buffer (offset + 2)) 8))
          (get buffer (offset + 3)).

(** [buffer.readDoubleBE(offset)] *)
Definition readDoubleBE (buffer : list Z) (offset : nat) : Q :=
  Ieee754.decode (take 8 (drop offset buffer)).

End Buffer.

Module BufferBuilder.

Definition t := list Z.

Definition empty : t := [].

Definition pushByte (b : Z) (bb : t) : result t :=
  if (0 <=? b) && (b <=? 255) then Ok (bb ++ [b]) else Err (BuilderRange b).

Definition pushUInt8 (b : Z) (bb : t) : result t := pushByte b bb.

Definition pushUInt16 (v : Z) (bb : t) : result t :=
  if (0 <=? v) && (v <=? 65535)
  then Ok (bb ++ [Z.shiftr v 8; Z.land v 255])
  else Err (BuilderRange v).

Definition pushUInt32 (v : Z) (bb : t) : result t :=
  if (0 <=? v) && (v <=? 4294967295)
  then Ok (bb ++ [Z.shiftr v 24; Z.land (Z.shiftr v 16) 255;
                  Z.land (Z.shiftr v 8) 255; Z.land v 255])
  else Err (BuilderRange v).

Definition pushBuffer (b : list Z) (bb : t) : t := bb ++ b.

Definition toBuffer (bb : t) : list Z := bb.

End BufferBuilder.

Module BufferReader.

(** The bytes not consumed yet; [bufferReader.length] is their count. *)
Definition t := list Z.

Definition shiftByte (br : t) : result (Z * t) :=
  match br with
  | b :: br' => Ok (b, br')
  | [] => Err ReaderUnderflow
  end.

Definition shiftUInt16 (br : t) : result (Z * t) :=
  match br with
  | b0 :: b1 :: br' => Ok (Z.lor (Z.shiftl b0 8) b1, br')
  | _ => Err ReaderUnderflow
  end.

Definition shiftBuffer (n : Z) (br : t) : result (list Z * t) :=
  if Z.of_nat (length br) <? n then Err ReaderUnderflow
  else Ok (take (Z.to_nat n) br, drop (Z.to_nat n) br).

End BufferReader.

(** ** lib/helpers.js *)
Module helpers.

(** [Math.floor(value) !== value] *)
Definition isFractional (value : Q) : bool :=
  negb (Qeq_bool (inject_Z (Qfloor value)) value).

(** [value > bound] and [value <= bound] on numbers. *)
Definition gtQ (value : Q) (bound : Z) : bool := negb (Qle_bool value (inject_Z bound)).
Definition leQ (value : Q) (bound : Z) : bool := Qle_bool value (inject_Z bound).

Definition encodeNumericValue (value : Q) : list Z :=
  if isFractional value || gtQ value 4294967295 then
    Buffer.writeDoubleBE (Buffer.alloc 8) value 0
  else
    let v := Qfloor value in
    if leQ value 255 then
      Buffer.from_array [v]
    else if leQ value 65535 then
      Buffer.writeUInt16BE (Buffer.alloc 2) v 0
    else if leQ value 16777215 then
      Buffer.from_array
        [Z.shiftr (Z.land 16711680 v) 16; Z.shiftr (Z.land 65280 v) 8; Z.land 255 v]
    else
      Buffer.writeUInt32BE (Buffer.alloc 4) v 0.

Definition decodeNumericValue (buffer : list Z) : Q :=
  let length := length buffer in
  if (length =? 0)%nat then 0%Q
  else if (length =? 1)%nat then inject_Z (Buffer.get buffer 0)
  else if (length =? 2)%nat then inject_Z (Buffer.readUInt16BE buffer 0)
  else if (length =? 3)%nat then
    inject_Z (Z.lor (Z.shiftl (Buffer.get buffer 1) 8)
                    (Buffer.get buffer 2 + Z.shiftl (Buffer.get buffer 0) 16))
  else if (length <? 8)%nat then inject_Z (Buffer.readUInt32BE buffer 0)
  else Buffer.readDoubleBE buffer 0.

(** [Math.floor(Math.log(blockSize) / Math.log(2))] is the binary
    logarithm rounded down, for a positive [blockSize]. *)
Definition encodeBlockSize (blockSize : Z) : Z :=
  let blockSzx := Z.log2 blockSize - 4 in
  if 6 <? blockSzx then 6
  else if blockSzx <? 0 then 0
  else blockSzx.

Definition decodeBlockSize (blockSzx : Z) : Z :=
  let blockSzx := if blockSzx <? 0 then 0 else if 6 <? blockSzx then 6 else blockSzx in
  Z.shiftl 1 (blockSzx + 4).

Definition hexDigit (d : Z) : ascii :=
  if d <? 10 then ascii_of_nat (Z.to_nat (48 + d))
  else ascii_of_nat (Z.to_nat (87 + d)).

Fixpoint toString16_digits (fuel : nat) (n : Z) (acc : string) : string :=
  match fuel with
  | O => acc
  | S fuel' =>
      let acc' := String (hexDigit (n mod 16)) acc in
      if n <? 16 then acc' else toString16_digits fuel' (n / 16) acc'
  end.

(** [n.toString(16)] for a non-negative integer. *)
Definition toString16 (n : Z) : string :=
  toString16_digits (S (Z.to_nat (Z.log2 n))) n "".

(** The loop body of [convertToHexString], from index [i] on. *)
Fixpoint convertToHexString_loop (i : nat) (separator : string) (buffer : list Z)
  : string :=
  match buffer with
  | [] => ""
  | b :: buffer' =>
      (if (0 <? i)%nat then separator else "")
      +:+ (if b <? 10 then "0" else "")
      +:+ toString16 b
      +:+ convertToHexString_loop (S i) separator buffer'
  end.

(** [convertToHexString(buffer, separator)]; a missing separator is
    [None]. *)
Definition convertToHexString (buffer : option (list Z)) (separator : option string)
  : string :=
  match buffer with
  | None => ""
  | Some [] => ""
  | Some bytes =>
      convertToHexString_loop 0 (default "" separator) bytes
  end.

End helpers.

(** ** lib/codeRegistry.js *)
Module codeRegistry.

Record CodeDefinition := {
  code : Z;
  name : string;
  description : string
}.

Definition isRequest (d : CodeDefinition) : bool := (1 <=? code d) && (code d <=? 31).
Definition isResponse (d : CodeDefinition) : bool := 64 <=? code d.
Definition isSuccess (d : CodeDefinition) : bool :=
  Z.shiftr (Z.land (code d) 224) 5 =? 2.
Definition isClientError (d : CodeDefinition) : bool :=
  Z.shiftr (Z.land (code d) 224) 5 =? 4.
Definition isServerError (d : CodeDefinition) : bool :=
  Z.shiftr (Z.land (code d) 224) 5 =? 5.

(** [register(code, name, description)] on the module's [codeMap]. *)
Definition register (codeMap : gmap Z CodeDefinition) (entry : Z * string * string)
  : gmap Z CodeDefinition :=
  let '(code, name, description) := entry in
  <[code := {| code := code; name := name; description := description |}]> codeMap.

Definition codeMap : gmap Z CodeDefinition :=
  foldl register ∅
    [(0, "empty", "Empty");
     (1, "get", "GET");
     (2, "post", "POST");
     (3, "put", "PUT");
     (4, "delete", "DELETE");
     (65, "created", "2.01 Created");
     (66, "deleted", "2.02 Deleted");
     (67, "valid", "2.03 Valid");
     (68, "changed", "2.04 Changed");
     (69, "content", "2.05 Content");
     (128, "badRequest", "4.00 Bad Request");
     (129, "unauthorized", "4.01 Unauthorized");
     (130, "badOption", "4.02 Bad Option");
     (131, "forbidden", "4.03 Forbidden");
     (132, "notFound", "4.04 Not Found");
     (133, "methodNotAllowed", "4.05 Method Not Allowed");
     (134, "notAcceptable", "4.06 Not Acceptable");
     (136, "requestEntityIncomplete", "4.08 Request Entity Incomplete");
     (140, "preconditionFailed", "4.12 Precondition Failed");
     (141, "requestEntityTooLarge", "4.13 Request Entity Too Large");
     (143, "unsupportedMediaType", "4.15 Unsupported Media Type");
     (160, "internalServerError", "5.00 Internal Server Error");
     (161, "notImplemented", "5.01 Not Implemented");
     (162, "badGateway", "5.02 Bad Gateway");
     (163, "serviceUnavailable", "5.03 Service Unavailable");
     (164, "gatewayTimeout", "5.04 Gateway Timeout");
     (165, "proxyingNotSupported", "5.05 Proxying Not Supported")].

(** [get(code)] for a numeric argument. *)
Definition get (code : Z) : result CodeDefinition :=
  match codeMap !! code with
  | Some definition => Ok definition
  | None => Err (UnknownMessageCode code)
  end.

End codeRegistry.

(** ** lib/optionNumberRegistry.js *)
Module optionNumberRegistry.

Record OptionDefinition := {
  propertyName : string;
  number : Z;
  name : string;
  critical : bool;
  unsafe : bool;
  noCacheKey : bool;
  repeatable : bool;
  format : string;
  minLength : Z;
  maxLength : Z;
  defaultValue : option Z
}.

(** The argument of [register]: absent properties are [None] / [false]. *)
Record definition := {
  d_propertyName : string;
  d_number : Z;
  d_name : string;
  d_critical : bool;
  d_unsafe : bool;
  d_noCacheKey : bool;
  d_repeatable : bool;
  d_format : option string;
  d_minLength : option Z;
  d_maxLength : option Z;
  d_defaultValue : option Z
}.

Definition plain (propertyName : string) (number : Z) (name : string) : definition :=
  {| d_propertyName := propertyName; d_number := number; d_name := name;
     d_critical := false; d_unsafe := false; d_noCacheKey := false;
     d_repeatable := false; d_format := None; d_minLength := None;
     d_maxLength := None; d_defaultValue := None |}.

Definition with_critical (d : definition) : definition :=
  {| d_propertyName := d_propertyName d; d_number := d_number d; d_name := d_name d;
     d_critical := true; d_unsafe := d_unsafe d; d_noCacheKey := d_noCacheKey d;
     d_repeatable := d_repeatable d; d_format := d_format d;
     d_minLength := d_minLength d; d_maxLength := d_maxLength d;
     d_defaultValue := d_defaultValue d |}.

Definition with_unsafe (d : definition) : definition :=
  {| d_propertyName := d_propertyName d; d_number := d_number d; d_name := d_name d;
     d_critical := d_critical d; d_unsafe := true; d_noCacheKey := d_noCacheKey d;
     d_repeatable := d_repeatable d; d_format := d_format d;
     d_minLength := d_minLength d; d_maxLength := d_maxLength d;
     d_defaultValue := d_defaultValue d |}.

Definition with_noCacheKey (d : definition) : definition :=
  {| d_propertyName := d_propertyName d; d_number := d_number d; d_name := d_name d;
     d_critical := d_critical d; d_unsafe := d_unsafe d; d_noCacheKey := true;
     d_repeatable := d_repeatable d; d_format := d_format d;
     d_minLength := d_minLength d; d_maxLength := d_maxLength d;
     d_defaultValue := d_defaultValue d |}.

Definition with_repeatable (d : definition) : definition :=
  {| d_propertyName := d_propertyName d; d_number := d_number d; d_name := d_name d;
     d_critical := d_critical d; d_unsafe := d_unsafe d; d_noCacheKey := d_noCacheKey d;
     d_repeatable := true; d_format := d_format d;
     d_minLength := d_minLength d; d_maxLength := d_maxLength d;
     d_defaultValue := d_defaultValue d |}.

Definition with_format (f : string) (d : definition) : definition :=
  {| d_propertyName := d_propertyName d; d_number := d_number d; d_name := d_name d;
     d_critical := d_critical d; d_unsafe := d_unsafe d; d_noCacheKey := d_noCacheKey d;
     d_repeatable := d_repeatable d; d_format := Some f;
     d_minLength := d_minLength d; d_maxLength := d_maxLength d;
     d_defaultValue := d_defaultValue d |}.

Definition with_minLength (n : Z) (d : definition) : definition :=
  {| d_propertyName := d_propertyName d; d_number := d_number d; d_name := d_name d;
     d_critical := d_critical d; d_unsafe := d_unsafe d; d_noCacheKey := d_noCacheKey d;
     d_repeatable := d_repeatable d; d_format := d_format d;
     d_minLength := Some n; d_maxLength := d_maxLength d;
     d_defaultValue := d_defaultValue d |}.

Definition with_maxLength (n : Z) (d : definition) : definition :=
  {| d_propertyName := d_propertyName d; d_number := d_number d; d_name := d_name d;
     d_critical := d_critical d; d_unsafe := d_unsafe d; d_noCacheKey := d_noCacheKey d;
     d_repeatable := d_repeatable d; d_format := d_format d;
     d_minLength := d_minLength d; d_maxLength := Some n;
     d_defaultValue := d_defaultValue d |}.

Definition with_defaultValue (v : Z) (d : definition) : definition :=
  {| d_propertyName := d_propertyName d; d_number := d_number d; d_name := d_name d;
     d_critical := d_critical d; d_unsafe := d_unsafe d; d_noCacheKey := d_noCacheKey d;
     d_repeatable := d_repeatable d; d_format := d_format d;
     d_minLength := d_minLength d; d_maxLength := d_maxLength d;
     d_defaultValue := Some v |}.

(** [new OptionDefinition(definition)] without its [create] and
    [toString] members, which only build and print options. *)
Definition OptionDefinition_new (d : definition) : OptionDefinition :=
  {| propertyName := d_propertyName d;
     number := d_number d;
     name := d_name d;
     critical := d_critical d;
     unsafe := d_unsafe d;
     noCacheKey := d_noCacheKey d;
     repeatable := d_repeatable d;
     format := default "opaque" (d_format d);
     minLength := default 0 (d_minLength d);
     maxLength := default 0 (d_maxLength d);
     defaultValue := d_defaultValue d |}.

(** [register(optionDefinition)] on the module's [numberMap]. *)
Definition register (numberMap : gmap Z OptionDefinition) (d : definition)
  : gmap Z OptionDefinition :=
  let optionDefinition := OptionDefinition_new d in
  <[number optionDefinition := optionDefinition]> numberMap.

Definition numberMap : gmap Z OptionDefinition :=
  foldl register ∅
    [with_maxLength 8 (with_repeatable (with_critical (plain "ifMatch" 1 "If-Match")));
     with_maxLength 255 (with_minLength 1 (with_format "string"
       (with_unsafe (with_critical (plain "uriHost" 3 "Uri-Host")))));
     with_maxLength 8 (with_minLength 1 (with_repeatable (plain "eTag" 4 "ETag")));
     with_format "empty" (with_critical (plain "ifNoneMatch" 5 "If-None-Match"));
     with_format "uint" (with_critical (plain "observe" 6 "Observe"));
     with_maxLength 2 (with_format "uint"
       (with_unsafe (with_critical (plain "uriPort" 7 "Uri-Port"))));
     with_maxLength 255 (with_format "string"
       (with_repeatable (plain "locationPath" 8 "Location-Path")));
     with_maxLength 255 (with_format "string" (with_repeatable
       (with_unsafe (with_critical (plain "uriPath" 11 "Uri-Path")))));
     with_maxLength 2 (with_format "uint" (plain "contentFormat" 12 "Content-Format"));
     with_defaultValue 60 (with_maxLength 4 (with_format "uint"
       (with_unsafe (plain "maxAge" 14 "Max-Age"))));
     with_maxLength 255 (with_format "string" (with_repeatable
       (with_unsafe (with_critical (plain "uriQuery" 15 "Uri-Query")))));
     with_maxLength 2 (with_format "uint" (plain "accept" 16 "Accept"));
     with_maxLength 255 (with_format "string"
       (with_repeatable (plain "locationQuery" 20 "Location-Query")));
     with_maxLength 3 (with_format "uint"
       (with_unsafe (with_critical (plain "block2" 23 "Block2"))));
     with_maxLength 3 (with_format "uint"
       (with_unsafe (with_critical (plain "block1" 27 "Block1"))));
     with_maxLength 4 (with_format "uint" (with_noCacheKey (plain "size2" 28 "Size2")));
     with_maxLength 1034 (with_minLength 1
       (with_unsafe (with_critical (plain "proxyUri" 35 "Proxy-Uri"))));
     with_maxLength 255 (with_minLength 1 (with_format "string"
       (with_unsafe (with_critical (plain "proxyScheme" 39 "Proxy-Scheme")))));
     with_maxLength 4 (with_format "uint" (with_noCacheKey (plain "size1" 60 "Size1")))].

(** [get(number)] for a numeric argument. *)
Definition get (number : Z) : result OptionDefinition :=
  match numberMap !! number with
  | Some optionDefinition => Ok optionDefinition
  | None => Err (UnknownMessageOption number)
  end.

End optionNumberRegistry.

(** ** JavaScript string primitives used by the library *)
Module JsString.

(** [s.indexOf(c) !== -1] for a one-character [c]. *)
Fixpoint contains (c : ascii) (s : string) : bool :=
  match s with
  | EmptyString => false
  | String x s' => if Ascii.eqb x c then true else contains c s'
  end.

Fixpoint rev_onto (s acc : string) : string :=
  match s with
  | EmptyString => acc
  | String c s' => rev_onto s' (String c acc)
  end.

(** [s.split(sep)] for a non-empty [sep]: [skip] counts the characters
    of a separator still to pass over, [cur] is the current piece in
    reverse. *)
Fixpoint split_from (sep : string) (skip : nat) (cur : string) (s : string)
  : list string :=
  match s with
  | EmptyString => [rev_onto cur ""]
  | String c s' =>
      match skip with
      | S skip' => split_from sep skip' cur s'
      | O =>
          if String.prefix sep s
          then rev_onto cur "" :: split_from sep (String.length sep - 1) "" s'
          else split_from sep O (String c cur) s'
      end
  end.

Definition split (sep : string) (s : string) : list string :=
  split_from sep O "" s.

(** [parts.join(sep)] *)
Fixpoint join (sep : string) (parts : list string) : string :=
  match parts with
  | [] => ""
  | [p] => p
  | p :: parts' => p +:+ sep +:+ join sep parts'
  end.

Definition lowerChar (c : ascii) : ascii :=
  let n := nat_of_ascii c in
  if ((65 <=? n) && (n <=? 90))%nat then ascii_of_nat (n + 32) else c.

(** [s.toLowerCase()] on ASCII text. *)
Fixpoint toLowerCase (s : string) : string :=
  match s with
  | EmptyString => EmptyString
  | String c s' => String (lowerChar c) (toLowerCase s')
  end.

(** Decimal [String(n)] of a non-negative integer. *)
Fixpoint ofZ_digits (fuel : nat) (n : Z) (acc : string) : string :=
  match fuel with
  | O => acc
  | S fuel' =>
      let acc' := String (ascii_of_nat (Z.to_nat (48 + n mod 10))) acc in
      if n <? 10 then acc' else ofZ_digits fuel' (n / 10) acc'
  end.

Definition ofZ (n : Z) : string := ofZ_digits (S (Z.to_nat (Z.log2 n))) n "".

(** [buffer.toString()] on ASCII bytes: one character per byte. *)
Fixpoint ofBytes (bytes : list Z) : string :=
  match bytes with
  | [] => ""
  | b :: bytes' => String (ascii_of_nat (Z.to_nat b)) (ofBytes bytes')
  end.

End JsString.

(** ** lib/EndpointAddress.js *)
Module EndpointAddress.

Definition DEFAULT_PORT : Z := 5683.

Definition pad (str : string) : string :=
  let len := String.length str in
  if (len =? 4)%nat then str
  else if (len =? 1)%nat then "000" +:+ str
  else if (len =? 2)%nat then "00" +:+ str
  else "0" +:+ str.

Definition expandIpv6 (address : string) : string :=
  if (String.length address =? 39)%nat then address
  else
    let address := JsString.split "::" address in
    let basePart := JsString.split ":" (nth 0 address "") in
    let secondPart :=
      if (length address =? 1)%nat then []
      else JsString.split ":" (nth 1 address "") in
    let basePart :=
      match basePart with
      | [EmptyString] => []
      | _ => basePart
      end in
    let secondPart :=
      match secondPart with
      | [EmptyString] => []
      | _ => secondPart
      end in
    let gap := (8 - (length basePart + length secondPart))%nat in
    let result := map pad basePart ++ replicate gap "0000" ++ map pad secondPart in
    JsString.toLowerCase (JsString.join ":" result).

Record t := {
  address : string;
  port : Z
}.

(** [new EndpointAddress(address, port)]; an omitted port is [None]. *)
Definition new (address : string) (port : option Z) : t :=
  {| address :=
       if negb (JsString.contains ":" address) then address else expandIpv6 address;
     port :=
       match port with
       | None => DEFAULT_PORT
       | Some p => if p =? 0 then DEFAULT_PORT else p
       end |}.

Definition isIPv6 (e : t) : bool := JsString.contains ":" (address e).

Definition toString (e : t) : string :=
  let str := if isIPv6 e then "[" +:+ address e +:+ "]" else address e in
  if negb (port e =? DEFAULT_PORT) then str +:+ ":" +:+ JsString.ofZ (port e) else str.

Definition getAddress (e : t) : string := address e.
Definition getPort (e : t) : Z := port e.

End EndpointAddress.

(** ** lib/Option.js *)
Module Option.

Import optionNumberRegistry.

Record t := {
  definition : OptionDefinition;
  data : option (list Z)
}.

(** [new Option(number, data)] *)
Definition new (number : Z) (data : option (list Z)) : result t :=
  definition ← optionNumberRegistry.get number;
  mret {| definition := definition; data := data |}.

Definition getDefinition (o : t) : OptionDefinition := definition o.
Definition getNumber (o : t) : Z := number (definition o).
Definition getName (o : t) : string := name (definition o).

Definition hasData (o : t) : bool :=
  match data o with
  | Some d => (0 <? length d)%nat
  | None => false
  end.

Definition getData (o : t) : list Z := default [] (data o).

Definition getStringValue (o : t) : string :=
  match data o with
  | None => ""
  | Some d => JsString.ofBytes d
  end.

Definition getNumericValue (o : t) : Q :=
  match data o with
  | None => 0%Q
  | Some d => helpers.decodeNumericValue d
  end.

Definition getOptionNibble (value : Z) : Z :=
  if value <=? 12 then value
  else if value <=? 255 + 13 then 13
  else 14.

Definition pushExtendedOptionValue (bufferBuilder : BufferBuilder.t) (nibble value : Z)
  : result BufferBuilder.t :=
  if nibble =? 13 then BufferBuilder.pushUInt8 (value - 13) bufferBuilder
  else if nibble =? 14 then BufferBuilder.pushUInt16 (value - 269) bufferBuilder
  else Ok bufferBuilder.

(** The body of [Option.prototype.serialize], which reads nothing of
    the option but its data. *)
Definition serialize_data (data : option (list Z)) (bufferBuilder : BufferBuilder.t)
  (optionDelta : Z) : result BufferBuilder.t :=
  let optionLength :=
    match data with
    | None => 0
    | Some d => Z.of_nat (length d)
    end in
  let deltaNibble := getOptionNibble optionDelta in
  let lengthNibble := getOptionNibble optionLength in
  bufferBuilder ←
    BufferBuilder.pushByte (Z.lor (Z.shiftl deltaNibble 4) lengthNibble) bufferBuilder;
  bufferBuilder ← pushExtendedOptionValue bufferBuilder deltaNibble optionDelta;
  bufferBuilder ← pushExtendedOptionValue bufferBuilder lengthNibble optionLength;
  if 0 <? optionLength
  then Ok (BufferBuilder.pushBuffer (default [] data) bufferBuilder)
  else Ok bufferBuilder.

Definition serialize (o : t) (bufferBuilder : BufferBuilder.t) (optionDelta : Z)
  : result BufferBuilder.t :=
  serialize_data (data o) bufferBuilder optionDelta.

End Option.

(** ** lib/Options.js *)
Module Options.

Record t := {
  list_ : list Option.t;
  sorted : bool
}.

(** [new Options(optionList)] *)
Definition new (optionList : list Option.t) : t :=
  {| list_ := optionList; sorted := false |}.

(** [list.sort(sortOptionsByNumber)]: a stable sort on the option number. *)
Fixpoint sort_insert (o : Option.t) (l : list Option.t) : list Option.t :=
  match l with
  | [] => [o]
  | x :: l' =>
      if Option.getNumber o <=? Option.getNumber x then o :: x :: l'
      else x :: sort_insert o l'
  end.

Definition sort_list (l : list Option.t) : list Option.t :=
  foldr sort_insert [] l.

Definition sort (os : t) : t :=
  if sorted os then os
  else {| list_ := sort_list (list_ os); sorted := true |}.

(** The [for] loop of [serialize] over the sorted list. *)
Fixpoint serialize_loop (sortedOptions : list Option.t) (lastOptionNumber : Z)
  (bufferBuilder : BufferBuilder.t) : result BufferBuilder.t :=
  match sortedOptions with
  | [] => Ok bufferBuilder
  | option :: rest =>
      let optionNumber := Option.getNumber option in
      bufferBuilder ←
        Option.serialize option bufferBuilder (optionNumber - lastOptionNumber);
      serialize_loop rest optionNumber bufferBuilder
  end.

(** [serialize] sorts the receiver and appends to the builder. *)
Definition serialize (os : t) (bufferBuilder : BufferBuilder.t)
  : result (t * BufferBuilder.t) :=
  let os := sort os in
  bufferBuilder ← serialize_loop (list_ os) 0 bufferBuilder;
  mret (os, bufferBuilder).

Definition count (os : t) : nat := length (list_ os).

Definition hasAnyOptions (os : t) : bool := (0 <? length (list_ os))%nat.

Definition getAllOptions (os : t) : list Option.t := list_ (sort os).

Definition hasOption (os : t) (optionNumber : Z) : bool :=
  existsb (fun o => Option.getNumber o =? optionNumber) (list_ os).

Definition getOptions (os : t) (optionNumber : Z) : list Option.t :=
  List.filter (fun o => Option.getNumber o =? optionNumber) (list_ os).

Definition getFirstOption (os : t) (optionNumber : Z) : option Option.t :=
  List.find (fun o => Option.getNumber o =? optionNumber) (list_ os).

Definition addOption (os : t) (o : Option.t) : t :=
  {| list_ := list_ os ++ [o]; sorted := false |}.

Definition removeAllOptions (os : t) : t :=
  {| list_ := []; sorted := true |}.

Definition removeOptions (os : t) (optionNumber : Z) : t :=
  {| list_ := List.filter (fun o => negb (Option.getNumber o =? optionNumber)) (list_ os);
     sorted := sorted os |}.

Definition setOption (os : t) (o : Option.t) : t :=
  addOption (removeOptions os (Option.getNumber o)) o.

(** One round of the [while] loop of [Options.unserialize]: [None] when
    the payload marker ends the option list. *)
Definition unserialize_step (bufferReader : BufferReader.t) (lastOptionNumber : Z)
  : result (option (Option.t * Z) * BufferReader.t) :=
  '(optionHeader, bufferReader) ← BufferReader.shiftByte bufferReader;
  if optionHeader =? 255 then Ok (None, bufferReader)
  else
    let optionDelta := Z.shiftr (Z.land optionHeader 240) 4 in
    let optionLength := Z.land optionHeader 15 in
    if ((optionDelta =? 15) && negb (optionLength =? 15))
       || ((optionLength =? 15) && negb (optionDelta =? 15))
    then Err InvalidPayloadMarker
    else
      '(optionDelta, bufferReader) ←
        (if optionDelta =? 13 then
           '(b, bufferReader) ← BufferReader.shiftByte bufferReader;
           mret (b + 13, bufferReader)
         else if optionDelta =? 14 then
           '(w, bufferReader) ← BufferReader.shiftUInt16 bufferReader;
           mret (w + 269, bufferReader)
         else Ok (optionDelta, bufferReader));
      '(optionLength, bufferReader) ←
        (if optionLength =? 13 then
           '(b, bufferReader) ← BufferReader.shiftByte bufferReader;
           mret (b + 13, bufferReader)
         else if optionLength =? 14 then
           '(w, bufferReader) ← BufferReader.shiftUInt16 bufferReader;
           mret (w + 269, bufferReader)
         else Ok (optionLength, bufferReader));
      let optionNumber := lastOptionNumber + optionDelta in
      '(optionData, bufferReader) ←
        (if 0 <? optionLength then
           '(d, bufferReader) ← BufferReader.shiftBuffer optionLength bufferReader;
           mret (Some d, bufferReader)
         else Ok (None, bufferReader));
      option ← Option.new optionNumber optionData;
      mret (Some (option, optionNumber), bufferReader).

(** [Options.unserialize(bufferReader, message)]: the options are added
    to [options], the option container of [message].  Every round
    consumes a byte, so [fuel] above the reader's length is never
    exhausted. *)
Fixpoint unserialize_loop (fuel : nat) (bufferReader : BufferReader.t)
  (lastOptionNumber : Z) (options : t) : result (t * BufferReader.t) :=
  match fuel with
  | O => Err LoopBound
  | S fuel' =>
      if (0 <? length bufferReader)%nat then
        '(step, bufferReader) ← unserialize_step bufferReader lastOptionNumber;
        match step with
        | None => Ok (options, bufferReader)
        | Some (option, optionNumber) =>
            unserialize_loop fuel' bufferReader optionNumber (addOption options option)
        end
      else Ok (options, bufferReader)
  end.

Definition unserialize (bufferReader : BufferReader.t) (options : t)
  : result (t * BufferReader.t) :=
  unserialize_loop (S (length bufferReader)) bufferReader 0 options.

End Options.

(** ** lib/BlockOption.js *)
Module BlockOption.

Record t := {
  optionNumber : Z;
  num : Z;
  m : bool;
  szx : Z;
  size : Z
}.

(** [new BlockOption(optionNumber, num, m, szx)] *)
Definition new (optionNumber num : Z) (m : bool) (szx : Z) : t :=
  {| optionNumber := optionNumber; num := num; m := m; szx := szx;
     size := helpers.decodeBlockSize szx |}.

(** [BlockOption.decode(data, optionNumber)]; an omitted (or zero)
    option number becomes [-1]. *)
Definition decode (data : list Z) (optionNumber : option Z) : t :=
  let last := Buffer.get data (length data - 1) in
  let m := (0 <? length data)%nat && (Z.land last 8 =? 8) in
  let szx := if (0 <? length data)%nat then Z.land last 7 else 0 in
  let num :=
    match length data with
    | 0%nat => 0
    | 1%nat => Buffer.get data 0
    | 2%nat => Buffer.readUInt16BE data 0
    | _ => Z.lor (Z.shiftl (Buffer.get data 0) 16) (Buffer.readUInt16BE data 1)
    end in
  let num := Z.shiftr num 4 in
  new (match optionNumber with
       | Some n => if n =? 0 then -1 else n
       | None => -1
       end) num m szx.

(** [BlockOption.encode(num, m, szx)] *)
Definition encode (num : Z) (m : bool) (szx : Z) : list Z :=
  let data :=
    if num <=? 15 then Buffer.from_array [Z.shiftl num 4]
    else if num <=? 4095 then
      Buffer.from_array [Z.shiftr (Z.land num 4080) 4; Z.shiftl (Z.land num 15) 4]
    else
      Buffer.from_array
        [Z.shiftr (Z.land num 1044480) 12; Z.shiftr (Z.land num 4080) 4;
         Z.shiftl (Z.land num 15) 4] in
  let lastByteIndex := (length data - 1)%nat in
  let data := alter (fun b => Z.land (Z.lor b szx) 255) lastByteIndex data in
  if m then alter (fun b => Z.land (Z.lor b 8) 255) lastByteIndex data else data.

End BlockOption.

(** ** lib/Message.js *)
Module Message.

(** [Message.Type] *)
Inductive Type_ := CON | NON | ACK | RST.

Definition Type_value (t : Type_) : Z :=
  match t with
  | CON => 0
  | NON => 1
  | ACK => 2
  | RST => 3
  end.

#[global] Instance Type_eq_dec : EqDecision Type_.
Proof. solve_decision. Defined.

(** [Message.getTypeString] *)
Definition getTypeString_of (t : Type_) : string :=
  match t with
  | CON => "CON"
  | NON => "NON"
  | ACK => "ACK"
  | RST => "RST"
  end.

(** [Message.Code] *)
Module Code.
Definition EMPTY : Z := 0.
Definition GET : Z := 1.
Definition POST : Z := 2.
Definition PUT : Z := 3.
Definition DELETE : Z := 4.
Definition CREATED : Z := 65.
Definition DELETED : Z := 66.
Definition VALID : Z := 67.
Definition CHANGED : Z := 68.
Definition CONTENT : Z := 69.
End Code.

(** [Message.Option] *)
Module Option_.
Definition IF_MATCH : Z := 1.
Definition URI_HOST : Z := 3.
Definition ETAG : Z := 4.
Definition IF_NONE_MATCH : Z := 5.
Definition OBSERVE : Z := 6.
Definition URI_PORT : Z := 7.
Definition LOCATION_PATH : Z := 8.
Definition URI_PATH : Z := 11.
Definition CONTENT_FORMAT : Z := 12.
Definition MAX_AGE : Z := 14.
Definition URI_QUERY : Z := 15.
Definition ACCEPT : Z := 16.
Definition LOCATION_QUERY : Z := 20.
Definition BLOCK2 : Z := 23.
Definition BLOCK1 : Z := 27.
Definition SIZE2 : Z := 28.
Definition PROXY_URI : Z := 35.
Definition PROXY_SCHEME : Z := 39.
Definition SIZE1 : Z := 60.
End Option_.

Record t := {
  type : Type_;
  codeDefinition : codeRegistry.CodeDefinition;
  id : Z;
  token : option (list Z);
  options : Options.t;
  payload : option (list Z);
  remoteEndpoint : EndpointAddress.t;
  timestamp : Z
}.

Definition EMPTY_definition : codeRegistry.CodeDefinition :=
  {| codeRegistry.code := 0; codeRegistry.name := "empty";
     codeRegistry.description := "Empty" |}.

(** [new Message()] *)
Definition new : t :=
  {| type := CON;
     codeDefinition := EMPTY_definition;
     id := 0;
     token := None;
     options := Options.new [];
     payload := None;
     remoteEndpoint := EndpointAddress.new "127.0.0.1" None;
     timestamp := -1 |}.

Definition with_type (v : Type_) (msg : t) : t :=
  {| type := v; codeDefinition := codeDefinition msg; id := id msg;
     token := token msg; options := options msg; payload := payload msg;
     remoteEndpoint := remoteEndpoint msg; timestamp := timestamp msg |}.

Definition with_codeDefinition (v : codeRegistry.CodeDefinition) (msg : t) : t :=
  {| type := type msg; codeDefinition := v; id := id msg;
     token := token msg; options := options msg; payload := payload msg;
     remoteEndpoint := remoteEndpoint msg; timestamp := timestamp msg |}.

Definition with_id (v : Z) (msg : t) : t :=
  {| type := type msg; codeDefinition := codeDefinition msg; id := v;
     token := token msg; options := options msg; payload := payload msg;
     remoteEndpoint := remoteEndpoint msg; timestamp := timestamp msg |}.

Definition with_token (v : option (list Z)) (msg : t) : t :=
  {| type := type msg; codeDefinition := codeDefinition msg; id := id msg;
     token := v; options := options msg; payload := payload msg;
     remoteEndpoint := remoteEndpoint msg; timestamp := timestamp msg |}.

Definition with_options (v : Options.t) (msg : t) : t :=
  {| type := type msg; codeDefinition := codeDefinition msg; id := id msg;
     token := token msg; options := v; payload := payload msg;
     remoteEndpoint := remoteEndpoint msg; timestamp := timestamp msg |}.

Definition with_payload (v : option (list Z)) (msg : t) : t :=
  {| type := type msg; codeDefinition := codeDefinition msg; id := id msg;
     token := token msg; options := options msg; payload := v;
     remoteEndpoint := remoteEndpoint msg; timestamp := timestamp msg |}.

Definition with_remoteEndpoint (v : EndpointAddress.t) (msg : t) : t :=
  {| type := type msg; codeDefinition := codeDefinition msg; id := id msg;
     token := token msg; options := options msg; payload := payload msg;
     remoteEndpoint := v; timestamp := timestamp msg |}.

Definition with_timestamp (v : Z) (msg : t) : t :=
  {| type := type msg; codeDefinition := codeDefinition msg; id := id msg;
     token := token msg; options := options msg; payload := payload msg;
     remoteEndpoint := remoteEndpoint msg; timestamp := v |}.

Definition getType (msg : t) : Type_ := type msg.
Definition getTypeString (msg : t) : string := getTypeString_of (type msg).

(** [setType] with a numeric argument. *)
Definition setType (v : Z) (msg : t) : result t :=
  if v =? 0 then Ok (with_type CON msg)
  else if v =? 1 then Ok (with_type NON msg)
  else if v =? 2 then Ok (with_type ACK msg)
  else if v =? 3 then Ok (with_type RST msg)
  else Err (InvalidMessageType v).

Definition isConfirmable (msg : t) : bool := bool_decide (type msg = CON).
Definition isNonConfirmable (msg : t) : bool := bool_decide (type msg = NON).
Definition isAcknowledgement (msg : t) : bool := bool_decide (type msg = ACK).
Definition isReset (msg : t) : bool := bool_decide (type msg = RST).

Definition getCode (msg : t) : Z := codeRegistry.code (codeDefinition msg).

Definition isEmptyAcknowledgement (msg : t) : bool :=
  (getCode msg =? Code.EMPTY) && bool_decide (type msg = ACK).

Definition isReply (msg : t) : bool :=
  bool_decide (type msg = ACK) || bool_decide (type msg = RST).

(** [setCode] with a numeric argument. *)
Definition setCode (code : Z) (msg : t) : result t :=
  definition ← codeRegistry.get code;
  mret (with_codeDefinition definition msg).

Definition isEmpty (msg : t) : bool := getCode msg =? Code.EMPTY.
Definition isRequest (msg : t) : bool := codeRegistry.isRequest (codeDefinition msg).
Definition isResponse (msg : t) : bool := codeRegistry.isResponse (codeDefinition msg).
Definition isSuccess (msg : t) : bool := codeRegistry.isSuccess (codeDefinition msg).

Definition getId (msg : t) : Z := id msg.

Definition setId (v : Z) (msg : t) : result t :=
  if (v <? 0) || (65535 <? v) then Err (InvalidMessageId v)
  else Ok (with_id v msg).

Definition getTokenLength (msg : t) : Z :=
  match token msg with
  | None => 0
  | Some tk => Z.of_nat (length tk)
  end.

Definition getToken (msg : t) : list Z := default [] (token msg).

Definition getTokenString (msg : t) : string :=
  helpers.convertToHexString (token msg) None.

(** [setToken] with a buffer (or [null]) argument. *)
Definition setToken (tk : option (list Z)) (msg : t) : result t :=
  match tk with
  | None => Ok (with_token None msg)
  | Some [] => Ok (with_token None msg)
  | Some bytes =>
      if (8 <? length bytes)%nat then Err (TokenTooLong (Z.of_nat (length bytes)))
      else Ok (with_token (Some bytes) msg)
  end.

Definition getRemoteEndpoint (msg : t) : EndpointAddress.t := remoteEndpoint msg.

(** [setRemoteEndpoint(address)] with an [EndpointAddress] argument. *)
Definition setRemoteEndpoint (e : EndpointAddress.t) (msg : t) : t :=
  with_remoteEndpoint e msg.

(** [setRemoteEndpoint(address, port)] with a string argument. *)
Definition setRemoteEndpoint_string (address : string) (port : option Z) (msg : t) : t :=
  with_remoteEndpoint (EndpointAddress.new address port) msg.

Definition getTimestamp (msg : t) : Z := timestamp msg.

(** [setTimestamp()]: [now] is the value of [Date.now()]. *)
Definition setTimestamp (now : Z) (msg : t) : t := with_timestamp now msg.

Definition getTransactionKey (msg : t) : string :=
  EndpointAddress.toString (remoteEndpoint msg) +:+ "#" +:+ JsString.ofZ (id msg).

Definition getKey (msg : t) : string :=
  getTransactionKey msg +:+ "|" +:+ getTypeString msg.

Definition getExchangeKey (msg : t) : string :=
  EndpointAddress.toString (remoteEndpoint msg) +:+ "|" +:+ getTokenString msg.

Definition hasAnyOptions (msg : t) : bool := Options.hasAnyOptions (options msg).
Definition getAllOptions (msg : t) : list Option.t := Options.getAllOptions (options msg).
Definition setAllOptions (optionList : list Option.t) (msg : t) : t :=
  with_options (Options.new optionList) msg.
Definition hasOption (msg : t) (n : Z) : bool := Options.hasOption (options msg) n.
Definition getOptions (msg : t) (n : Z) : list Option.t := Options.getOptions (options msg) n.
Definition getFirstOption (msg : t) (n : Z) : option Option.t :=
  Options.getFirstOption (options msg) n.
Definition setOption (o : Option.t) (msg : t) : t :=
  with_options (Options.setOption (options msg) o) msg.
Definition addOption (o : Option.t) (msg : t) : t :=
  with_options (Options.addOption (options msg) o) msg.
Definition removeOptions (n : Z) (msg : t) : t :=
  with_options (Options.removeOptions (options msg) n) msg.

Definition hasPayload (msg : t) : bool := bool_decide (payload msg <> None).
Definition getPayload (msg : t) : list Z := default [] (payload msg).

(** [setPayload] with a buffer argument. *)
Definition setPayload (p : list Z) (msg : t) : t :=
  match p with
  | [] => with_payload None msg
  | _ => with_payload (Some p) msg
  end.

Definition getPayloadLength (msg : t) : Z :=
  match payload msg with
  | None => 0
  | Some p => Z.of_nat (length p)
  end.

Definition getBlockOption (msg : t) (optionNumber : Z) : option BlockOption.t :=
  match getFirstOption msg optionNumber with
  | None => None
  | Some blockOption =>
      Some (BlockOption.decode (Option.getData blockOption) (Some optionNumber))
  end.

Definition getBlock1 (msg : t) : option BlockOption.t := getBlockOption msg Option_.BLOCK1.
Definition getBlock2 (msg : t) : option BlockOption.t := getBlockOption msg Option_.BLOCK2.

(** [setBlockOption(optionNumber, num, more, sizeOrSzx)] in its
    positional form. *)
Definition setBlockOption (optionNumber num : Z) (more : bool) (sizeOrSzx : Z) (msg : t)
  : result t :=
  let szx := if sizeOrSzx <? 16 then sizeOrSzx else helpers.encodeBlockSize sizeOrSzx in
  o ← Option.new optionNumber (Some (BlockOption.encode num more szx));
  mret (setOption o msg).

Definition setBlock1 (num : Z) (more : bool) (sizeOrSzx : Z) (msg : t) : result t :=
  setBlockOption Option_.BLOCK1 num more sizeOrSzx msg.

Definition setBlock2 (num : Z) (more : bool) (sizeOrSzx : Z) (msg : t) : result t :=
  setBlockOption Option_.BLOCK2 num more sizeOrSzx msg.

(** [setBlock1(blockOption)] with a [{num, m, szx}] object. *)
Definition setBlock1_object (b : BlockOption.t) (msg : t) : result t :=
  setBlockOption Option_.BLOCK1 (BlockOption.num b) (BlockOption.m b) (BlockOption.szx b) msg.

Definition getNumericOption (msg : t) (optionNumber : Z) : Q :=
  match getFirstOption msg optionNumber with
  | None => (-1)%Q
  | Some option => Option.getNumericValue option
  end.

Definition getObserve (msg : t) : Q := getNumericOption msg Option_.OBSERVE.
Definition getMaxAge (msg : t) : Q := getNumericOption msg Option_.MAX_AGE.
Definition getSize1 (msg : t) : Q := getNumericOption msg Option_.SIZE1.
Definition getSize2 (msg : t) : Q := getNumericOption msg Option_.SIZE2.

Definition getStringSeparatedOption (msg : t) (optionNumber : Z) (separator : string)
  : string :=
  JsString.join separator (map Option.getStringValue (getOptions msg optionNumber)).

Definition getUriPath (msg : t) : string :=
  "/" +:+ getStringSeparatedOption msg Option_.URI_PATH "/".

(** [createReply(type, code)] *)
Definition createReply (msg : t) (type : Type_) (code : Z) : result t :=
  reply ← setCode code new;
  reply ← setType (Type_value type) reply;
  reply ← setId (getId msg) reply;
  mret (setRemoteEndpoint (getRemoteEndpoint msg) reply).

(** [Message.fromBuffer(buffer)]; [now] is the value of [Date.now()]
    read by [setTimestamp()]. *)
Definition fromBuffer (now : Z) (buffer : list Z) : result t :=
  let version := Z.shiftr (Buffer.get buffer 0) 6 in
  if negb (version =? 1) then Err (InvalidCoapVersion version)
  else
    let bufferReader : BufferReader.t := buffer in
    '(firstByte, bufferReader) ← BufferReader.shiftByte bufferReader;
    let message := new in
    let message := setTimestamp now message in
    message ← setType (Z.shiftr (Z.land firstByte 48) 4) message;
    '(code, bufferReader) ← BufferReader.shiftByte bufferReader;
    message ← setCode code message;
    '(id, bufferReader) ← BufferReader.shiftUInt16 bufferReader;
    message ← setId id message;
    let tokenLength := Z.land firstByte 15 in
    '(message, bufferReader) ←
      (if 0 <? tokenLength then
         '(tk, bufferReader) ← BufferReader.shiftBuffer tokenLength bufferReader;
         message ← setToken (Some tk) message;
         mret (message, bufferReader)
       else Ok (message, bufferReader));
    if (length bufferReader =? 0)%nat then Ok message
    else
      '(options, bufferReader) ← Options.unserialize bufferReader (options message);
      let message := with_options options message in
      if (0 <? length bufferReader)%nat then Ok (setPayload bufferReader message)
      else Ok message.

(** [toBuffer()]: the buffer, and the receiver whose options the call
    has sorted. *)
Definition toBuffer (msg : t) : result (list Z * t) :=
  let bufferBuilder := BufferBuilder.empty in
  let tokenLength := getTokenLength msg in
  bufferBuilder ←
    BufferBuilder.pushUInt32
      (Z.lor (Z.lor (Z.lor (Z.lor 1073741824 (Z.shiftl (Type_value (type msg)) 28))
                           (Z.shiftl tokenLength 24))
                    (Z.shiftl (codeRegistry.code (codeDefinition msg)) 16))
             (id msg))
      bufferBuilder;
  let bufferBuilder :=
    if 0 <? tokenLength then BufferBuilder.pushBuffer (getToken msg) bufferBuilder
    else bufferBuilder in
  '(options, bufferBuilder) ←
    (if Options.hasAnyOptions (options msg)
     then Options.serialize (options msg) bufferBuilder
     else Ok (options msg, bufferBuilder));
  bufferBuilder ←
    match payload msg with
    | Some p =>
        bufferBuilder ← BufferBuilder.pushByte 255 bufferBuilder;
        mret (BufferBuilder.pushBuffer p bufferBuilder)
    | None => Ok bufferBuilder
    end;
  mret (BufferBuilder.toBuffer bufferBuilder, with_options options msg).

End Message.

(** ** lib/TokenManager.js *)
Module TokenManager.

Definition MAX_TOKEN_SIZE : Z := 8.
Definition ZERO_TOKEN_ARRAY : list Z := [0; 0; 0; 0; 0; 0; 0; 0].
Definition EMPTY_TOKEN_STRING : string := "".
Definition EMPTY_TOKEN_BUFFER : list Z := [].

Record t := {
  maxSize : Z;
  emptySafekeepingTime : Z;
  currentValue : list Z;
  currentIndex : nat;
  maxReached : bool;
  acquiredTokens : gmap string bool;
  emptyReleaseTime : Z
}.

(** [new TokenManager(options)]; absent options are [None]. *)
Definition new (maxSize emptySafekeepingTime : option Z) : t :=
  {| maxSize :=
       match maxSize with
       | Some n => if (1 <=? n) && (n <=? MAX_TOKEN_SIZE) then n else MAX_TOKEN_SIZE
       | None => MAX_TOKEN_SIZE
       end;
     emptySafekeepingTime :=
       match emptySafekeepingTime with
       | Some n => if n =? 0 then 48000 else n
       | None => 48000
       end;
     currentValue := [0];
     currentIndex := 0;
     maxReached := false;
     acquiredTokens := ∅;
     emptyReleaseTime := 0 |}.

Definition with_value (currentValue : list Z) (currentIndex : nat) (tm : t) : t :=
  {| maxSize := maxSize tm; emptySafekeepingTime := emptySafekeepingTime tm;
     currentValue := currentValue; currentIndex := currentIndex;
     maxReached := maxReached tm; acquiredTokens := acquiredTokens tm;
     emptyReleaseTime := emptyReleaseTime tm |}.

Definition with_acquiredTokens (acquiredTokens : gmap string bool) (tm : t) : t :=
  {| maxSize := maxSize tm; emptySafekeepingTime := emptySafekeepingTime tm;
     currentValue := currentValue tm; currentIndex := currentIndex tm;
     maxReached := maxReached tm; acquiredTokens := acquiredTokens;
     emptyReleaseTime := emptyReleaseTime tm |}.

Definition with_emptyReleaseTime (emptyReleaseTime : Z) (tm : t) : t :=
  {| maxSize := maxSize tm; emptySafekeepingTime := emptySafekeepingTime tm;
     currentValue := currentValue tm; currentIndex := currentIndex tm;
     maxReached := maxReached tm; acquiredTokens := acquiredTokens tm;
     emptyReleaseTime := emptyReleaseTime |}.

(** [isAcquired(token)] with a string argument. *)
Definition isAcquired_string (tm : t) (token : string) : bool :=
  bool_decide (is_Some (acquiredTokens tm !! token)).

(** [isAcquired(token)] with a buffer or array argument. *)
Definition isAcquired (tm : t) (token : list Z) : bool :=
  isAcquired_string tm (helpers.convertToHexString (Some token) None).

Definition isValueMaxed (tm : t) : bool :=
  forallb (fun b => b =? 255) (currentValue tm).

Definition resizeValue (tm : t) : t :=
  if Z.of_nat (length (currentValue tm)) + 1 >? maxSize tm
  then with_value [0] 0 tm
  else with_value (take (length (currentValue tm) + 1) ZERO_TOKEN_ARRAY) 0 tm.

(** The inner [while] loop of [incrementValue]: every round moves the
    index one place up, so [fuel] above the array's length is enough. *)
Fixpoint carry (fuel : nat) (value : list Z) (index : nat) : list Z * nat :=
  match fuel with
  | O => (value, index)
  | S fuel' =>
      match value !! index with
      | Some 255 => carry fuel' (<[index := 0]> value) (S index)
      | _ => (value, index)
      end
  end.

(** [++value[index]]; past the end JavaScript stores [NaN] there, which
    [nextValue] rules out by calling [incrementValue] only on a value
    with a byte below 0xFF. *)
Definition increment_at (value : list Z) (index : nat) : list Z :=
  match value !! index with
  | Some b => <[index := b + 1]> value
  | None => value
  end.

Definition incrementValue (tm : t) : t :=
  match currentValue tm !! currentIndex tm with
  | Some 255 =>
      let '(value, index) :=
        carry (S (length (currentValue tm))) (currentValue tm) (currentIndex tm) in
      with_value (increment_at value index) 0 tm
  | _ => with_value (increment_at (currentValue tm) (currentIndex tm)) (currentIndex tm) tm
  end.

Definition nextValue (tm : t) : t :=
  if isValueMaxed tm then resizeValue tm else incrementValue tm.

(** [do { this.nextValue(); } while (this.isAcquired(this.currentValue))];
    [None] when [fuel] rounds did not leave the loop. *)
Fixpoint nextFreeValue (fuel : nat) (tm : t) : option t :=
  match fuel with
  | O => None
  | S fuel' =>
      let tm := nextValue tm in
      if isAcquired tm (currentValue tm) then nextFreeValue fuel' tm else Some tm
  end.

(** [acquire()]; [now] is the value of [Date.now()], [fuel] bounds the
    search loop of the wrapped-around branch. *)
Definition acquire (fuel : nat) (now : Z) (tm : t) : option (list Z * t) :=
  if negb (isAcquired_string tm EMPTY_TOKEN_STRING)
     && (now - emptyReleaseTime tm >? emptySafekeepingTime tm)
  then
    Some (EMPTY_TOKEN_BUFFER,
          with_acquiredTokens (<[EMPTY_TOKEN_STRING := true]> (acquiredTokens tm)) tm)
  else
    tm ← (if negb (maxReached tm) then Some (nextValue tm) else nextFreeValue fuel tm);
    Some (currentValue tm,
          with_acquiredTokens
            (<[helpers.convertToHexString (Some (currentValue tm)) None := true]>
               (acquiredTokens tm)) tm).

(** [release(token)] with a string argument. *)
Definition release_string (now : Z) (token : string) (tm : t) : t :=
  let tm :=
    if String.eqb token EMPTY_TOKEN_STRING then with_emptyReleaseTime now tm else tm in
  with_acquiredTokens (delete token (acquiredTokens tm)) tm.

(** [release(token)] with a buffer argument. *)
Definition release (now : Z) (token : list Z) (tm : t) : t :=
  release_string now (helpers.convertToHexString (Some token) None) tm.

End TokenManager.

(** ** Deferred calls and the per-request options object *)
Module Events.

(** The object a deferred [emit] runs on (its [this]): a message, whose
    listeners the caller of [Client.request] registers, or an exchange,
    which is not an event emitter and has no listeners. *)
Inductive Receiver :=
| OnMessage (message : Message.t)
| OnExchange (exchangeKey : string).

Inductive Argument :=
| AMessage (message : Message.t)
| ABlock (block : BlockOption.t).

(** [setImmediate(emit.bind(receiver, event, arguments...))] *)
Record Deferred := {
  receiver : Receiver;
  event : string;
  arguments : list Argument
}.

Definition emitOn (message : Message.t) (event : string) (arguments : list Argument)
  : Deferred :=
  {| receiver := OnMessage message; event := event; arguments := arguments |}.

(** The events a deferred call delivers to the listeners of [message]. *)
Definition deliveredTo (message : Message.t) (d : Deferred) : Prop :=
  receiver d = OnMessage message.

End Events.

(** The [options] object of [Client.request], shared by the exchange and
    its transactions; [None] is a property not set to a number. *)
Module RequestOptions.

Record t := {
  blockSize : Z;
  exchangeTimeout : Q;
  includeBlock2 : bool;
  maxRetransmit : option Z;
  transactionTimeout : option Q
}.

Definition with_maxRetransmit (v : Z) (o : t) : t :=
  {| blockSize := blockSize o; exchangeTimeout := exchangeTimeout o;
     includeBlock2 := includeBlock2 o; maxRetransmit := Some v;
     transactionTimeout := transactionTimeout o |}.

Definition with_transactionTimeout (v : Q) (o : t) : t :=
  {| blockSize := blockSize o; exchangeTimeout := exchangeTimeout o;
     includeBlock2 := includeBlock2 o; maxRetransmit := maxRetransmit o;
     transactionTimeout := Some v |}.

End RequestOptions.

(** ** lib/ClientTransaction.js *)
Module ClientTransaction.

Record t := {
  transactionKey : string;
  exchangeKey : string;
  request : Message.t;
  options : RequestOptions.t;
  parentRequest : option Message.t;
  currentTimeout : Q;
  (** the delay of the pending [setTimeout], if one is pending *)
  timeoutTimer : option Q;
  timeoutCounter : Z
}.

Definition with_parentRequest (v : option Message.t) (tx : t) : t :=
  {| transactionKey := transactionKey tx; exchangeKey := exchangeKey tx;
     request := request tx; options := options tx; parentRequest := v;
     currentTimeout := currentTimeout tx; timeoutTimer := timeoutTimer tx;
     timeoutCounter := timeoutCounter tx |}.

Definition with_timer (currentTimeout : Q) (timeoutTimer : option Q) (timeoutCounter : Z)
  (tx : t) : t :=
  {| transactionKey := transactionKey tx; exchangeKey := exchangeKey tx;
     request := request tx; options := options tx; parentRequest := parentRequest tx;
     currentTimeout := currentTimeout; timeoutTimer := timeoutTimer;
     timeoutCounter := timeoutCounter |}.

Definition scheduleTimeoutTimer (tx : t) : t :=
  with_timer (currentTimeout tx) (Some (currentTimeout tx)) (timeoutCounter tx) tx.

(** [new ClientTransaction(request, exchangeKey, timeoutHandler, options)];
    [Client.setUpTransaction] has made both option properties numbers. *)
Definition new (request : Message.t) (exchangeKey : string) (options : RequestOptions.t)
  : t :=
  scheduleTimeoutTimer
    {| transactionKey := Message.getTransactionKey request;
       exchangeKey := exchangeKey;
       request := request;
       options := options;
       parentRequest := None;
       currentTimeout := default 0%Q (RequestOptions.transactionTimeout options);
       timeoutTimer := None;
       timeoutCounter := 0 |}.

Definition getKey (tx : t) : string := transactionKey tx.
Definition getExchangeKey (tx : t) : string := exchangeKey tx.
Definition getRequest (tx : t) : Message.t := request tx.
Definition setParentRequest (parentRequest : Message.t) (tx : t) : t :=
  with_parentRequest (Some parentRequest) tx.

(** [delayEmit(event, response)]: one deferred function that emits on
    the request and then on the parent request. *)
Definition delayEmit (tx : t) (event : string) (response : Message.t)
  : list Events.Deferred :=
  Events.emitOn (request tx) event [Events.AMessage response]
  :: match parentRequest tx with
     | Some parentRequest => [Events.emitOn parentRequest event [Events.AMessage response]]
     | None => []
     end.

Definition accept (tx : t) (ackMessage : Message.t) : list Events.Deferred :=
  delayEmit tx "acknowledged" ackMessage.

Definition reject (tx : t) (rstMessage : Message.t) : list Events.Deferred :=
  delayEmit tx "reset" rstMessage.

Definition isLimitReached (tx : t) : bool :=
  timeoutCounter tx >=? default 0 (RequestOptions.maxRetransmit (options tx)) + 1.

(** [onTimeout()] up to its last statement, the call of the client's
    [timeoutHandler]: the transaction and the calls it deferred. *)
Definition onTimeout (tx : t) : t * list Events.Deferred :=
  let tx := with_timer (currentTimeout tx * 2)%Q None (timeoutCounter tx + 1) tx in
  if isLimitReached tx
  then (tx, [Events.emitOn (request tx) "timeout" []])
  else (scheduleTimeoutTimer tx, []).

End ClientTransaction.

(** ** lib/ClientExchange.js *)
Module ClientExchange.

Definition MAX_OBSERVE_VALUE_DIFFERENCE : Q := 8388608%Q.
Definition LATE_OBSERVE_ADDITIONAL_TIMESTAMP : Z := 128 * 1000.

(** [request] and [options] are [None] once [destroy()] has nulled
    them; reading a property of either is then a [TypeError]. *)
Record t := {
  request : option Message.t;
  options : option RequestOptions.t;
  exchangeKey : string;
  transactionKey : option string;
  currentBlock1 : option BlockOption.t;
  blockwiseResponsePossible : bool;
  currentBlock2 : option BlockOption.t;
  blocks2 : option (list Message.t);
  observer : bool;
  lastObserveValue : Q;
  lastResponseTime : Z;
  lastMaxAge : Q;
  serverInitiative : bool;
  (** the delay of the pending [setTimeout], if one is pending *)
  timeoutTimer : option Q
}.

Definition with_request (v : option Message.t) (e : t) : t :=
  {| request := v; options := options e; exchangeKey := exchangeKey e;
     transactionKey := transactionKey e; currentBlock1 := currentBlock1 e;
     blockwiseResponsePossible := blockwiseResponsePossible e;
     currentBlock2 := currentBlock2 e; blocks2 := blocks2 e; observer := observer e;
     lastObserveValue := lastObserveValue e; lastResponseTime := lastResponseTime e;
     lastMaxAge := lastMaxAge e; serverInitiative := serverInitiative e;
     timeoutTimer := timeoutTimer e |}.

Definition with_options (v : option RequestOptions.t) (e : t) : t :=
  {| request := request e; options := v; exchangeKey := exchangeKey e;
     transactionKey := transactionKey e; currentBlock1 := currentBlock1 e;
     blockwiseResponsePossible := blockwiseResponsePossible e;
     currentBlock2 := currentBlock2 e; blocks2 := blocks2 e; observer := observer e;
     lastObserveValue := lastObserveValue e; lastResponseTime := lastResponseTime e;
     lastMaxAge := lastMaxAge e; serverInitiative := serverInitiative e;
     timeoutTimer := timeoutTimer e |}.

Definition with_transactionKey (v : option string) (e : t) : t :=
  {| request := request e; options := options e; exchangeKey := exchangeKey e;
     transactionKey := v; currentBlock1 := currentBlock1 e;
     blockwiseResponsePossible := blockwiseResponsePossible e;
     currentBlock2 := currentBlock2 e; blocks2 := blocks2 e; observer := observer e;
     lastObserveValue := lastObserveValue e; lastResponseTime := lastResponseTime e;
     lastMaxAge := lastMaxAge e; serverInitiative := serverInitiative e;
     timeoutTimer := timeoutTimer e |}.

Definition with_currentBlock1 (v : option BlockOption.t) (e : t) : t :=
  {| request := request e; options := options e; exchangeKey := exchangeKey e;
     transactionKey := transactionKey e; currentBlock1 := v;
     blockwiseResponsePossible := blockwiseResponsePossible e;
     currentBlock2 := currentBlock2 e; blocks2 := blocks2 e; observer := observer e;
     lastObserveValue := lastObserveValue e; lastResponseTime := lastResponseTime e;
     lastMaxAge := lastMaxAge e; serverInitiative := serverInitiative e;
     timeoutTimer := timeoutTimer e |}.

Definition with_currentBlock2 (v : option BlockOption.t) (e : t) : t :=
  {| request := request e; options := options e; exchangeKey := exchangeKey e;
     transactionKey := transactionKey e; currentBlock1 := currentBlock1 e;
     blockwiseResponsePossible := blockwiseResponsePossible e;
     currentBlock2 := v; blocks2 := blocks2 e; observer := observer e;
     lastObserveValue := lastObserveValue e; lastResponseTime := lastResponseTime e;
     lastMaxAge := lastMaxAge e; serverInitiative := serverInitiative e;
     timeoutTimer := timeoutTimer e |}.

Definition with_blocks2 (v : option (list Message.t)) (e : t) : t :=
  {| request := request e; options := options e; exchangeKey := exchangeKey e;
     transactionKey := transactionKey e; currentBlock1 := currentBlock1 e;
     blockwiseResponsePossible := blockwiseResponsePossible e;
     currentBlock2 := currentBlock2 e; blocks2 := v; observer := observer e;
     lastObserveValue := lastObserveValue e; lastResponseTime := lastResponseTime e;
     lastMaxAge := lastMaxAge e; serverInitiative := serverInitiative e;
     timeoutTimer := timeoutTimer e |}.

Definition with_observation (observer : bool) (lastObserveValue : Q)
  (lastResponseTime : Z) (lastMaxAge : Q) (e : t) : t :=
  {| request := request e; options := options e; exchangeKey := exchangeKey e;
     transactionKey := transactionKey e; currentBlock1 := currentBlock1 e;
     blockwiseResponsePossible := blockwiseResponsePossible e;
     currentBlock2 := currentBlock2 e; blocks2 := blocks2 e; observer := observer;
     lastObserveValue := lastObserveValue; lastResponseTime := lastResponseTime;
     lastMaxAge := lastMaxAge; serverInitiative := serverInitiative e;
     timeoutTimer := timeoutTimer e |}.

Definition with_serverInitiative (v : bool) (e : t) : t :=
  {| request := request e; options := options e; exchangeKey := exchangeKey e;
     transactionKey := transactionKey e; currentBlock1 := currentBlock1 e;
     blockwiseResponsePossible := blockwiseResponsePossible e;
     currentBlock2 := currentBlock2 e; blocks2 := blocks2 e; observer := observer e;
     lastObserveValue := lastObserveValue e; lastResponseTime := lastResponseTime e;
     lastMaxAge := lastMaxAge e; serverInitiative := v;
     timeoutTimer := timeoutTimer e |}.

Definition with_timeoutTimer (v : option Q) (e : t) : t :=
  {| request := request e; options := options e; exchangeKey := exchangeKey e;
     transactionKey := transactionKey e; currentBlock1 := currentBlock1 e;
     blockwiseResponsePossible := blockwiseResponsePossible e;
     currentBlock2 := currentBlock2 e; blocks2 := blocks2 e; observer := observer e;
     lastObserveValue := lastObserveValue e; lastResponseTime := lastResponseTime e;
     lastMaxAge := lastMaxAge e; serverInitiative := serverInitiative e;
     timeoutTimer := v |}.

(** [x === y] on numbers. *)
Definition eqQ (x y : Q) : bool := Qeq_bool x y.
(** [x < y] on numbers. *)
Definition ltQ (x y : Q) : bool := negb (Qle_bool y x).

(** [this.request] and [this.options] where a property is read. *)
Definition theRequest (e : t) : result Message.t :=
  match request e with
  | Some request => Ok request
  | None => Err TypeError
  end.

Definition theOptions (e : t) : result RequestOptions.t :=
  match options e with
  | Some options => Ok options
  | None => Err TypeError
  end.

Definition scheduleTimeout (e : t) : result t :=
  timeout ←
    (if eqQ (lastMaxAge e) (-1)
     then options ← theOptions e; mret (RequestOptions.exchangeTimeout options)
     else Ok (lastMaxAge e * 1000)%Q);
  mret (with_timeoutTimer (Some timeout) e).

Definition setUpCurrentBlock1 (e : t) : result t :=
  request ← theRequest e;
  options ← theOptions e;
  if (Message.getPayloadLength request >? RequestOptions.blockSize options)
     && negb (Message.hasOption request Message.Option_.BLOCK1)
  then
    Ok (with_currentBlock1
          (Some (BlockOption.new Message.Option_.BLOCK1 (-1) true
                   (helpers.encodeBlockSize (RequestOptions.blockSize options)))) e)
  else Ok e.

(** The fields the constructor assigns before it calls
    [setUpCurrentBlock1] and [scheduleTimeout]. *)
Definition initial (request : Message.t) (options : RequestOptions.t) : t :=
  let observer :=
    (Message.getCode request =? Message.Code.GET)
    && Message.hasOption request Message.Option_.OBSERVE in
  {| request := Some request;
     options := Some options;
     exchangeKey := Message.getExchangeKey request;
     transactionKey := None;
     currentBlock1 := None;
     blockwiseResponsePossible :=
       negb (Message.hasOption request Message.Option_.BLOCK2);
     currentBlock2 := None;
     blocks2 := None;
     observer := observer;
     lastObserveValue := (-1)%Q;
     lastResponseTime := 0;
     lastMaxAge := (-1)%Q;
     serverInitiative := observer;
     timeoutTimer := None |}.

(** [new ClientExchange(request, timeoutHandler, options)] *)
Definition new (request : Message.t) (options : RequestOptions.t) : result t :=
  e ← setUpCurrentBlock1 (initial request options);
  scheduleTimeout e.

Definition destroy (e : t) : t :=
  let e := with_timeoutTimer None e in
  let e := with_request None e in
  let e := with_options None e in
  let e := with_currentBlock1 None e in
  let e := with_currentBlock2 None e in
  with_blocks2 None e.

Definition getKey (e : t) : string := exchangeKey e.
Definition getTransactionKey (e : t) : option string := transactionKey e.
Definition setTransactionKey (k : string) (e : t) : t := with_transactionKey (Some k) e.
Definition getRequest (e : t) : option Message.t := request e.
Definition getOptions (e : t) : option RequestOptions.t := options e.
Definition getTokenString (e : t) : result string :=
  request ← theRequest e; mret (Message.getTokenString request).
Definition isObserver (e : t) : bool := observer e.
Definition isSubscribed (e : t) : bool := negb (eqQ (lastObserveValue e) (-1)).

Definition isLateObserveResponse (e : t) (response : Message.t) : bool :=
  let v2 := Message.getObserve response in
  if eqQ v2 (-1) then false
  else
    let v1 := lastObserveValue e in
    let t2 := Message.getTimestamp response in
    let t1 := lastResponseTime e in
    let newer :=
      (ltQ v1 v2 && ltQ (v2 - v1) MAX_OBSERVE_VALUE_DIFFERENCE)
      || (ltQ v2 v1 && ltQ MAX_OBSERVE_VALUE_DIFFERENCE (v1 - v2))
      || (t2 >? t1 + LATE_OBSERVE_ADDITIONAL_TIMESTAMP) in
    negb newer.

Definition cancel (e : t) : result (t * list Events.Deferred) :=
  let e := with_observation false (-1) 0 (-1) e in
  request ← theRequest e;
  mret (e, [Events.emitOn request "cancelled" []]).

Definition isBlockwiseRequest (e : t) : bool := bool_decide (is_Some (currentBlock1 e)).

(** [Math.ceil(a / b)] for positive [b]. *)
Definition ceil_div (a b : Z) : Z := - ((- a) / b).

(** [adjustBlockToSize(block, newSize)] on the block object. *)
Definition adjustBlockToSize (block : BlockOption.t) (newSize : Z) : BlockOption.t :=
  {| BlockOption.optionNumber := BlockOption.optionNumber block;
     BlockOption.num :=
       ceil_div ((BlockOption.num block + 1) * BlockOption.size block) newSize - 1;
     BlockOption.m := BlockOption.m block;
     BlockOption.szx := helpers.encodeBlockSize newSize;
     BlockOption.size := newSize |}.

Definition isValidBlock1 (e : t) (block1 : BlockOption.t) (block2 : option BlockOption.t)
  : bool :=
  match currentBlock1 e with
  | None => false
  | Some currentBlock1 =>
      if negb (BlockOption.num block1 =? BlockOption.num currentBlock1) then false
      else if BlockOption.szx block1 >? BlockOption.szx currentBlock1 then false
      else
        match block2 with
        | Some block2 =>
            if BlockOption.m block1 then false
            else if negb (BlockOption.num block2 =? 0) then false
            else true
        | None => true
        end
  end.

Definition hasMoreBlock1 (e : t) : result bool :=
  match currentBlock1 e with
  | None => Ok false
  | Some currentBlock1 =>
      request ← theRequest e;
      let payloadSize := Message.getPayloadLength request in
      let lastBlockNum := ceil_div payloadSize (BlockOption.size currentBlock1) - 1 in
      mret (BlockOption.num currentBlock1 <? lastBlockNum)
  end.

Definition isBlockwiseResponsePossible (e : t) : bool := blockwiseResponsePossible e.
Definition isBlockwiseResponse (e : t) : bool := bool_decide (is_Some (currentBlock2 e)).
Definition isServerInitiative (e : t) : bool := serverInitiative e.

(** [isValidBlock2(block2, observe)]; [observe] is [None] when the
    caller omits it.  Reading [this.blocks2[0]] without received blocks
    is a [TypeError]. *)
Definition isValidBlock2 (e : t) (block2 : BlockOption.t)
  (observe : option Q) : result bool :=
  if BlockOption.num block2 =? 0 then Ok true
  else
    match currentBlock2 e with
    | None => Ok (BlockOption.num block2 =? 0)
    | Some currentBlock2 =>
        if negb (BlockOption.num block2 =? BlockOption.num currentBlock2 + 1)
        then Ok false
        else if negb (BlockOption.szx block2 <=? BlockOption.szx currentBlock2)
        then Ok false
        else
          match blocks2 e with
          | Some (first :: _) =>
              Ok (match observe with
                  | Some observe => eqQ observe (Message.getObserve first)
                  | None => false
                  end)
          | _ => Err TypeError
          end
    end.

Definition setResponse (e : t) (response : Message.t)
  : result (t * list Events.Deferred) :=
  let e := with_blocks2 None e in
  let e := with_currentBlock2 None e in
  let e := with_currentBlock1 None e in
  let e :=
    with_observation (observer e) (Message.getObserve response)
      (Message.getTimestamp response) (Message.getMaxAge response) e in
  request ← theRequest e;
  mret (e, [Events.emitOn request "response" [Events.AMessage response]]).

(** [setCurrentBlock2(block2)]: [block2] and [this.currentBlock2] are one
    object, so the block number tested last, and the block the caller
    goes on with, are the adjusted ones. *)
Definition setCurrentBlock2 (e : t) (block2 : BlockOption.t)
  : result (t * BlockOption.t) :=
  options ← theOptions e;
  let block2 :=
    if BlockOption.size block2 >? RequestOptions.blockSize options
    then adjustBlockToSize block2 (RequestOptions.blockSize options)
    else block2 in
  let e := with_currentBlock2 (Some block2) e in
  if BlockOption.num block2 =? 0 then Ok (with_blocks2 None e, block2) else Ok (e, block2).

(** [finalizeBlock2Response()]; without a received block it is a
    [TypeError]. *)
Definition finalizeBlock2Response (e : t)
  : result (t * list Events.Deferred) :=
  match blocks2 e with
  | None => Err TypeError
  | Some blocks =>
      let fullPayload := concat (map Message.getPayload blocks) in
      match last blocks with
      | None => Err TypeError
      | Some lastBlock =>
          response ← Message.setType (Message.Type_value (Message.getType lastBlock))
                       Message.new;
          response ← Message.setCode (Message.getCode lastBlock) response;
          response ← Message.setId (Message.getId lastBlock) response;
          response ← Message.setToken (Some (Message.getToken lastBlock)) response;
          let response := Message.setAllOptions (Message.getAllOptions lastBlock) response in
          let response := Message.setPayload fullPayload response in
          let response :=
            Message.setRemoteEndpoint (Message.getRemoteEndpoint lastBlock) response in
          setResponse e response
      end
  end.

(** [handleBlock2Response(blockResponse, block2, serverInitiative)];
    [serverInitiative] is [None] when the argument is not a boolean.
    The deferred [block received] call is
    [this.request.emit.bind(this, ...)]: it runs [emit] on the exchange. *)
Definition handleBlock2Response (e : t) (blockResponse : Message.t)
  (block2 : BlockOption.t) (serverInitiative : option bool)
  : result (t * list Events.Deferred) :=
  let e :=
    match serverInitiative with
    | Some b => with_serverInitiative b e
    | None => e
    end in
  '(e, block2) ← setCurrentBlock2 e block2;
  let e :=
    match blocks2 e with
    | None => with_blocks2 (Some [blockResponse]) e
    | Some blocks => with_blocks2 (Some (blocks ++ [blockResponse])) e
    end in
  _ ← theRequest e;
  let blockReceived :=
    {| Events.receiver := Events.OnExchange (exchangeKey e);
       Events.event := "block received";
       Events.arguments := [Events.AMessage blockResponse; Events.ABlock block2] |} in
  if BlockOption.m block2 then
    Ok (with_observation (observer e) (lastObserveValue e) (lastResponseTime e) (-1) e,
        [blockReceived])
  else
    '(e, deferred) ← finalizeBlock2Response e;
    mret (e, blockReceived :: deferred).

(** [handleBlock1Response(response, block1, hasBlock2)] *)
Definition handleBlock1Response (e : t) (response : Message.t)
  (block1 : BlockOption.t) (hasBlock2 : bool) : result (t * list Events.Deferred) :=
  match currentBlock1 e with
  | None => Err TypeError
  | Some currentBlock1 =>
      let e :=
        if BlockOption.size block1 <? BlockOption.size currentBlock1
        then with_currentBlock1
               (Some (adjustBlockToSize currentBlock1 (BlockOption.size block1))) e
        else e in
      request ← theRequest e;
      let blockSent := Events.emitOn request "block sent" [Events.AMessage response] in
      more ← hasMoreBlock1 e;
      if negb more && negb hasBlock2 then
        '(e, deferred) ← setResponse e response;
        mret (e, blockSent :: deferred)
      else if negb (BlockOption.m block1) && negb hasBlock2 then
        Ok (e, [blockSent; Events.emitOn request "response" [Events.AMessage response]])
      else Ok (e, [blockSent])
  end.

(** [createNextBlock1Request(messageId)]; without a current Block1 it
    is a [TypeError]. *)
Definition createNextBlock1Request (e : t) (messageId : Z)
  : result (t * Message.t) :=
  match currentBlock1 e with
  | None => Err TypeError
  | Some currentBlock1 =>
      request ← theRequest e;
      let num := BlockOption.num currentBlock1 + 1 in
      let fullPayload := Message.getPayload request in
      let blockStart := num * BlockOption.size currentBlock1 in
      let blockEnd := blockStart + BlockOption.size currentBlock1 in
      let blockPayload :=
        take (Z.to_nat (blockEnd - blockStart)) (drop (Z.to_nat blockStart) fullPayload) in
      let blockCount :=
        ceil_div (Z.of_nat (length fullPayload)) (BlockOption.size currentBlock1) in
      let currentBlock1 :=
        {| BlockOption.optionNumber := BlockOption.optionNumber currentBlock1;
           BlockOption.num := num;
           BlockOption.m := negb (blockCount =? num + 1);
           BlockOption.szx := BlockOption.szx currentBlock1;
           BlockOption.size := BlockOption.size currentBlock1 |} in
      let e := with_currentBlock1 (Some currentBlock1) e in
      nextBlockRequest ← Message.setType (Message.Type_value Message.CON) Message.new;
      nextBlockRequest ← Message.setCode (Message.getCode request) nextBlockRequest;
      nextBlockRequest ← Message.setId messageId nextBlockRequest;
      nextBlockRequest ←
        Message.setToken (Some (Message.getToken request)) nextBlockRequest;
      let nextBlockRequest :=
        Message.setAllOptions (Message.getAllOptions request) nextBlockRequest in
      nextBlockRequest ← Message.setBlock1_object currentBlock1 nextBlockRequest;
      let nextBlockRequest := Message.setPayload blockPayload nextBlockRequest in
      let nextBlockRequest :=
        Message.setRemoteEndpoint (Message.getRemoteEndpoint request) nextBlockRequest in
      mret (e, nextBlockRequest)
  end.

(** [createNextBlock2Request(messageId)]; without a current Block2 it
    is a [TypeError]. *)
Definition createNextBlock2Request (e : t) (messageId : Z) : result Message.t :=
  match currentBlock2 e with
  | None => Err TypeError
  | Some currentBlock2 =>
      request ← theRequest e;
      nextBlockRequest ← Message.setType (Message.Type_value Message.CON) Message.new;
      nextBlockRequest ← Message.setCode Message.Code.GET nextBlockRequest;
      nextBlockRequest ← Message.setId messageId nextBlockRequest;
      nextBlockRequest ←
        Message.setToken (Some (Message.getToken request)) nextBlockRequest;
      let nextBlockRequest :=
        Message.setAllOptions (Message.getAllOptions request) nextBlockRequest in
      nextBlockRequest ←
        Message.setBlock2 (BlockOption.num currentBlock2 + 1) false
          (BlockOption.szx currentBlock2) nextBlockRequest;
      mret (Message.setRemoteEndpoint (Message.getRemoteEndpoint request) nextBlockRequest)
  end.

(** [onTimeout()] up to its last statement, the call of the client's
    [timeoutHandler]. *)
Definition onTimeout (e : t) : result (t * list Events.Deferred) :=
  let e := with_timeoutTimer None e in
  request ← theRequest e;
  mret (e, [Events.emitOn request "timeout" []]).

End ClientExchange.

(** ** lib/Client.js

    Exchanges are objects shared between [this.exchanges],
    [this.observers] and the handlers' arguments: they live in [heap] and
    are passed around as addresses.  A destroyed exchange stays in the
    heap with its nulled fields, as whoever still holds it sees it. *)
Module Client.

Definition MAX_MESSAGE_ID : Z := 65535.
Definition DEFAULT_MAX_RETRANSMIT : Z := 4.
Definition DEFAULT_ACK_TIMEOUT : Q := 2000%Q.
Definition DEFAULT_ACK_RANDOM_FACTOR : Q := (3 # 2)%Q.
Definition DEFAULT_BLOCK_SIZE : Z := 512.

(** [this.observers[remoteEndpoint]] *)
Record EndpointObservers := {
  count : Z;
  byUriPath : gmap string nat
}.

(** A datagram handed to [socket.send], followed by the client's
    [message sent] event; [message.setTimestamp()] stamps the sent
    object, whose timestamp no code path reads. *)
Record Sent := {
  datagram : list Z;
  sentMessage : Message.t;
  retries : Z
}.

Record t := {
  socket4 : bool;
  socket6 : bool;
  tokenManager : TokenManager.t;
  messageId : Z;
  ackTimeout : Q;
  ackRandomFactor : Q;
  maxRetransmit : Z;
  exchangeTimeout : Q;
  duplicateTimeout : Q;
  blockSize : Z;
  transactions : gmap string ClientTransaction.t;
  exchanges : gmap string nat;
  observers : gmap string EndpointObservers;
  duplicates : gmap string string;
  replies : gmap string Message.t;
  (** the exchange objects, and the next free address *)
  heap : gmap nat ClientExchange.t;
  nextAddress : nat;
  (** effects: datagrams sent, events the client emitted, calls deferred
      with [setImmediate], and [child.once('timeout', ...)] listeners *)
  sent : list Sent;
  emitted : list (string * Message.t);
  immediates : list Events.Deferred;
  timeoutBindings : list (Message.t * Message.t)
}.

Definition with_tokenManager (v : TokenManager.t) (c : t) : t :=
  {| socket4 := socket4 c; socket6 := socket6 c; tokenManager := v;
     messageId := messageId c; ackTimeout := ackTimeout c;
     ackRandomFactor := ackRandomFactor c; maxRetransmit := maxRetransmit c;
     exchangeTimeout := exchangeTimeout c; duplicateTimeout := duplicateTimeout c;
     blockSize := blockSize c; transactions := transactions c;
     exchanges := exchanges c; observers := observers c; duplicates := duplicates c;
     replies := replies c; heap := heap c; nextAddress := nextAddress c;
     sent := sent c; emitted := emitted c; immediates := immediates c;
     timeoutBindings := timeoutBindings c |}.

Definition with_messageId (v : Z) (c : t) : t :=
  {| socket4 := socket4 c; socket6 := socket6 c; tokenManager := tokenManager c;
     messageId := v; ackTimeout := ackTimeout c;
     ackRandomFactor := ackRandomFactor c; maxRetransmit := maxRetransmit c;
     exchangeTimeout := exchangeTimeout c; duplicateTimeout := duplicateTimeout c;
     blockSize := blockSize c; transactions := transactions c;
     exchanges := exchanges c; observers := observers c; duplicates := duplicates c;
     replies := replies c; heap := heap c; nextAddress := nextAddress c;
     sent := sent c; emitted := emitted c; immediates := immediates c;
     timeoutBindings := timeoutBindings c |}.

Definition with_transactions (v : gmap string ClientTransaction.t) (c : t) : t :=
  {| socket4 := socket4 c; socket6 := socket6 c; tokenManager := tokenManager c;
     messageId := messageId c; ackTimeout := ackTimeout c;
     ackRandomFactor := ackRandomFactor c; maxRetransmit := maxRetransmit c;
     exchangeTimeout := exchangeTimeout c; duplicateTimeout := duplicateTimeout c;
     blockSize := blockSize c; transactions := v;
     exchanges := exchanges c; observers := observers c; duplicates := duplicates c;
     replies := replies c; heap := heap c; nextAddress := nextAddress c;
     sent := sent c; emitted := emitted c; immediates := immediates c;
     timeoutBindings := timeoutBindings c |}.

Definition with_exchanges (v : gmap string nat) (c : t) : t :=
  {| socket4 := socket4 c; socket6 := socket6 c; tokenManager := tokenManager c;
     messageId := messageId c; ackTimeout := ackTimeout c;
     ackRandomFactor := ackRandomFactor c; maxRetransmit := maxRetransmit c;
     exchangeTimeout := exchangeTimeout c; duplicateTimeout := duplicateTimeout c;
     blockSize := blockSize c; transactions := transactions c;
     exchanges := v; observers := observers c; duplicates := duplicates c;
     replies := replies c; heap := heap c; nextAddress := nextAddress c;
     sent := sent c; emitted := emitted c; immediates := immediates c;
     timeoutBindings := timeoutBindings c |}.

Definition with_observers (v : gmap string EndpointObservers) (c : t) : t :=
  {| socket4 := socket4 c; socket6 := socket6 c; tokenManager := tokenManager c;
     messageId := messageId c; ackTimeout := ackTimeout c;
     ackRandomFactor := ackRandomFactor c; maxRetransmit := maxRetransmit c;
     exchangeTimeout := exchangeTimeout c; duplicateTimeout := duplicateTimeout c;
     blockSize := blockSize c; transactions := transactions c;
     exchanges := exchanges c; observers := v; duplicates := duplicates c;
     replies := replies c; heap := heap c; nextAddress := nextAddress c;
     sent := sent c; emitted := emitted c; immediates := immediates c;
     timeoutBindings := timeoutBindings c |}.

Definition with_replies (v : gmap string Message.t) (c : t) : t :=
  {| socket4 := socket4 c; socket6 := socket6 c; tokenManager := tokenManager c;
     messageId := messageId c; ackTimeout := ackTimeout c;
     ackRandomFactor := ackRandomFactor c; maxRetransmit := maxRetransmit c;
     exchangeTimeout := exchangeTimeout c; duplicateTimeout := duplicateTimeout c;
     blockSize := blockSize c; transactions := transactions c;
     exchanges := exchanges c; observers := observers c; duplicates := duplicates c;
     replies := v; heap := heap c; nextAddress := nextAddress c;
     sent := sent c; emitted := emitted c; immediates := immediates c;
     timeoutBindings := timeoutBindings c |}.

Definition with_heap (v : gmap nat ClientExchange.t) (next : nat) (c : t) : t :=
  {| socket4 := socket4 c; socket6 := socket6 c; tokenManager := tokenManager c;
     messageId := messageId c; ackTimeout := ackTimeout c;
     ackRandomFactor := ackRandomFactor c; maxRetransmit := maxRetransmit c;
     exchangeTimeout := exchangeTimeout c; duplicateTimeout := duplicateTimeout c;
     blockSize := blockSize c; transactions := transactions c;
     exchanges := exchanges c; observers := observers c; duplicates := duplicates c;
     replies := replies c; heap := v; nextAddress := next;
     sent := sent c; emitted := emitted c; immediates := immediates c;
     timeoutBindings := timeoutBindings c |}.

Definition with_effects (sent : list Sent) (emitted : list (string * Message.t))
  (immediates : list Events.Deferred) (timeoutBindings : list (Message.t * Message.t))
  (c : t) : t :=
  {| socket4 := socket4 c; socket6 := socket6 c; tokenManager := tokenManager c;
     messageId := messageId c; ackTimeout := ackTimeout c;
     ackRandomFactor := ackRandomFactor c; maxRetransmit := maxRetransmit c;
     exchangeTimeout := exchangeTimeout c; duplicateTimeout := duplicateTimeout c;
     blockSize := blockSize c; transactions := transactions c;
     exchanges := exchanges c; observers := observers c; duplicates := duplicates c;
     replies := replies c; heap := heap c; nextAddress := nextAddress c;
     sent := sent; emitted := emitted; immediates := immediates;
     timeoutBindings := timeoutBindings |}.

(** [setImmediate(...)] for each call of [deferred], in order. *)
Definition defer (deferred : list Events.Deferred) (c : t) : t :=
  with_effects (sent c) (emitted c) (immediates c ++ deferred) (timeoutBindings c) c.

(** [this.emit(event, message)] *)
Definition emit (event : string) (message : Message.t) (c : t) : t :=
  with_effects (sent c) (emitted c ++ [(event, message)]) (immediates c)
    (timeoutBindings c) c.

(** Reading and writing the exchange object at an address; every
    address the client holds is allocated. *)
Definition deref (exchange : nat) (c : t) : result ClientExchange.t :=
  match heap c !! exchange with
  | Some e => Ok e
  | None => Err TypeError
  end.

Definition store (exchange : nat) (e : ClientExchange.t) (c : t) : t :=
  with_heap (<[exchange := e]> (heap c)) (nextAddress c) c.

(** [x || y] on numbers: [y] when [x] is absent or zero. *)
Definition orQ (x : option Q) (y : Q) : Q :=
  match x with
  | Some v => if Qeq_bool v 0 then y else v
  | None => y
  end.

Definition orZ (x : option Z) (y : Z) : Z :=
  match x with
  | Some v => if v =? 0 then y else v
  | None => y
  end.

(** [ackTimeout * Math.pow(2, maxRetransmit + 1) * ackRandomFactor] *)
Definition calcExchangeTimeout_of (ackTimeout ackRandomFactor : Q) (maxRetransmit : Z) : Q :=
  (ackTimeout * inject_Z (2 ^ (maxRetransmit + 1)) * ackRandomFactor)%Q.

Definition calcExchangeTimeout (c : t) : Q :=
  calcExchangeTimeout_of (ackTimeout c) (ackRandomFactor c) (maxRetransmit c).

(** [Math.round(x)]: the nearest integer, halves going up. *)
Definition roundQ (x : Q) : Q := inject_Z (Qfloor (x + (1 # 2))%Q).

(** The [options] argument of [new Client(options)]; sockets are given
    as present or disabled. *)
Record ClientOptions := {
  o_socket4 : bool;
  o_socket6 : bool;
  o_tokenManager : option TokenManager.t;
  o_messageId : option Z;
  o_ackTimeout : option Q;
  o_ackRandomFactor : option Q;
  o_maxRetransmit : option Z;
  o_exchangeTimeout : option Q;
  o_duplicateTimeout : option Q;
  o_blockSize : option Z
}.

(** [new Client(options)]; [random] is the value of [Math.random()]. *)
Definition new (random : Q) (o : ClientOptions) : t :=
  let ackTimeout := orQ (o_ackTimeout o) DEFAULT_ACK_TIMEOUT in
  let ackRandomFactor := orQ (o_ackRandomFactor o) DEFAULT_ACK_RANDOM_FACTOR in
  let maxRetransmit := orZ (o_maxRetransmit o) DEFAULT_MAX_RETRANSMIT in
  let exchangeTimeout :=
    orQ (o_exchangeTimeout o)
      (calcExchangeTimeout_of ackTimeout ackRandomFactor maxRetransmit) in
  {| socket4 := o_socket4 o;
     socket6 := o_socket6 o;
     tokenManager := default (TokenManager.new None None) (o_tokenManager o);
     messageId :=
       match o_messageId o with
       | Some id => if id >=? 0 then id else Qceiling (random * inject_Z MAX_MESSAGE_ID)
       | None => Qceiling (random * inject_Z MAX_MESSAGE_ID)
       end;
     ackTimeout := ackTimeout;
     ackRandomFactor := ackRandomFactor;
     maxRetransmit := maxRetransmit;
     exchangeTimeout := exchangeTimeout;
     duplicateTimeout := orQ (o_duplicateTimeout o) (roundQ (exchangeTimeout / 2));
     blockSize := orZ (o_blockSize o) DEFAULT_BLOCK_SIZE;
     transactions := ∅;
     exchanges := ∅;
     observers := ∅;
     duplicates := ∅;
     replies := ∅;
     heap := ∅;
     nextAddress := 0;
     sent := [];
     emitted := [];
     immediates := [];
     timeoutBindings := [] |}.

Definition getNextMessageId (c : t) : Z * t :=
  let c := if messageId c =? MAX_MESSAGE_ID then with_messageId 0 c else c in
  (messageId c + 1, with_messageId (messageId c + 1) c).

(** [genTransactionTimeout()]; [random] is the value of [Math.random()]. *)
Definition genTransactionTimeout (random : Q) (c : t) : Q :=
  (random * ((ackTimeout c * ackRandomFactor c) - ackTimeout c) + ackTimeout c)%Q.

(** [sendMessage(message, retries)]; [socket.send] itself does not
    throw. *)
Definition sendMessage (message : Message.t) (retries : option Z) (c : t) : result t :=
  '(messageBuffer, _) ← Message.toBuffer message;
  let remoteEndpoint := Message.getRemoteEndpoint message in
  let socket := if EndpointAddress.isIPv6 remoteEndpoint then socket6 c else socket4 c in
  if negb socket then Ok (defer [Events.emitOn message "error" []] c)
  else
    let c :=
      with_effects
        (sent c ++ [{| datagram := messageBuffer; sentMessage := message;
                       retries := default 0 retries |}])
        (emitted c) (immediates c) (timeoutBindings c) c in
    Ok (emit "message sent" message c).

Definition sendRstReply (message : Message.t) (c : t) : result t :=
  rstReply ← Message.createReply message Message.RST Message.Code.EMPTY;
  let c := with_replies (<[Message.getTransactionKey message := rstReply]> (replies c)) c in
  sendMessage rstReply None c.

Definition sendAckReply (message : Message.t) (c : t) : result t :=
  ackReply ← Message.createReply message Message.ACK Message.Code.EMPTY;
  let c := with_replies (<[Message.getTransactionKey message := ackReply]> (replies c)) c in
  sendMessage ackReply None c.

(** [setUpExchange(request, options)]: the address of the new exchange. *)
Definition setUpExchange (request : Message.t) (options : RequestOptions.t) (c : t)
  : result (nat * t) :=
  exchange ← ClientExchange.new request options;
  let address := nextAddress c in
  let c := with_heap (<[address := exchange]> (heap c)) (S address) c in
  mret (address,
        with_exchanges (<[ClientExchange.getKey exchange := address]> (exchanges c)) c).

(** [setUpTransaction(exchange, request)]; [random] is the value of
    [Math.random()]. *)
Definition setUpTransaction (random : Q) (exchange : nat) (request : Message.t) (c : t)
  : result (ClientTransaction.t * t) :=
  e ← deref exchange c;
  options ← ClientExchange.theOptions e;
  let options :=
    match RequestOptions.maxRetransmit options with
    | Some _ => options
    | None => RequestOptions.with_maxRetransmit (maxRetransmit c) options
    end in
  let options :=
    match RequestOptions.transactionTimeout options with
    | Some _ => options
    | None => RequestOptions.with_transactionTimeout (genTransactionTimeout random c) options
    end in
  let e := ClientExchange.with_options (Some options) e in
  let transaction := ClientTransaction.new request (ClientExchange.getKey e) options in
  let transactionKey := ClientTransaction.getKey transaction in
  let e := ClientExchange.setTransactionKey transactionKey e in
  let c := store exchange e c in
  Ok (transaction, with_transactions (<[transactionKey := transaction]> (transactions c)) c).

(** [finishTransaction(transactionKey, accept, response)]; [accept] is
    [None] when the last two arguments are omitted. *)
Definition finishTransaction (transactionKey : option string)
  (accept : option (bool * Message.t)) (c : t) : t :=
  match transactionKey ≫= (transactions c !!.) with
  | None => c
  | Some transaction =>
      let c :=
        match transactionKey with
        | Some k => with_transactions (delete k (transactions c)) c
        | None => c
        end in
      match accept with
      | Some (true, response) => defer (ClientTransaction.accept transaction response) c
      | Some (false, response) => defer (ClientTransaction.reject transaction response) c
      | None => c
      end
  end.

(** [finishExchange(exchange, cancel)]; [cancel] is [None] when omitted;
    [now] is the value of [Date.now()]. *)
Definition finishExchange (now : Z) (exchange : nat) (cancel : option bool) (c : t)
  : result t :=
  e ← deref exchange c;
  '(e, c) ←
    (if ClientExchange.isObserver e && negb (bool_decide (cancel = Some false))
     then '(e, deferred) ← ClientExchange.cancel e; mret (e, defer deferred c)
     else Ok (e, c));
  let c := with_exchanges (delete (ClientExchange.getKey e) (exchanges c)) c in
  tokenString ← ClientExchange.getTokenString e;
  let c :=
    with_tokenManager (TokenManager.release_string now tokenString (tokenManager c)) c in
  Ok (store exchange (ClientExchange.destroy e) c).

(** [onTransactionTimeout(transaction, retries)] *)
Definition onTransactionTimeout (now : Z) (transaction : ClientTransaction.t) (retries : Z)
  (c : t) : result t :=
  if ClientTransaction.isLimitReached transaction then
    let c := emit "transaction timeout" (ClientTransaction.getRequest transaction) c in
    let c := finishTransaction (Some (ClientTransaction.getKey transaction)) None c in
    match exchanges c !! ClientTransaction.getExchangeKey transaction with
    | Some exchange => finishExchange now exchange None c
    | None => Err TypeError
    end
  else sendMessage (ClientTransaction.getRequest transaction) (Some retries) c.

(** The timer of the transaction stored under [transactionKey] expires:
    [ClientTransaction.prototype.onTimeout], whose last statement calls
    [onTransactionTimeout].  Without a pending timer nothing runs. *)
Definition transactionTimerExpires (now : Z) (transactionKey : string) (c : t) : result t :=
  match transactions c !! transactionKey with
  | None => Ok c
  | Some transaction =>
      match ClientTransaction.timeoutTimer transaction with
      | None => Ok c
      | Some _ =>
          let '(transaction, deferred) := ClientTransaction.onTimeout transaction in
          let c := with_transactions (<[transactionKey := transaction]> (transactions c)) c in
          let c := defer deferred c in
          onTransactionTimeout now transaction (ClientTransaction.timeoutCounter transaction) c
      end
  end.

(** [childRequest.once('timeout', parentRequest.emit.bind(parentRequest, 'timeout'))] *)
Definition bindTimeoutToParentRequest (childRequest parentRequest : Message.t) (c : t) : t :=
  with_effects (sent c) (emitted c) (immediates c)
    (timeoutBindings c ++ [(childRequest, parentRequest)]) c.

Definition requestNextBlock (random : Q) (exchange : nat) (c : t) : result t :=
  let '(messageId, c) := getNextMessageId c in
  e ← deref exchange c;
  nextBlock2Request ← ClientExchange.createNextBlock2Request e messageId;
  parentRequest ← ClientExchange.theRequest e;
  let c := bindTimeoutToParentRequest nextBlock2Request parentRequest c in
  '(_, c) ← setUpTransaction random exchange nextBlock2Request c;
  sendMessage nextBlock2Request None c.

Definition sendNextBlock (random : Q) (exchange : nat) (first : bool) (c : t) : result t :=
  let '(messageId, c) := getNextMessageId c in
  e ← deref exchange c;
  '(e, nextBlock1Request) ← ClientExchange.createNextBlock1Request e messageId;
  let c := store exchange e c in
  parentRequest ← ClientExchange.theRequest e;
  let c := bindTimeoutToParentRequest nextBlock1Request parentRequest c in
  '(transaction, c) ← setUpTransaction random exchange nextBlock1Request c;
  let c :=
    if first then
      with_transactions
        (<[ClientTransaction.getKey transaction :=
             ClientTransaction.setParentRequest parentRequest transaction]>
           (transactions c)) c
    else c in
  sendMessage nextBlock1Request None c.

(** The [options] argument of [Client.request]. *)
Record UserOptions := {
  u_blockSize : option Z;
  u_exchangeTimeout : option Q;
  u_includeBlock2 : option bool;
  u_maxRetransmit : option Z;
  u_transactionTimeout : option Q
}.

(** [request(request, options)]: the request as sent, and the client.
    [fuel] bounds the token search, [None] is a search that did not
    end. *)
Definition request (fuel : nat) (now : Z) (random : Q) (request : Message.t)
  (options : UserOptions) (c : t) : option (result (Message.t * t)) :=
  if negb (Message.isRequest request) then Some (Err NotARequest)
  else
    let '(messageId, c) := getNextMessageId c in
    '(token, tokenManager) ← TokenManager.acquire fuel now (tokenManager c);
    Some (
      request ← Message.setId messageId request;
      let c := with_tokenManager tokenManager c in
      request ← Message.setToken (Some token) request;
      let options :=
        {| RequestOptions.includeBlock2 :=
             match u_includeBlock2 options with
             | Some b => b
             | None => bool_decide (is_Some (u_blockSize options))
             end;
           RequestOptions.blockSize := orZ (u_blockSize options) (blockSize c);
           RequestOptions.exchangeTimeout :=
             orQ (u_exchangeTimeout options) (exchangeTimeout c);
           RequestOptions.maxRetransmit := u_maxRetransmit options;
           RequestOptions.transactionTimeout := u_transactionTimeout options |} in
      '(exchange, c) ← setUpExchange request options c;
      e ← deref exchange c;
      if ClientExchange.isBlockwiseRequest e then
        c ← sendNextBlock random exchange true c;
        mret (request, c)
      else
        request ←
          (if RequestOptions.includeBlock2 options
              && (Message.getCode request =? Message.Code.GET)
           then Message.setBlock2 0 false (RequestOptions.blockSize options) request
           else Ok request);
        let c := store exchange (ClientExchange.with_request (Some request) e) c in
        c ←
          (if Message.isConfirmable request
           then '(_, c) ← setUpTransaction random exchange request c; mret c
           else Ok c);
        c ← sendMessage request None c;
        mret (request, c)).

Section Handlers.

(** [x !== -1] on numbers. *)
Definition isNot (x : Q) (y : Q) : bool := negb (Qeq_bool x y).

(** [removeObserver(remoteEndpoint, uriPath, finish, cancel)]; the
    last two are [None] when omitted. *)
Definition removeObserver (now : Z) (remoteEndpoint uriPath : string)
  (finish cancel : option bool) (c : t) : result t :=
  match observers c !! remoteEndpoint with
  | None => Ok c
  | Some endpointObservers =>
      match byUriPath endpointObservers !! uriPath with
      | None => Ok c
      | Some exchange =>
          c ← (if negb (bool_decide (finish = Some false))
               then finishExchange now exchange cancel c
               else Ok c);
          let endpointObservers :=
            {| count := count endpointObservers - 1;
               byUriPath := delete uriPath (byUriPath endpointObservers) |} in
          if count endpointObservers =? 0
          then Ok (with_observers (delete remoteEndpoint (observers c)) c)
          else Ok (with_observers
                     (<[remoteEndpoint := endpointObservers]> (observers c)) c)
      end
  end.

Definition updateObserver (now : Z) (exchange : nat) (request : Message.t) (c : t)
  : result t :=
  let remoteEndpoint := EndpointAddress.toString (Message.getRemoteEndpoint request) in
  let endpointObservers :=
    default {| count := 0; byUriPath := ∅ |} (observers c !! remoteEndpoint) in
  let c := with_observers (<[remoteEndpoint := endpointObservers]> (observers c)) c in
  let uriPath := Message.getUriPath request in
  match byUriPath endpointObservers !! uriPath with
  | None =>
      let endpointObservers :=
        {| count := count endpointObservers + 1;
           byUriPath := <[uriPath := exchange]> (byUriPath endpointObservers) |} in
      Ok (with_observers (<[remoteEndpoint := endpointObservers]> (observers c)) c)
  | Some oldExchange =>
      if bool_decide (oldExchange = exchange) then Ok c
      else
        c ← finishExchange now oldExchange None c;
        let endpointObservers :=
          {| count := count endpointObservers;
             byUriPath := <[uriPath := exchange]> (byUriPath endpointObservers) |} in
        Ok (with_observers (<[remoteEndpoint := endpointObservers]> (observers c)) c)
  end.

Definition handleObserverSuccess (now : Z) (exchange : nat) (request response : Message.t)
  (c : t) : result t :=
  e ← deref exchange c;
  if ClientExchange.isSubscribed e then Ok c
  else if ClientExchange.isObserver e && isNot (Message.getObserve response) (-1)
  then updateObserver now exchange request c
  else
    removeObserver now
      (EndpointAddress.toString (Message.getRemoteEndpoint request))
      (Message.getUriPath request) None None c.

Definition handleObserverError (now : Z) (exchange : nat) (request : Message.t) (c : t)
  : result t :=
  e ← deref exchange c;
  if ClientExchange.isObserver e then
    c ← (if ClientExchange.isSubscribed e
         then
           let uriPath := Message.getUriPath request in
           removeObserver now
             (EndpointAddress.toString (Message.getRemoteEndpoint request))
             uriPath (Some false) None c
         else Ok c);
    e ← deref exchange c;
    '(e, deferred) ← ClientExchange.cancel e;
    Ok (defer deferred (store exchange e c))
  else Ok c.

Definition handleObserver (now : Z) (exchange : nat) (response : Message.t) (c : t)
  : result t :=
  e ← deref exchange c;
  request ← ClientExchange.theRequest e;
  if negb (Message.getCode request =? Message.Code.GET) then Ok c
  else
    let code := Message.getCode response in
    if (code =? Message.Code.CONTENT) || (code =? Message.Code.VALID)
    then handleObserverSuccess now exchange request response c
    else handleObserverError now exchange request c.

(** [handleTransaction(exchange, response, transactionKey)] *)
Definition handleTransaction (exchange : nat) (response : Message.t)
  (transactionKey : string) (c : t) : result t :=
  match transactions c !! transactionKey with
  | Some _ => Ok (finishTransaction (Some transactionKey) (Some (true, response)) c)
  | None =>
      e ← deref exchange c;
      let transactionKey := ClientExchange.getTransactionKey e in
      match transactionKey ≫= (transactions c !!.) with
      | Some _ => Ok (finishTransaction transactionKey (Some (true, response)) c)
      | None => Ok c
      end
  end.

(** [handleInvalidBlock2Response(exchange, response, block2, observe)] *)
Definition handleInvalidBlock2Response (exchange : nat) (response : Message.t)
  (block2 : BlockOption.t) (observe : Q) (c : t) : result t :=
  if Message.isConfirmable response then
    if Qeq_bool observe (-1) then sendRstReply response c
    else sendAckReply response c
  else Ok c.

(** [exchange.handleBlock2Response(...)] on the object at [exchange]. *)
Definition exchangeHandleBlock2Response (exchange : nat) (response : Message.t)
  (block2 : BlockOption.t) (serverInitiative : option bool) (c : t) : result t :=
  e ← deref exchange c;
  '(e, deferred) ← ClientExchange.handleBlock2Response e response block2 serverInitiative;
  mret (defer deferred (store exchange e c)).

(** [exchange.scheduleTimeout()] on the object at [exchange]. *)
Definition exchangeScheduleTimeout (exchange : nat) (c : t) : result t :=
  e ← deref exchange c;
  e ← ClientExchange.scheduleTimeout e;
  mret (store exchange e c).

Definition handleNewValidBlock2Response (now : Z) (random : Q) (exchange : nat)
  (response : Message.t) (block2 : BlockOption.t) (serverInitiative : bool) (c : t)
  : result t :=
  c ← (if Message.isConfirmable response then sendAckReply response c else Ok c);
  c ← exchangeHandleBlock2Response exchange response block2 (Some serverInitiative) c;
  e ← deref exchange c;
  if ClientExchange.isServerInitiative e then exchangeScheduleTimeout exchange c
  else if BlockOption.m block2 then requestNextBlock random exchange c
  else finishExchange now exchange None c.

Definition handleNewBlock2Response (now : Z) (random : Q) (exchange : nat)
  (response : Message.t) (block2 : BlockOption.t) (serverInitiative : bool) (c : t)
  : result t :=
  e ← deref exchange c;
  ClientExchange.isValidBlock2 e block2 None ≫= λ valid : bool,
  if valid
  then handleNewValidBlock2Response now random exchange response block2 serverInitiative c
  else handleInvalidBlock2Response exchange response block2 (Message.getObserve response) c.

Definition handleExistingBlock2Response (now : Z) (random : Q) (exchange : nat)
  (response : Message.t) (block2 : BlockOption.t) (c : t) : result t :=
  let observe := Message.getObserve response in
  e ← deref exchange c;
  ClientExchange.isValidBlock2 e block2 (Some observe) ≫= λ valid : bool,
  if negb valid then handleInvalidBlock2Response exchange response block2 observe c
  else
    c ← (if Message.isConfirmable response then sendAckReply response c else Ok c);
    c ← exchangeHandleBlock2Response exchange response block2 None c;
    e ← deref exchange c;
    if BlockOption.m block2 then
      if ClientExchange.isServerInitiative e then exchangeScheduleTimeout exchange c
      else requestNextBlock random exchange c
    else
      if ClientExchange.isSubscribed e then exchangeScheduleTimeout exchange c
      else finishExchange now exchange None c.

(** [handleBlock2Response(exchange, response, block2, serverInitiative)] *)
Definition handleBlock2Response (now : Z) (random : Q) (exchange : nat)
  (response : Message.t) (block2 : BlockOption.t) (serverInitiative : bool) (c : t)
  : result t :=
  e ← deref exchange c;
  if (BlockOption.num block2 >? 0) && ClientExchange.isBlockwiseResponse e
  then handleExistingBlock2Response now random exchange response block2 c
  else handleNewBlock2Response now random exchange response block2 serverInitiative c.

(** [handleBlock1Response(exchange, response, block1)] *)
Definition handleBlock1Response (now : Z) (random : Q) (exchange : nat)
  (response : Message.t) (block1 : BlockOption.t) (c : t) : result t :=
  let block2 := Message.getBlock2 response in
  e ← deref exchange c;
  if negb (ClientExchange.isValidBlock1 e block1 block2) then
    if Message.isConfirmable response then sendRstReply response c else Ok c
  else
    '(e, deferred) ←
      ClientExchange.handleBlock1Response e response block1
        (bool_decide (is_Some block2));
    let c := defer deferred (store exchange e c) in
    ClientExchange.hasMoreBlock1 e ≫= λ more : bool,
    if more then sendNextBlock random exchange false c
    else
      match block2 with
      | Some block2 => handleBlock2Response now random exchange response block2 true c
      | None => finishExchange now exchange None c
      end.

Definition handleSimpleExchangeResponse (now : Z) (exchange : nat) (response : Message.t)
  (c : t) : result t :=
  c ← (if Message.isConfirmable response then sendAckReply response c else Ok c);
  e ← deref exchange c;
  '(e, deferred) ← ClientExchange.setResponse e response;
  let c := defer deferred (store exchange e c) in
  if ClientExchange.isSubscribed e then exchangeScheduleTimeout exchange c
  else finishExchange now exchange None c.

(** [handleExchangeResponse(exchange, response, transactionKey)] *)
Definition handleExchangeResponse (now : Z) (random : Q) (exchange : nat)
  (response : Message.t) (transactionKey : string) (c : t) : result t :=
  c ← handleTransaction exchange response transactionKey c;
  e ← deref exchange c;
  if ClientExchange.isLateObserveResponse e response then
    if Message.isConfirmable response then sendAckReply response c else Ok c
  else
    c ← handleObserver now exchange response c;
    match Message.getBlock1 response with
    | Some block1 => handleBlock1Response now random exchange response block1 c
    | None =>
        e ← deref exchange c;
        match Message.getBlock2 response with
        | Some block2 =>
            if ClientExchange.isBlockwiseResponsePossible e then
              let serverInitiative :=
                ClientExchange.isObserver e || ClientExchange.isBlockwiseRequest e in
              handleBlock2Response now random exchange response block2 serverInitiative c
            else handleSimpleExchangeResponse now exchange response c
        | None => handleSimpleExchangeResponse now exchange response c
        end
    end.

Definition handleRstMessage (now : Z) (rstMessage : Message.t) (transactionKey : string)
  (c : t) : result t :=
  match transactions c !! transactionKey with
  | None => Ok c
  | Some transaction =>
      let exchangeKey := ClientTransaction.getExchangeKey transaction in
      let c := finishTransaction (Some transactionKey) (Some (false, rstMessage)) c in
      match exchanges c !! exchangeKey with
      | Some exchange => finishExchange now exchange None c
      | None => Err TypeError
      end
  end.

Definition handleEmptyAckMessage (ackMessage : Message.t) (transactionKey : string)
  (c : t) : t :=
  match transactions c !! transactionKey with
  | Some _ => finishTransaction (Some transactionKey) (Some (true, ackMessage)) c
  | None => c
  end.

(** [handleResponse(response, transactionKey)] *)
Definition handleResponse (now : Z) (random : Q) (response : Message.t)
  (transactionKey : string) (c : t) : result t :=
  if Message.isReset response then handleRstMessage now response transactionKey c
  else if Message.isEmptyAcknowledgement response
  then Ok (handleEmptyAckMessage response transactionKey c)
  else
    match exchanges c !! Message.getExchangeKey response with
    | None => if Message.isConfirmable response then sendRstReply response c else Ok c
    | Some exchange => handleExchangeResponse now random exchange response transactionKey c
    end.

End Handlers.

End Client.

(** * Specification-side definitions *)

(** The number a byte string denotes in big-endian base 256. *)
Definition big_endian (bytes : list Z) : Z :=
  fold_left (fun acc b => acc * 256 + b) bytes 0.

Definition is_byte (b : Z) : Prop := 0 <= b <= 255.

(** The encoding of an integer by [encodeNumericValue], branch by branch. *)
Definition encode_uint (z : Z) : list Z :=
  if z <=? 255 then [z mod 256]
  else if z <=? 65535 then [(z / 256) mod 256; z mod 256]
  else if z <=? 16777215 then [(z / 65536) mod 256; (z / 256) mod 256; z mod 256]
  else [(z / 16777216) mod 256; (z / 65536) mod 256; (z / 256) mod 256; z mod 256].

(** ** Concrete inputs *)
Module Scenario.

(** The tokens returned by [n] successive [acquire()] calls with no
    [release] in between, and the manager they leave. *)
Fixpoint acquire_all (n : nat) (now : Z) (tm : TokenManager.t)
  : list (list Z) * TokenManager.t :=
  match n with
  | O => ([], tm)
  | S n' =>
      match TokenManager.acquire 0 now tm with
      | Some (token, tm) =>
          let '(tokens, tm) := acquire_all n' now tm in (token :: tokens, tm)
      | None => ([], tm)
      end
  end.

(** A clock value: 2023-11-14T22:13:20Z in milliseconds. *)
Definition now : Z := 1700000000000.

(** The value of a computation that succeeds. *)
Definition the {A : Type} (fallback : A) (r : result A) : A :=
  match r with
  | Ok a => a
  | Err _ => fallback
  end.

(** [new Option(number, data)] for a registered number. *)
Definition option_of (number : Z) (data : option (list Z)) : Option.t :=
  the {| Option.definition :=
           optionNumberRegistry.OptionDefinition_new (optionNumberRegistry.plain "" 0 "");
         Option.data := None |}
      (Option.new number data).

(** A [Message] with the given type, code, ID, token, options and payload. *)
Definition message (type : Message.Type_) (code id : Z) (token : list Z)
    (options : list Option.t) (payload : list Z) : Message.t :=
  let m := Message.with_type type Message.new in
  let m := the m (Message.setCode code m) in
  let m := the m (Message.setId id m) in
  let m := the m (Message.setToken (Some token) m) in
  let m := fold_left (fun m o => Message.addOption o m) options m in
  Message.setPayload payload m.

(** A confirmable GET with repeated and unordered options: Uri-Path
    "b", Observe, Uri-Path "a", ETag 01 02, and the payload "hi". *)
Definition sample_request : Message.t :=
  message Message.CON Message.Code.GET 4660 [7]
    [option_of 11 (Some [98]); option_of 6 None; option_of 11 (Some [97]);
     option_of 4 (Some [1; 2])]
    [104; 105].

(** A message to [127.0.0.1] carrying [token]. *)
Definition message_with_token (token : list Z) : Message.t :=
  Message.with_token (Some token) Message.new.

End Scenario.

(** ** The wire format of RFC 7252, section 3, and message validity *)
Module Wire.

(** The largest option delta and option length the format can carry. *)
Definition MAX_FIELD : Z := 65535 + 269.

(** The extension bytes after an option header for a delta or length. *)
Definition extended (value : Z) : list Z :=
  if value <=? 12 then []
  else if value <=? 268 then [value - 13]
  else [Z.shiftr (value - 269) 8; Z.land (value - 269) 255].

(** One option: header byte, extended delta, extended length, value. *)
Definition option_bytes (delta : Z) (data : list Z) : list Z :=
  Z.lor (Z.shiftl (Option.getOptionNibble delta) 4)
        (Option.getOptionNibble (Z.of_nat (length data)))
  :: extended delta ++ extended (Z.of_nat (length data)) ++ data.

(** An option list in ascending number order, after option [last]. *)
Fixpoint options_bytes (last : Z) (options : list (Z * list Z)) : list Z :=
  match options with
  | [] => []
  | (number, data) :: rest =>
      option_bytes (number - last) data ++ options_bytes number rest
  end.

(** The fixed header for version 1. *)
Definition header_bytes (type : Message.Type_) (tokenLength code id : Z) : list Z :=
  [64 + 16 * Message.Type_value type + tokenLength; code; id / 256; id mod 256].

(** The payload marker and the payload, when there is one. *)
Definition payload_bytes (payload : option (list Z)) : list Z :=
  match payload with
  | Some p => 255 :: p
  | None => []
  end.

(** Number and value of an option, as the wire carries them. *)
Definition on_wire (o : Option.t) : Z * list Z := (Option.getNumber o, Option.getData o).

(** Numbers ascend along the list, starting at or above [last]. *)
Fixpoint ascending (last : Z) (options : list (Z * list Z)) : Prop :=
  match options with
  | [] => True
  | (number, _) :: rest => last <= number /\ ascending number rest
  end.

(** The option object [Options.unserialize] builds for a wire option:
    a zero-length value is read as [null]. *)
Definition read_data (data : list Z) : option (list Z) :=
  match data with
  | [] => None
  | _ => Some data
  end.

Definition as_read (o : Option.t) : Option.t :=
  {| Option.definition := Option.definition o;
     Option.data := read_data (Option.getData o) |}.

(** The number of the last option of a list read after option [last]. *)
Definition last_number (last : Z) (options : list Option.t) : Z :=
  fold_left (fun _ o => Option.getNumber o) options last.

(** The datagram of a message: header, token, options in ascending
    number order, payload marker and payload. *)
Definition datagram (m : Message.t) : list Z :=
  header_bytes (Message.type m) (Message.getTokenLength m) (Message.getCode m)
    (Message.id m)
  ++ Message.getToken m
  ++ options_bytes 0 (map on_wire (Options.sort_list (Options.list_ (Message.options m))))
  ++ payload_bytes (Message.payload m).

(** The message [Message.fromBuffer] builds at time [now] from the
    datagram of [m]. *)
Definition read_back (now : Z) (m : Message.t) : Message.t :=
  {| Message.type := Message.type m;
     Message.codeDefinition := Message.codeDefinition m;
     Message.id := Message.id m;
     Message.token := read_data (Message.getToken m);
     Message.options :=
       {| Options.list_ := map as_read (Options.sort_list (Options.list_ (Message.options m)));
          Options.sorted := false |};
     Message.payload := read_data (Message.getPayload m);
     Message.remoteEndpoint := EndpointAddress.new "127.0.0.1" None;
     Message.timestamp := now |}.

End Wire.

(** The invariants of a [Message] object whose options fit the wire
    format: its code and option definitions come from the registries, the
    message ID is an unsigned 16-bit integer, the token has at most 8
    bytes, every option value is at most 65804 bytes long, and an option
    list flagged as sorted is sorted. *)
Record valid_message (m : Message.t) : Prop := {
  valid_code : codeRegistry.get (Message.getCode m) = Ok (Message.codeDefinition m);
  valid_id : 0 <= Message.id m <= 65535;
  valid_token : Message.getTokenLength m <= 8;
  valid_options :
    Forall (fun o =>
              optionNumberRegistry.get (Option.getNumber o) = Ok (Option.definition o)
              /\ Z.of_nat (length (Option.getData o)) <= Wire.MAX_FIELD)
           (Options.list_ (Message.options m));
  valid_sorted :
    Options.sorted (Message.options m) = true ->
    Options.sort_list (Options.list_ (Message.options m)) = Options.list_ (Message.options m)
}.

(** Option objects compared by definition and value, [null] and the
    empty buffer being the same value. *)
Definition option_view (o : Option.t) : optionNumberRegistry.OptionDefinition * list Z :=
  (Option.definition o, Option.getData o).

(** Equality of messages up to the order of options with different
    numbers, the remote endpoint and the timestamp. *)
Record same_message (m m' : Message.t) : Prop := {
  same_type : Message.getType m' = Message.getType m;
  same_code : Message.codeDefinition m' = Message.codeDefinition m;
  same_id : Message.getId m' = Message.getId m;
  same_token : Message.getToken m' = Message.getToken m;
  same_payload : Message.getPayload m' = Message.getPayload m;
  same_options :
    Permutation (map option_view (Options.list_ (Message.options m')))
                (map option_view (Options.list_ (Message.options m)));
  same_order :
    forall number : Z,
      map option_view (Message.getOptions m' number)
      = map option_view (Message.getOptions m number)
}.

(** The deferred calls of [event], in the order [setImmediate] runs them. *)
Definition calls (event : string) (c : Client.t) : list Events.Deferred :=
  filter (fun d => bool_decide (Events.event d = event)) (Client.immediates c).

(** ** A block-wise download

    A client with message ID 0 and block size 64 sends a confirmable GET
    for [/b] to 127.0.0.1; the server answers the three requests with
    piggy-backed 2.05 responses carrying Block2 0, 1 and 2. *)
Module Download.

Definition client : Client.t :=
  Client.new 0
    {| Client.o_socket4 := true; Client.o_socket6 := false;
       Client.o_tokenManager := None; Client.o_messageId := Some 0;
       Client.o_ackTimeout := None; Client.o_ackRandomFactor := None;
       Client.o_maxRetransmit := None; Client.o_exchangeTimeout := None;
       Client.o_duplicateTimeout := None; Client.o_blockSize := Some 64 |}.

Definition get_request : Message.t :=
  Scenario.message Message.CON Message.Code.GET 0 []
    [Scenario.option_of Message.Option_.URI_PATH (Some [98])] [].

Definition no_options : Client.UserOptions :=
  {| Client.u_blockSize := None; Client.u_exchangeTimeout := None;
     Client.u_includeBlock2 := None; Client.u_maxRetransmit := None;
     Client.u_transactionTimeout := None |}.

(** The response to request [id] with block [num] of [size] bytes. *)
Definition block (id num : Z) (more : bool) (size : Z) (payload : list Z) : Message.t :=
  let m := Scenario.message Message.ACK Message.Code.CONTENT id [] [] payload in
  Scenario.the m (Message.setBlock2 num more size m).

(** [Client.onMessage] from the decoded message on. *)
Definition receive (response : Message.t) (c : Client.t) : result Client.t :=
  Client.handleResponse Scenario.now 0 response (Message.getTransactionKey response) c.

(** [client.request(get_request)] *)
Definition requested : result (Message.t * Client.t) :=
  default (Err LoopBound)
    (Client.request 0 Scenario.now 0 get_request no_options client).

Definition block0 : Message.t := block 1 0 true 64 [1; 2].
Definition block1 : Message.t := block 2 1 true 64 [3; 4].
Definition block2 : Message.t := block 3 2 false 64 [5].

(** The request as sent, and the client after the last block. *)
Definition run : result (Message.t * Client.t) :=
  '(request, c) ← requested;
  c ← receive block0 c;
  c ← receive block1 c;
  c ← receive block2 c;
  mret (request, c).

(** The block number of a [block received] call. *)
Definition block_number (d : Events.Deferred) : option Z :=
  match Events.arguments d with
  | [Events.AMessage _; Events.ABlock b] => Some (BlockOption.num b)
  | _ => None
  end.

(** The first response is instead a block of 1024 bytes. *)
Definition large_block : Message.t := block 1 0 true 1024 [1; 2].

Definition run_large : result Client.t :=
  '(_, c) ← requested;
  receive large_block c.

(** The exchange of the download. *)
Definition exchange_of (c : Client.t) : option ClientExchange.t := Client.heap c !! 0%nat.

(** The client once block 0 is in, and a confirmable message that then
    brings block 2 in place of block 1. *)
Definition after_block0 : Client.t :=
  Scenario.the client ('(_, c) ← requested; receive block0 c).

Definition out_of_order : Message.t :=
  Message.with_type Message.CON (block 9 2 true 64 [9]).

(** The exchange object of [after_block0]. *)
Definition exchange_after_block0 : ClientExchange.t :=
  Scenario.the
    (ClientExchange.initial get_request
       {| RequestOptions.blockSize := 64; RequestOptions.exchangeTimeout := 0;
          RequestOptions.includeBlock2 := false; RequestOptions.maxRetransmit := None;
          RequestOptions.transactionTimeout := None |})
    (Client.deref 0 after_block0).

End Download.

(** A Block2 block that the exchange [e] does not take: its number is
    not 0 and either no block came before it, or it is not the block
    after the current one, or its SZX is greater than the current one,
    or the Observe value of its message is not that of the first block
    received. *)
Definition invalid_block2 (e : ClientExchange.t) (block2 : BlockOption.t) (observe : Q)
  : bool :=
  negb (BlockOption.num block2 =? 0)
  && match ClientExchange.currentBlock2 e with
     | None => true
     | Some current =>
         negb (BlockOption.num block2 =? BlockOption.num current + 1)
         || (BlockOption.szx block2 >? BlockOption.szx current)
         || match ClientExchange.blocks2 e with
            | Some (first :: _) => negb (Qeq_bool observe (Message.getObserve first))
            | _ => false
            end
     end.

(** ** Notifications

    The response carries an Observe value that is newer than the one the
    exchange recorded last. *)
Definition newer (v1 v2 : Q) (t1 t2 : Z) : Prop :=
  (v1 < v2 /\ v2 - v1 < inject_Z (2 ^ 23))%Q
  \/ (v2 < v1 /\ inject_Z (2 ^ 23) < v1 - v2)%Q
  \/ t1 + 128000 < t2.

Definition newer_than (e : ClientExchange.t) (response : Message.t) : Prop :=
  newer (ClientExchange.lastObserveValue e) (Message.getObserve response)
    (ClientExchange.lastResponseTime e) (Message.getTimestamp response).

(** A client observes [/b] on 127.0.0.1; the server acknowledges with
    Observe 5, and 20 ms later sends a confirmable notification with
    Observe 3. *)
Module Observation.

Definition observe_request : Message.t :=
  Scenario.message Message.CON Message.Code.GET 0 []
    [Scenario.option_of Message.Option_.OBSERVE None;
     Scenario.option_of Message.Option_.URI_PATH (Some [98])] [].

Definition notification (type : Message.Type_) (id observe timestamp : Z)
    (payload : list Z) : Message.t :=
  Message.with_timestamp timestamp
    (Scenario.message type Message.Code.CONTENT id []
       [Scenario.option_of Message.Option_.OBSERVE (Some [observe])] payload).

Definition first : Message.t := notification Message.ACK 1 5 (Scenario.now + 10) [1].
Definition second : Message.t := notification Message.CON 77 3 (Scenario.now + 30) [2].

Definition receive (response : Message.t) (c : Client.t) : result Client.t :=
  Client.handleResponse (Message.getTimestamp response) 0 response
    (Message.getTransactionKey response) c.

(** The client once the first notification is in. *)
Definition subscribed : Client.t :=
  Scenario.the Download.client
    ('(_, c) ←
       default (Err LoopBound)
         (Client.request 0 Scenario.now 0 observe_request Download.no_options
            Download.client);
     receive first c).

Definition exchange_subscribed : ClientExchange.t :=
  Scenario.the
    (ClientExchange.initial observe_request
       {| RequestOptions.blockSize := 64; RequestOptions.exchangeTimeout := 0;
          RequestOptions.includeBlock2 := false; RequestOptions.maxRetransmit := None;
          RequestOptions.transactionTimeout := None |})
    (Client.deref 0 subscribed).

End Observation.

(** ** Retransmission *)
Module Retransmission.

(** [n] expiries in a row of the timer of the transaction under [key]. *)
Fixpoint expiries (n : nat) (now : Z) (key : string) (c : Client.t) : result Client.t :=
  match n with
  | O => Ok c
  | S n' => c ← expiries n' now key c; Client.transactionTimerExpires now key c
  end.

(** The timeout after [k] doublings. *)
Definition doubled (k : nat) (timeout : Q) : Q := Nat.iter k (fun t => (t * 2)%Q) timeout.

(** A copy of [request] on the wire, and the copies that [k]
    retransmissions send. *)
Definition copy (buffer : list Z) (request : Message.t) (retries : Z) : Client.Sent :=
  {| Client.datagram := buffer; Client.sentMessage := request; Client.retries := retries |}.

Definition retransmissions (buffer : list Z) (request : Message.t) (k : nat)
  : list Client.Sent :=
  map (fun i => copy buffer request (Z.of_nat i)) (seq 1 k).

(** The options object once [setUpTransaction] has filled in what the
    caller left out. *)
Definition completed (random : Q) (c : Client.t) (options : RequestOptions.t)
  : RequestOptions.t :=
  {| RequestOptions.blockSize := RequestOptions.blockSize options;
     RequestOptions.exchangeTimeout := RequestOptions.exchangeTimeout options;
     RequestOptions.includeBlock2 := RequestOptions.includeBlock2 options;
     RequestOptions.maxRetransmit :=
       Some (default (Client.maxRetransmit c) (RequestOptions.maxRetransmit options));
     RequestOptions.transactionTimeout :=
       Some (default (Client.genTransactionTimeout random c)
               (RequestOptions.transactionTimeout options)) |}.

(** The transaction [tx] after [k] expiries: its timer is pending with
    the timeout doubled [k] times. *)
Definition after (k : nat) (tx : ClientTransaction.t) : ClientTransaction.t :=
  ClientTransaction.with_timer
    (doubled k (ClientTransaction.currentTimeout tx))
    (Some (doubled k (ClientTransaction.currentTimeout tx)))
    (Z.of_nat k) tx.

(** The client [c'] is the client [c] after [k] retransmissions of the
    request of [tx]. *)
Record waiting (c : Client.t) (tx : ClientTransaction.t) (buffer : list Z) (k : nat)
    (c' : Client.t) : Prop := {
  waiting_transaction :
    Client.transactions c' !! ClientTransaction.getKey tx = Some (after k tx);
  waiting_sent :
    Client.sent c'
    = Client.sent c ++ retransmissions buffer (ClientTransaction.getRequest tx) k;
  waiting_exchanges : Client.exchanges c' = Client.exchanges c;
  waiting_heap : Client.heap c' = Client.heap c;
  waiting_socket4 : Client.socket4 c' = Client.socket4 c;
  waiting_socket6 : Client.socket6 c' = Client.socket6 c
}.

(** The client [c'] is the client [c] once the transaction of [tx] has
    timed out after [k] retransmissions. *)
Record timed_out (c : Client.t) (tx : ClientTransaction.t) (buffer : list Z) (k : nat)
    (c' : Client.t) : Prop := {
  timed_out_transaction : Client.transactions c' !! ClientTransaction.getKey tx = None;
  timed_out_sent :
    Client.sent c'
    = Client.sent c ++ retransmissions buffer (ClientTransaction.getRequest tx) k;
  timed_out_client :
    In ("transaction timeout", ClientTransaction.getRequest tx) (Client.emitted c');
  timed_out_request :
    In (Events.emitOn (ClientTransaction.getRequest tx) "timeout" [])
       (Client.immediates c')
}.

(** The first request of the download of [Download], its exchange set
    up, then its transaction, then sent. *)
Definition request1 : Message.t :=
  Scenario.message Message.CON Message.Code.GET 1 []
    [Scenario.option_of Message.Option_.URI_PATH (Some [98])] [].

Definition options1 : RequestOptions.t :=
  {| RequestOptions.blockSize := 64;
     RequestOptions.exchangeTimeout := Client.exchangeTimeout Download.client;
     RequestOptions.includeBlock2 := false;
     RequestOptions.maxRetransmit := None;
     RequestOptions.transactionTimeout := None |}.

Definition prepared : Client.t :=
  Scenario.the Download.client (snd <$> Client.setUpExchange request1 options1 Download.client).

Definition exchange1 : ClientExchange.t :=
  Scenario.the (ClientExchange.initial request1 options1) (Client.deref 0 prepared).

Definition set_up : ClientTransaction.t * Client.t :=
  Scenario.the (ClientTransaction.new request1 "" options1, prepared)
    (Client.setUpTransaction (1 # 2) 0 request1 prepared).

Definition first_sent : Client.t :=
  Scenario.the prepared (Client.sendMessage request1 None (snd set_up)).

End Retransmission.

(** ** Reading keys back *)
Module Hex.

(** The value of a lower-case hexadecimal digit. *)
Definition digit_value (c : ascii) : Z :=
  let n := Z.of_nat (nat_of_ascii c) in
  if n <? 58 then n - 48 else n - 87.

(** The bytes a string of two-digit hexadecimal numbers stands for. *)
Fixpoint parse (s : string) : list Z :=
  match s with
  | String c1 (String c2 s') => (16 * digit_value c1 + digit_value c2) :: parse s'
  | _ => []
  end.

(** A byte that [convertToHexString] prints with two digits. *)
Definition two_digits (b : Z) : Prop := 0 <= b <= 9 \/ 16 <= b <= 255.

(** What [convertToHexString] appends for one byte. *)
Definition piece (b : Z) : string :=
  (if b <? 10 then "0" else "") +:+ helpers.toString16 b.

Definition piece_ok (b : Z) : bool :=
  match piece b with
  | String c1 (String c2 EmptyString) => 16 * digit_value c1 + digit_value c2 =? b
  | _ => false
  end.

End Hex.

(** The digits of a decimal string, read as a number. *)
Module Decimal.

Fixpoint parse_from (acc : Z) (s : string) : Z :=
  match s with
  | EmptyString => acc
  | String c s' => parse_from (acc * 10 + (Z.of_nat (nat_of_ascii c) - 48)) s'
  end.

Definition parse (s : string) : Z := parse_from 0 s.

End Decimal.

(** ** The token counter *)
Module Tokens.

(** [currentValue] read as a number, least significant byte first. *)
Definition little_endian (bytes : list Z) : Z :=
  fold_right (fun b acc => b + 256 * acc) 0 bytes.

(** The number of byte strings of each length from 1 up to [len]. *)
Fixpoint upto (len : nat) : Z :=
  match len with
  | O => 0
  | S len' => upto len' + 256 ^ Z.of_nat len
  end.

(** The place of a counter value in the order the counter runs through:
    by length, then by value. *)
Definition position (value : list Z) : Z :=
  upto (length value - 1) + little_endian value.

(** The invariant of a token manager. *)
Record well_formed (tm : TokenManager.t) : Prop := {
  wf_maxSize : 1 <= TokenManager.maxSize tm <= 8;
  wf_length :
    1 <= Z.of_nat (length (TokenManager.currentValue tm)) <= TokenManager.maxSize tm;
  wf_bytes : Forall is_byte (TokenManager.currentValue tm);
  wf_index : TokenManager.currentIndex tm = 0%nat
}.

End Tokens.

(** ** Decoding errors

    The exceptions [Message.fromBuffer] can throw on a buffer of bytes. *)
Definition wire_error (e : Error) : Prop :=
  match e with
  | InvalidCoapVersion _ | UnknownMessageCode _ | UnknownMessageOption _
  | TokenTooLong _ | InvalidPayloadMarker | ReaderUnderflow => True
  | _ => False
  end.

(** * Properties *)

(** ** Numeric option values (lib/helpers.js) *)

Section NumericValue.

Local Open Scope Z_scope.

Lemma land_255 z : Z.land z 255 = z mod 256.
Proof. change 255 with (Z.ones 8). by rewrite Z.land_ones. Qed.

Lemma land_255_l z : Z.land 255 z = z mod 256.
Proof. rewrite Z.land_comm. apply land_255. Qed.

Lemma shiftr_div z n : 0 <= n -> Z.shiftr z n = z / 2 ^ n.
Proof. intros. by apply Z.shiftr_div_pow2. Qed.

Lemma mask_byte_2 z : Z.shiftr (Z.land 65280 z) 8 = (z / 256) mod 256.
Proof.
  rewrite Z.shiftr_land. change (Z.shiftr 65280 8) with 255.
  rewrite land_255_l, shiftr_div by lia. reflexivity.
Qed.

Lemma mask_byte_3 z : Z.shiftr (Z.land 16711680 z) 16 = (z / 65536) mod 256.
Proof.
  rewrite Z.shiftr_land. change (Z.shiftr 16711680 16) with 255.
  rewrite land_255_l, shiftr_div by lia. reflexivity.
Qed.

(** What the tests of [encodeNumericValue] say on an integer value. *)
Lemma isFractional_integer (v : Q) (z : Z) :
  (v == inject_Z z)%Q -> helpers.isFractional v = false.
Proof.
  intros Hv. unfold helpers.isFractional.
  assert (Qfloor v = z) as -> by (rewrite Hv; apply Qfloor_Z).
  apply negb_false_iff, Qeq_bool_iff. by symmetry.
Qed.

Lemma isFractional_spec (v : Q) :
  helpers.isFractional v = true <-> ~ (inject_Z (Qfloor v) == v)%Q.
Proof.
  unfold helpers.isFractional. rewrite negb_true_iff, <- not_true_iff_false.
  by rewrite Qeq_bool_iff.
Qed.

Lemma leQ_integer (v : Q) (z k : Z) :
  (v == inject_Z z)%Q -> helpers.leQ v k = (z <=? k).
Proof.
  intros Hv. unfold helpers.leQ.
  apply eq_true_iff_eq. rewrite Qle_bool_iff, Hv, <- Zle_Qle.
  symmetry. rewrite Z.leb_le. reflexivity.
Qed.

Lemma gtQ_spec (v : Q) (k : Z) :
  helpers.gtQ v k = true <-> (inject_Z k < v)%Q.
Proof.
  unfold helpers.gtQ. rewrite negb_true_iff, <- not_true_iff_false, Qle_bool_iff.
  split; [apply Qnot_le_lt | apply Qlt_not_le].
Qed.

Lemma gtQ_integer (v : Q) (z k : Z) :
  (v == inject_Z z)%Q -> helpers.gtQ v k = negb (z <=? k).
Proof.
  intros Hv. unfold helpers.gtQ. f_equal.
  by apply (leQ_integer v z k).
Qed.

Lemma encodeNumericValue_integer (v : Q) (z : Z) :
  (v == inject_Z z)%Q -> z <= 4294967295 ->
  helpers.encodeNumericValue v = encode_uint z.
Proof.
  intros Hv Hz. unfold helpers.encodeNumericValue, encode_uint.
  rewrite (isFractional_integer v z Hv), (gtQ_integer v z _ Hv).
  assert (Qfloor v = z) as -> by (rewrite Hv; apply Qfloor_Z).
  rewrite !(leQ_integer v z _ Hv).
  replace (z <=? 4294967295) with true by (symmetry; by apply Z.leb_le).
  cbn [negb orb].
  destruct (z <=? 255); [cbn; by rewrite land_255|].
  destruct (z <=? 65535).
  { cbn. rewrite !land_255, shiftr_div by lia. reflexivity. }
  destruct (z <=? 16777215).
  { cbn -[Z.shiftr Z.land]. rewrite mask_byte_2, mask_byte_3, land_255_l.
    rewrite !land_255. by rewrite !Z.mod_mod by lia. }
  cbn. rewrite !land_255, !shiftr_div by lia. reflexivity.
Qed.

Lemma encode_uint_facts (z : Z) :
  0 <= z <= 4294967295 ->
  Forall is_byte (encode_uint z)
  /\ big_endian (encode_uint z) = z
  /\ (1 <= length (encode_uint z) <= 4)%nat
  /\ (0 < z -> nth 0 (encode_uint z) 0 <> 0).
Proof.
  intros Hz. unfold encode_uint, is_byte.
  pose proof (Z.mod_pos_bound z 256 ltac:(lia)).
  pose proof (Z.mod_pos_bound (z / 256) 256 ltac:(lia)).
  pose proof (Z.mod_pos_bound (z / 65536) 256 ltac:(lia)).
  pose proof (Z.mod_pos_bound (z / 16777216) 256 ltac:(lia)).
  pose proof (Z.div_mod z 256 ltac:(lia)).
  pose proof (Z.div_mod (z / 256) 256 ltac:(lia)).
  pose proof (Z.div_mod (z / 65536) 256 ltac:(lia)).
  assert (z / 256 / 256 = z / 65536) by (rewrite Z.div_div by lia; reflexivity).
  assert (z / 65536 / 256 = z / 16777216) by (rewrite Z.div_div by lia; reflexivity).
  repeat case_match; rewrite ?Z.leb_le, ?Z.leb_gt in *;
    (split; [repeat constructor; lia|]); unfold big_endian; cbn [fold_left length nth];
    (split; [|split; [lia|]]).
  - rewrite Z.mod_small by lia. lia.
  - intros. rewrite Z.mod_small by lia. lia.
  - assert (z / 65536 = 0) by (apply Z.div_small; lia). lia.
  - intros. assert (0 < z / 256) by (apply Z.div_str_pos; lia).
    assert (z / 256 < 256) by (apply Z.div_lt_upper_bound; lia).
    rewrite Z.mod_small by lia. lia.
  - assert (z / 16777216 = 0) by (apply Z.div_small; lia). lia.
  - intros. assert (0 < z / 65536) by (apply Z.div_str_pos; lia).
    assert (z / 65536 < 256) by (apply Z.div_lt_upper_bound; lia).
    rewrite Z.mod_small by lia. lia.
  - assert (z / 16777216 < 256) by (apply Z.div_lt_upper_bound; lia).
    rewrite (Z.mod_small (z / 16777216)) by (split; [apply Z.div_pos|]; lia).
    pose proof (Z.div_mod (z / 65536) 256 ltac:(lia)). lia.
  - intros. assert (0 < z / 16777216) by (apply Z.div_str_pos; lia).
    assert (z / 16777216 < 256) by (apply Z.div_lt_upper_bound; lia).
    rewrite Z.mod_small by lia. lia.
Qed.

(** [hi << k | lo] is [hi * 2^k + lo] when [lo] fits in [k] bits. *)
Lemma lor_shiftl_add (hi lo k : Z) :
  0 <= k -> 0 <= lo < 2 ^ k -> Z.lor (Z.shiftl hi k) lo = hi * 2 ^ k + lo.
Proof.
  intros Hk Hlo.
  assert (Z.land (Z.shiftl hi k) lo = 0) as Hland.
  { apply Z.bits_inj'. intros n Hn. rewrite Z.land_spec, Z.bits_0.
    destruct (Z.lt_ge_cases n k).
    - by rewrite Z.shiftl_spec_low.
    - rewrite <- (Z.mod_small lo (2 ^ k)) by lia.
      rewrite Z.mod_pow2_bits_high by lia. apply andb_false_r. }
  pose proof (Z.add_lor_land (Z.shiftl hi k) lo) as Hadd.
  rewrite Hland, Z.shiftl_mul_pow2 in Hadd by lia.
  rewrite Z.shiftl_mul_pow2 by lia. lia.
Qed.

Lemma lor_add (x q lo k : Z) :
  0 <= k -> x = q * 2 ^ k -> 0 <= lo < 2 ^ k -> Z.lor x lo = x + lo.
Proof.
  intros Hk -> Hlo. rewrite <- Z.shiftl_mul_pow2 by lia.
  rewrite lor_shiftl_add by lia. by rewrite Z.shiftl_mul_pow2 by lia.
Qed.

Lemma decodeNumericValue_encode_uint (z : Z) :
  0 <= z <= 4294967295 ->
  helpers.decodeNumericValue (encode_uint z) = inject_Z z.
Proof.
  intros Hz. unfold encode_uint.
  pose proof (Z.mod_pos_bound z 256 ltac:(lia)).
  pose proof (Z.mod_pos_bound (z / 256) 256 ltac:(lia)).
  pose proof (Z.mod_pos_bound (z / 65536) 256 ltac:(lia)).
  pose proof (Z.mod_pos_bound (z / 16777216) 256 ltac:(lia)).
  pose proof (Z.div_mod z 256 ltac:(lia)).
  pose proof (Z.div_mod (z / 256) 256 ltac:(lia)).
  pose proof (Z.div_mod (z / 65536) 256 ltac:(lia)).
  assert (z / 256 / 256 = z / 65536) by (rewrite Z.div_div by lia; reflexivity).
  assert (z / 65536 / 256 = z / 16777216) by (rewrite Z.div_div by lia; reflexivity).
  repeat case_match; rewrite ?Z.leb_le, ?Z.leb_gt in *;
    unfold helpers.decodeNumericValue, Buffer.readUInt16BE, Buffer.readUInt32BE,
      Buffer.get; cbn [length Nat.eqb Nat.ltb Nat.leb nth Nat.add]; f_equal.
  - apply Z.mod_small; lia.
  - rewrite lor_shiftl_add by lia.
    assert (z / 65536 = 0) by (apply Z.div_small; lia). lia.
  - replace (z mod 256 + Z.shiftl ((z / 65536) mod 256) 16)
      with (Z.lor (Z.shiftl ((z / 65536) mod 256) 16) (z mod 256))
      by (rewrite lor_shiftl_add, Z.shiftl_mul_pow2 by lia; lia).
    rewrite Z.lor_assoc, (Z.lor_comm (Z.shiftl _ 8)), <- Z.lor_assoc.
    rewrite (lor_shiftl_add _ _ 8) by lia.
    rewrite (lor_shiftl_add _ _ 16) by lia.
    assert (z / 16777216 = 0) by (apply Z.div_small; lia). lia.
  - rewrite !Z.shiftl_mul_pow2 by lia.
    rewrite (lor_add ((z / 65536) mod 256 * 2 ^ 16) ((z / 65536) mod 256)
               ((z / 256) mod 256 * 2 ^ 8) 16) by lia.
    rewrite (lor_add _ ((z / 65536) mod 256 * 256 + (z / 256) mod 256) _ 8) by lia.
    assert (z / 16777216 < 256) by (apply Z.div_lt_upper_bound; lia).
    rewrite (Z.mod_small (z / 16777216)) by (split; [apply Z.div_pos|]; lia).
    pose proof (Z.div_mod (z / 65536) 256 ltac:(lia)). lia.
Qed.

Lemma write_length (buffer : list Z) (offset : nat) (bytes : list Z) :
  length (Buffer.write buffer offset bytes) = length buffer.
Proof.
  revert offset bytes. induction buffer as [|b buffer IH]; intros offset bytes; [done|].
  destruct offset; cbn; [destruct bytes; cbn|]; by rewrite ?IH.
Qed.

Lemma writeDoubleBE_fresh (v : Q) :
  Buffer.writeDoubleBE (Buffer.alloc 8) v 0 = Ieee754.encode v.
Proof. reflexivity. Qed.

Lemma encodeNumericValue_escape (v : Q) :
  helpers.isFractional v || helpers.gtQ v 4294967295 = true ->
  helpers.encodeNumericValue v = Ieee754.encode v.
Proof.
  intros Hesc. unfold helpers.encodeNumericValue. rewrite Hesc.
  apply writeDoubleBE_fresh.
Qed.

Lemma escape_spec (v : Q) :
  helpers.isFractional v || helpers.gtQ v 4294967295 = true
  <-> (~ (inject_Z (Qfloor v) == v)%Q \/ (inject_Z 4294967295 < v)%Q).
Proof. by rewrite orb_true_iff, isFractional_spec, gtQ_spec. Qed.

End NumericValue.

(** C10, as the code has it.  For every value [v >= 0]:
    the encoding is the 8-byte IEEE-754 double of [v] exactly when [v] is
    not an integer or exceeds 2^32-1; for an integer [v <= 2^32-1] it is
    the big-endian representation of [v] in 1 to 4 bytes, without a leading
    zero byte when [v > 0] and the single byte 0x00 (not the empty value)
    when [v = 0]; and decoding the encoding of such an integer gives [v]
    back. *)
Theorem encodeNumericValue_wire_format (v : Q) :
  (0 <= v)%Q ->
  let encoded := helpers.encodeNumericValue v in
  (length encoded = 8%nat
   <-> (~ (inject_Z (Qfloor v) == v)%Q \/ (inject_Z 4294967295 < v)%Q))
  /\ ((~ (inject_Z (Qfloor v) == v)%Q \/ (inject_Z 4294967295 < v)%Q) ->
      encoded = Ieee754.encode v)
  /\ (forall z : Z, (v == inject_Z z)%Q -> z <= 4294967295 ->
      Forall is_byte encoded
      /\ big_endian encoded = z
      /\ (1 <= length encoded <= 4)%nat
      /\ (0 < z -> nth 0 encoded 0 <> 0)
      /\ (z = 0 -> encoded = [0])
      /\ (helpers.decodeNumericValue encoded == v)%Q).
Proof.
  intros Hv encoded.
  assert (forall z : Z, (v == inject_Z z)%Q -> z <= 4294967295 ->
            encoded = encode_uint z /\ 0 <= z <= 4294967295) as Hint.
  { intros z Hz Hmax. split; [by apply encodeNumericValue_integer|].
    split; [|done]. rewrite Hz in Hv. change 0%Q with (inject_Z 0) in Hv.
    by rewrite <- Zle_Qle in Hv. }
  split; [|split].
  - rewrite <- escape_spec. split.
    + intros Hlen.
      destruct (helpers.isFractional v || helpers.gtQ v 4294967295) eqn:Hesc; [done|].
      apply orb_false_iff in Hesc as [Hfrac Hgt]. exfalso.
      destruct (Hint (Qfloor v)) as [Henc Hrange].
      * symmetry. apply Qeq_bool_iff. by apply negb_false_iff.
      * apply Z.leb_le. rewrite <- (negb_involutive (_ <=? _)).
        rewrite <- (gtQ_integer v (Qfloor v)); [by rewrite Hgt|].
        symmetry. apply Qeq_bool_iff. by apply negb_false_iff.
      * destruct (encode_uint_facts _ Hrange) as (_ & _ & Hle & _).
        rewrite <- Henc in Hle. lia.
    + intros Hesc. unfold encoded. by rewrite encodeNumericValue_escape.
  - rewrite <- escape_spec. apply encodeNumericValue_escape.
  - intros z Hz Hmax. destruct (Hint z Hz Hmax) as [-> Hrange].
    destruct (encode_uint_facts z Hrange) as (Hbytes & Hvalue & Hlen & Hlead).
    repeat split; try done; try lia.
    + by intros ->.
    + by rewrite decodeNumericValue_encode_uint, Hz.
Qed.

Lemma encodeNumericValue_wire_format_witness :
  (0 <= 70000)%Q
  /\ let encoded := helpers.encodeNumericValue 70000 in
     (length encoded = 8%nat
      <-> (~ (inject_Z (Qfloor 70000) == 70000)%Q \/ (inject_Z 4294967295 < 70000)%Q))
     /\ ((~ (inject_Z (Qfloor 70000) == 70000)%Q \/ (inject_Z 4294967295 < 70000)%Q) ->
         encoded = Ieee754.encode 70000)
     /\ (forall z : Z, (70000 == inject_Z z)%Q -> z <= 4294967295 ->
         Forall is_byte encoded
         /\ big_endian encoded = z
         /\ (1 <= length encoded <= 4)%nat
         /\ (0 < z -> nth 0 encoded 0 <> 0)
         /\ (z = 0 -> encoded = [0])
         /\ (helpers.decodeNumericValue encoded == 70000)%Q).
Proof.
  split; [by vm_compute|].
  apply (encodeNumericValue_wire_format 70000). by vm_compute.
Defined.

(** C10 as stated fails at [v = 0]: the encoding of zero is the one byte
    0x00, not the zero-length value. *)
Lemma encodeNumericValue_zero_is_one_byte :
  helpers.encodeNumericValue 0 = [0]
  /\ length (helpers.encodeNumericValue 0) = 1%nat
  /\ helpers.encodeNumericValue 0 <> [].
Proof. by vm_compute. Qed.

(** ** Identifiers: exchange keys, tokens, endpoint addresses *)

(** C3.  The exchange key is not injective on the token: the two-byte
    token [0a 0b] and the one-byte token [ab] used with the same remote
    endpoint give the same key, because [convertToHexString] pads a byte
    to two digits only below 10, not below 16. *)
Theorem getExchangeKey_collision :
  [10; 11] <> [171]
  /\ Message.getRemoteEndpoint (Scenario.message_with_token [10; 11])
     = Message.getRemoteEndpoint (Scenario.message_with_token [171])
  /\ helpers.convertToHexString (Some [10; 11]) None = "ab"
  /\ helpers.convertToHexString (Some [171]) None = "ab"
  /\ Message.getExchangeKey (Scenario.message_with_token [10; 11]) = "127.0.0.1|ab"
  /\ Message.getExchangeKey (Scenario.message_with_token [171]) = "127.0.0.1|ab".
Proof. by vm_compute. Qed.

(** [maxReached] is set by the constructor alone: no operation of the
    token manager changes it, so the search loop of [acquire] that skips
    acquired tokens never runs. *)
Lemma nextValue_maxReached (tm : TokenManager.t) :
  TokenManager.maxReached (TokenManager.nextValue tm) = TokenManager.maxReached tm.
Proof.
  unfold TokenManager.nextValue, TokenManager.resizeValue, TokenManager.incrementValue.
  repeat case_match; reflexivity.
Qed.

Lemma acquire_maxReached (fuel : nat) (now : Z) (tm tm' : TokenManager.t) (token : list Z) :
  TokenManager.maxReached tm = false ->
  TokenManager.acquire fuel now tm = Some (token, tm') ->
  TokenManager.maxReached tm' = false.
Proof.
  intros Hmax. unfold TokenManager.acquire. rewrite Hmax. cbn [negb].
  destruct (_ && _); intros [= <- <-]; [done|].
  cbn. by rewrite nextValue_maxReached.
Qed.

Lemma release_maxReached (now : Z) (token : string) (tm : TokenManager.t) :
  TokenManager.maxReached (TokenManager.release_string now token tm)
  = TokenManager.maxReached tm.
Proof. unfold TokenManager.release_string. by case_match. Qed.

(** C8.  With [maxSize = 1] and no release, the 258th [acquire()]
    returns the token [01] again, which the 2nd call returned and which
    is still in the acquired set: after the counter wraps around, tokens
    in use are not skipped. *)
Theorem acquire_reuses_token_in_use :
  let tm := TokenManager.new (Some 1) None in
  let '(tokens, tm257) := Scenario.acquire_all 257 Scenario.now tm in
  length tokens = 257%nat
  /\ tokens !! 1%nat = Some [1]
  /\ TokenManager.isAcquired tm257 [1] = true
  /\ fst <$> TokenManager.acquire 0 Scenario.now tm257 = Some [1].
Proof. by vm_compute. Qed.

(** C9.  Two texts of one IPv6 address get different canonical strings:
    a 39-character address is returned as it is, upper-case digits
    included, while every other form is expanded and lower-cased. *)
Theorem expandIpv6_full_form_keeps_case :
  EndpointAddress.toString (EndpointAddress.new "2001:0DB8:0000:0000:0000:0000:0000:0001" None)
  = "[2001:0DB8:0000:0000:0000:0000:0000:0001]"
  /\ EndpointAddress.toString (EndpointAddress.new "2001:DB8::1" None)
     = "[2001:0db8:0000:0000:0000:0000:0000:0001]"
  /\ EndpointAddress.toString (EndpointAddress.new "2001:db8:0:0:0:0:0:1" None)
     = "[2001:0db8:0000:0000:0000:0000:0000:0001]"
  /\ EndpointAddress.toString (EndpointAddress.new "2001:0DB8:0000:0000:0000:0000:0000:0001" None)
     <> EndpointAddress.toString (EndpointAddress.new "2001:DB8::1" None).
Proof. by vm_compute. Qed.

(** The early return of [expandIpv6]: a 39-character text is unchanged. *)
Lemma expandIpv6_length_39 (address : string) :
  String.length address = 39%nat -> EndpointAddress.expandIpv6 address = address.
Proof. intros Hlen. unfold EndpointAddress.expandIpv6. by rewrite Hlen. Qed.

(** ** The wire codec (lib/Option.js, lib/Options.js, lib/Message.js) *)

Section Registries.

Local Open Scope Z_scope.

Lemma numberMap_entries :
  map_Forall (fun number d => optionNumberRegistry.number d = number /\ 1 <= number <= 60)
    optionNumberRegistry.numberMap.
Proof.
  apply map_Forall_to_list.
  let entries := eval vm_compute in (map_to_list optionNumberRegistry.numberMap) in
  assert (map_to_list optionNumberRegistry.numberMap = entries) as ->
    by (vm_compute; reflexivity).
  repeat constructor; cbn; lia.
Qed.

Lemma optionNumberRegistry_get (number : Z) (d : optionNumberRegistry.OptionDefinition) :
  optionNumberRegistry.get number = Ok d ->
  optionNumberRegistry.number d = number /\ 1 <= number <= 60.
Proof.
  unfold optionNumberRegistry.get.
  destruct (optionNumberRegistry.numberMap !! number) as [d'|] eqn:Hd; [|done].
  intros [= <-]. by apply (numberMap_entries number d').
Qed.

Lemma codeMap_entries :
  map_Forall (fun code d => codeRegistry.code d = code /\ 0 <= code <= 255)
    codeRegistry.codeMap.
Proof.
  apply map_Forall_to_list.
  let entries := eval vm_compute in (map_to_list codeRegistry.codeMap) in
  assert (map_to_list codeRegistry.codeMap = entries) as ->
    by (vm_compute; reflexivity).
  repeat constructor; cbn; lia.
Qed.

Lemma codeRegistry_get (code : Z) (d : codeRegistry.CodeDefinition) :
  codeRegistry.get code = Ok d -> codeRegistry.code d = code /\ 0 <= code <= 255.
Proof.
  unfold codeRegistry.get.
  destruct (codeRegistry.codeMap !! code) as [d'|] eqn:Hd; [|done].
  intros [= <-]. by apply (codeMap_entries code d').
Qed.

End Registries.

Section OptionCodec.

Local Open Scope Z_scope.

Lemma getOptionNibble_range (value : Z) :
  0 <= value -> 0 <= Option.getOptionNibble value <= 14.
Proof. unfold Option.getOptionNibble. repeat case_match; lia. Qed.

(** The header byte of an option: never the payload marker, and the two
    nibbles are read back. *)
Lemma option_header (dn ln : Z) :
  0 <= dn <= 14 -> 0 <= ln <= 14 ->
  let h := Z.lor (Z.shiftl dn 4) ln in
  0 <= h <= 254 /\ Z.shiftr (Z.land h 240) 4 = dn /\ Z.land h 15 = ln.
Proof.
  intros Hdn Hln h. unfold h. rewrite lor_shiftl_add by lia.
  rewrite Z.shiftr_land. change (Z.shiftr 240 4) with (Z.ones 4).
  change 15 with (Z.ones 4). rewrite !Z.land_ones, Z.shiftr_div_pow2 by lia.
  change (2 ^ 4) with 16. repeat split; try lia.
  - rewrite Z.div_add_l by lia. rewrite (Z.div_small ln) by lia.
    rewrite Z.mod_small; lia.
  - rewrite Z.add_comm, Z.mod_add by lia. apply Z.mod_small; lia.
Qed.

Lemma uint16_bytes (w : Z) :
  0 <= w <= 65535 ->
  0 <= Z.shiftr w 8 <= 255 /\ 0 <= Z.land w 255 <= 255
  /\ Z.lor (Z.shiftl (Z.shiftr w 8) 8) (Z.land w 255) = w.
Proof.
  intros Hw. rewrite land_255, Z.shiftr_div_pow2 by lia. change (2 ^ 8) with 256.
  pose proof (Z.mod_pos_bound w 256 ltac:(lia)).
  pose proof (Z.div_mod w 256 ltac:(lia)).
  assert (0 <= w / 256 <= 255)
    by (split; [apply Z.div_pos|apply Z.lt_succ_r, Z.div_lt_upper_bound]; lia).
  rewrite lor_shiftl_add by lia. lia.
Qed.

(** Writing the extension of a delta or length, and reading it back. *)
Lemma pushExtendedOptionValue_ok (bb : BufferBuilder.t) (value : Z) :
  0 <= value <= Wire.MAX_FIELD ->
  Option.pushExtendedOptionValue bb (Option.getOptionNibble value) value
  = Ok (bb ++ Wire.extended value).
Proof.
  unfold Wire.MAX_FIELD, Option.pushExtendedOptionValue, Option.getOptionNibble,
    Wire.extended, BufferBuilder.pushUInt8, BufferBuilder.pushByte,
    BufferBuilder.pushUInt16.
  intros Hv. destruct (value <=? 12) eqn:H12.
  - apply Z.leb_le in H12.
    destruct (value =? 13) eqn:E1; [lia|]. destruct (value =? 14) eqn:E2; [lia|].
    by rewrite app_nil_r.
  - apply Z.leb_gt in H12. change (255 + 13) with 268.
    destruct (value <=? 268) eqn:H268.
    + apply Z.leb_le in H268. cbn [Z.eqb Pos.eqb].
      replace ((0 <=? value - 13) && (value - 13 <=? 255)) with true; [done|].
      symmetry. apply andb_true_iff. split; apply Z.leb_le; lia.
    + apply Z.leb_gt in H268. cbn [Z.eqb Pos.eqb].
      replace ((0 <=? value - 269) && (value - 269 <=? 65535)) with true; [done|].
      symmetry. apply andb_true_iff. split; apply Z.leb_le; lia.
Qed.

Lemma serialize_data_ok (data : option (list Z)) (bb : BufferBuilder.t) (delta : Z) :
  0 <= delta <= Wire.MAX_FIELD ->
  Z.of_nat (length (default [] data)) <= Wire.MAX_FIELD ->
  Option.serialize_data data bb delta = Ok (bb ++ Wire.option_bytes delta (default [] data)).
Proof.
  intros Hdelta Hlen. unfold Option.serialize_data, Wire.option_bytes.
  set (len := Z.of_nat (length (default [] data))).
  assert (match data with None => 0 | Some d => Z.of_nat (length d) end = len) as ->
    by (by destruct data).
  assert (0 <= len) by (unfold len; lia).
  destruct (option_header (Option.getOptionNibble delta) (Option.getOptionNibble len))
    as (Hh & _ & _); [by apply getOptionNibble_range; lia..|].
  unfold BufferBuilder.pushByte.
  replace ((0 <=? _) && (_ <=? 255)) with true
    by (symmetry; apply andb_true_iff; split; apply Z.leb_le; lia).
  cbn [mbind result_bind].
  rewrite pushExtendedOptionValue_ok by done. cbn [mbind result_bind].
  rewrite pushExtendedOptionValue_ok by lia. cbn [mbind result_bind].
  unfold BufferBuilder.pushBuffer. rewrite <- !app_assoc. cbn [app].
  destruct (0 <? len) eqn:Hpos; [done|].
  apply Z.ltb_ge in Hpos. assert (default [] data = []) as ->
    by (apply length_zero_iff_nil; unfold len in *; lia).
  by rewrite !app_nil_r.
Qed.

Lemma read_extended (value : Z) (rest : list Z) :
  0 <= value <= Wire.MAX_FIELD ->
  (if Option.getOptionNibble value =? 13 then
     '(b, bufferReader) ← BufferReader.shiftByte (Wire.extended value ++ rest);
     mret (b + 13, bufferReader)
   else if Option.getOptionNibble value =? 14 then
     '(w, bufferReader) ← BufferReader.shiftUInt16 (Wire.extended value ++ rest);
     mret (w + 269, bufferReader)
   else Ok (Option.getOptionNibble value, Wire.extended value ++ rest))
  = Ok (value, rest).
Proof.
  unfold Wire.MAX_FIELD, Option.getOptionNibble, Wire.extended. intros Hv.
  destruct (value <=? 12) eqn:H12.
  - apply Z.leb_le in H12.
    destruct (value =? 13) eqn:E1; [lia|]. by destruct (value =? 14) eqn:E2; [lia|].
  - apply Z.leb_gt in H12. change (255 + 13) with 268.
    destruct (value <=? 268) eqn:H268; cbn.
    + do 2 f_equal. lia.
    + apply Z.leb_gt in H268.
      destruct (uint16_bytes (value - 269)) as (_ & _ & ->); [lia|].
      do 2 f_equal. lia.
Qed.

Lemma shiftBuffer_app (data rest : list Z) :
  BufferReader.shiftBuffer (Z.of_nat (length data)) (data ++ rest) = Ok (data, rest).
Proof.
  unfold BufferReader.shiftBuffer. rewrite length_app, Nat2Z.id.
  replace (_ <? _) with false by (symmetry; apply Z.ltb_ge; lia).
  by rewrite take_app_length, drop_app_length.
Qed.

(** One round of [Options.unserialize] on a serialized option. *)
Lemma unserialize_step_option (delta : Z) (data rest : list Z) (last : Z) :
  0 <= delta <= Wire.MAX_FIELD ->
  Z.of_nat (length data) <= Wire.MAX_FIELD ->
  Options.unserialize_step (Wire.option_bytes delta data ++ rest) last
  = (option ← Option.new (last + delta) (Wire.read_data data);
     mret (Some (option, last + delta), rest)).
Proof.
  intros Hdelta Hlen. unfold Options.unserialize_step, Wire.option_bytes.
  generalize Option.new. intros make.
  set (len := Z.of_nat (length data)) in *.
  assert (0 <= len) by (unfold len; lia).
  destruct (option_header (Option.getOptionNibble delta) (Option.getOptionNibble len))
    as (Hh & Hdn & Hln); [by apply getOptionNibble_range; lia..|].
  pose proof (getOptionNibble_range delta ltac:(lia)) as Hd14.
  pose proof (getOptionNibble_range len ltac:(lia)) as Hl14.
  cbn [app BufferReader.shiftByte mbind result_bind].
  set (h := Z.lor _ _) in *.
  replace (h =? 255) with false by (symmetry; apply Z.eqb_neq; lia).
  rewrite Hdn, Hln.
  replace (Option.getOptionNibble delta =? 15) with false
    by (symmetry; apply Z.eqb_neq; lia).
  replace (Option.getOptionNibble len =? 15) with false
    by (symmetry; apply Z.eqb_neq; lia).
  cbn [andb orb negb].
  rewrite <- app_assoc, (read_extended delta) by done. cbn [mbind result_bind].
  rewrite <- app_assoc, (read_extended len) by lia. cbn [mbind result_bind].
  destruct (0 <? len) eqn:Hpos.
  - unfold len. rewrite shiftBuffer_app. cbn [mbind result_bind mret result_ret].
    destruct data as [|b data]; [cbn in Hpos; done|].
    cbn [Wire.read_data]. reflexivity.
  - apply Z.ltb_ge in Hpos. assert (data = []) as ->
      by (apply length_zero_iff_nil; unfold len in *; lia).
    cbn [mbind result_bind app Wire.read_data]. reflexivity.
Qed.

End OptionCodec.

Section OptionList.

Local Open Scope Z_scope.

(** [sort] is a stable sort: a permutation, ascending, and it keeps the
    order of options that share a number. *)
Lemma sort_insert_Permutation (o : Option.t) (l : list Option.t) :
  Permutation (Options.sort_insert o l) (o :: l).
Proof.
  induction l as [|x l IH]; cbn; [done|].
  case_match; [done|]. rewrite IH. apply perm_swap.
Qed.

Lemma sort_list_Permutation (l : list Option.t) : Permutation (Options.sort_list l) l.
Proof.
  induction l as [|x l IH]; cbn; [done|].
  rewrite sort_insert_Permutation. by constructor.
Qed.

Lemma sort_insert_filter (number : Z) (o : Option.t) (l : list Option.t) :
  List.filter (fun x => Option.getNumber x =? number) (Options.sort_insert o l)
  = List.filter (fun x => Option.getNumber x =? number) (o :: l).
Proof.
  induction l as [|x l IH]; [done|].
  cbn [Options.sort_insert]. destruct (Option.getNumber o <=? Option.getNumber x) eqn:Hle;
    [done|].
  apply Z.leb_gt in Hle. cbn [List.filter] in *. rewrite IH.
  destruct (Option.getNumber o =? number) eqn:Ho; [|done].
  apply Z.eqb_eq in Ho.
  by replace (Option.getNumber x =? number) with false by (symmetry; apply Z.eqb_neq; lia).
Qed.

Lemma sort_list_filter (number : Z) (l : list Option.t) :
  List.filter (fun x => Option.getNumber x =? number) (Options.sort_list l)
  = List.filter (fun x => Option.getNumber x =? number) l.
Proof.
  induction l as [|x l IH]; [done|].
  cbn [Options.sort_list foldr]. rewrite sort_insert_filter. cbn [List.filter].
  fold (Options.sort_list l). by rewrite IH.
Qed.

Lemma sort_insert_ascending (last : Z) (o : Option.t) (l : list Option.t) :
  last <= Option.getNumber o ->
  Wire.ascending last (map Wire.on_wire l) ->
  Wire.ascending last (map Wire.on_wire (Options.sort_insert o l)).
Proof.
  revert last. induction l as [|x l IH]; intros last Ho Hl; [done|].
  cbn [Options.sort_insert]. destruct (Option.getNumber o <=? Option.getNumber x) eqn:Hle.
  - apply Z.leb_le in Hle. cbn in *. intuition lia.
  - apply Z.leb_gt in Hle. cbn in *. split; [lia|]. apply IH; [lia|tauto].
Qed.

Lemma sort_list_ascending (last : Z) (l : list Option.t) :
  Forall (fun o => last <= Option.getNumber o) l ->
  Wire.ascending last (map Wire.on_wire (Options.sort_list l)).
Proof.
  induction 1 as [|x l Hx Hl IH]; [done|].
  cbn [Options.sort_list foldr]. by apply sort_insert_ascending.
Qed.

Lemma Option_new_registered (o : Option.t) (data : option (list Z)) :
  optionNumberRegistry.get (Option.getNumber o) = Ok (Option.definition o) ->
  Option.new (Option.getNumber o) data
  = Ok {| Option.definition := Option.definition o; Option.data := data |}.
Proof. intros Hget. unfold Option.new. by rewrite Hget. Qed.

Lemma serialize_loop_ok (l : list Option.t) (last : Z) (bb : BufferBuilder.t) :
  Forall (fun o => 0 <= Option.getNumber o <= Wire.MAX_FIELD
                   /\ Z.of_nat (length (Option.getData o)) <= Wire.MAX_FIELD) l ->
  0 <= last ->
  Wire.ascending last (map Wire.on_wire l) ->
  Options.serialize_loop l last bb = Ok (bb ++ Wire.options_bytes last (map Wire.on_wire l)).
Proof.
  intros Hl. revert last bb.
  induction Hl as [|o l [Ho Hlen] Hl IH]; intros last bb Hlast Hasc.
  - cbn. by rewrite app_nil_r.
  - cbn in Hasc. destruct Hasc as [Hle Hasc].
    cbn [Options.serialize_loop map Wire.options_bytes Wire.on_wire].
    unfold Option.serialize. rewrite serialize_data_ok by (unfold Option.getData in *; lia).
    cbn [mbind result_bind]. rewrite IH by (done || lia).
    by rewrite <- app_assoc.
Qed.

(** [Options.unserialize] reads a serialized option list back, up to the
    end of the datagram or up to the payload marker. *)
Lemma unserialize_loop_ok (l : list Option.t) (fuel : nat) (last : Z) (acc : Options.t)
    (payload : option (list Z)) :
  Forall (fun o => optionNumberRegistry.get (Option.getNumber o) = Ok (Option.definition o)
                   /\ Z.of_nat (length (Option.getData o)) <= Wire.MAX_FIELD) l ->
  0 <= last ->
  Wire.ascending last (map Wire.on_wire l) ->
  (length l < fuel)%nat ->
  Options.sorted acc = false ->
  Options.unserialize_loop fuel
    (Wire.options_bytes last (map Wire.on_wire l) ++ Wire.payload_bytes payload) last acc
  = Ok ({| Options.list_ := Options.list_ acc ++ map Wire.as_read l;
           Options.sorted := false |},
        default [] payload).
Proof.
  intros Hl. revert fuel last acc.
  induction Hl as [|o l [Ho Hlen] Hl IH]; intros fuel last acc Hlast Hasc Hfuel Hsorted.
  - destruct fuel as [|fuel]; [cbn in Hfuel; lia|].
    destruct acc as [items sorted]. cbn in Hsorted. subst sorted.
    cbn [map Wire.options_bytes app]. rewrite app_nil_r.
    by destruct payload.
  - destruct fuel as [|fuel]; [cbn in Hfuel; lia|].
    cbn in Hasc. destruct Hasc as [Hle Hasc].
    destruct (optionNumberRegistry_get _ _ Ho) as [_ Hrange].
    cbn [Options.unserialize_loop map Wire.options_bytes Wire.on_wire].
    rewrite <- app_assoc.
    replace (0 <? length _)%nat with true
      by (symmetry; apply Nat.ltb_lt; unfold Wire.option_bytes; cbn [app length]; lia).
    rewrite unserialize_step_option by (unfold Wire.MAX_FIELD in *; lia).
    replace (last + (Option.getNumber o - last)) with (Option.getNumber o) by lia.
    rewrite Option_new_registered by done.
    cbn [mbind result_bind mret result_ret].
    rewrite IH; [|lia|done|cbn in Hfuel; lia|done].
    cbn [Options.addOption Options.list_]. by rewrite <- app_assoc.
Qed.

End OptionList.

Section MessageCodec.

Local Open Scope Z_scope.

Lemma Type_value_range (t : Message.Type_) : 0 <= Message.Type_value t <= 3.
Proof. destruct t; cbn; lia. Qed.

(** The 32-bit header word is the sum of its fields. *)
Lemma header_word (tv tkl code id : Z) :
  0 <= tv <= 3 -> 0 <= tkl <= 15 -> 0 <= code <= 255 -> 0 <= id <= 65535 ->
  Z.lor (Z.lor (Z.lor (Z.lor 1073741824 (Z.shiftl tv 28)) (Z.shiftl tkl 24))
               (Z.shiftl code 16)) id
  = 1073741824 + tv * 268435456 + tkl * 16777216 + code * 65536 + id.
Proof.
  intros Htv Htkl Hcode Hid. rewrite !Z.shiftl_mul_pow2 by lia.
  change (2 ^ 28) with 268435456. change (2 ^ 24) with 16777216.
  change (2 ^ 16) with 65536.
  rewrite (lor_add 1073741824 1 (tv * 268435456) 30) by lia.
  rewrite (lor_add _ (4 + tv) (tkl * 16777216) 28) by lia.
  rewrite (lor_add _ (64 + 16 * tv + tkl) (code * 65536) 24) by lia.
  rewrite (lor_add _ (16384 + 4096 * tv + 256 * tkl + code) id 16) by lia.
  reflexivity.
Qed.

Lemma pushUInt32_header (t : Message.Type_) (tkl code id : Z) :
  0 <= tkl <= 15 -> 0 <= code <= 255 -> 0 <= id <= 65535 ->
  BufferBuilder.pushUInt32
    (Z.lor (Z.lor (Z.lor (Z.lor 1073741824 (Z.shiftl (Message.Type_value t) 28))
                         (Z.shiftl tkl 24))
                  (Z.shiftl code 16)) id)
    BufferBuilder.empty
  = Ok (Wire.header_bytes t tkl code id).
Proof.
  intros Htkl Hcode Hid. pose proof (Type_value_range t) as Ht.
  rewrite header_word by done. set (tv := Message.Type_value t) in *.
  unfold BufferBuilder.pushUInt32, Wire.header_bytes, BufferBuilder.empty.
  replace ((0 <=? _) && (_ <=? 4294967295)) with true
    by (symmetry; apply andb_true_iff; split; apply Z.leb_le; lia).
  rewrite !land_255, !Z.shiftr_div_pow2 by lia.
  change (2 ^ 24) with 16777216. change (2 ^ 16) with 65536. change (2 ^ 8) with 256.
  cbn [app]. f_equal. f_equal; [|f_equal; [|f_equal; [|f_equal]]];
    Z.to_euclidean_division_equations; lia.
Qed.

(** Reading the first header byte back. *)
Lemma first_byte_fields (tv tkl : Z) :
  0 <= tv <= 3 -> 0 <= tkl <= 15 ->
  let firstByte := 64 + 16 * tv + tkl in
  Z.shiftr firstByte 6 = 1
  /\ Z.shiftr (Z.land firstByte 48) 4 = tv
  /\ Z.land firstByte 15 = tkl.
Proof.
  intros Htv Htkl firstByte. unfold firstByte.
  rewrite Z.shiftr_land. change (Z.shiftr 48 4) with (Z.ones 2).
  change 15 with (Z.ones 4). rewrite !Z.land_ones, !Z.shiftr_div_pow2 by lia.
  change (2 ^ 6) with 64. change (2 ^ 4) with 16. change (2 ^ 2) with 4.
  repeat split; Z.to_euclidean_division_equations; lia.
Qed.

Lemma id_bytes (id : Z) :
  0 <= id <= 65535 -> Z.lor (Z.shiftl (id / 256) 8) (id mod 256) = id.
Proof.
  intros Hid. rewrite lor_shiftl_add by (Z.to_euclidean_division_equations; lia).
  Z.to_euclidean_division_equations; lia.
Qed.

Lemma getTokenLength_getToken (m : Message.t) :
  Message.getTokenLength m = Z.of_nat (length (Message.getToken m)).
Proof. unfold Message.getTokenLength, Message.getToken. by destruct (Message.token m). Qed.

Lemma options_bytes_length (l : list (Z * list Z)) (last : Z) :
  (length l <= length (Wire.options_bytes last l))%nat.
Proof.
  revert last. induction l as [|[number data] l IH]; intros last; cbn; [lia|].
  rewrite length_app. specialize (IH number). lia.
Qed.

Lemma sort_valid (m : Message.t) :
  valid_message m ->
  Options.list_ (Options.sort (Message.options m))
  = Options.sort_list (Options.list_ (Message.options m)).
Proof.
  intros [_ _ _ _ Hsorted]. unfold Options.sort.
  destruct (Options.sorted (Message.options m)); [by rewrite Hsorted|done].
Qed.

End MessageCodec.

Section RoundTrip.

Local Open Scope Z_scope.

Lemma valid_fields (m : Message.t) :
  valid_message m ->
  0 <= Message.getCode m <= 255
  /\ 0 <= Message.getTokenLength m <= 8
  /\ Forall (fun o => 0 <= Option.getNumber o <= Wire.MAX_FIELD
                      /\ Z.of_nat (length (Option.getData o)) <= Wire.MAX_FIELD)
            (Options.sort_list (Options.list_ (Message.options m)))
  /\ Forall (fun o => optionNumberRegistry.get (Option.getNumber o) = Ok (Option.definition o)
                      /\ Z.of_nat (length (Option.getData o)) <= Wire.MAX_FIELD)
            (Options.sort_list (Options.list_ (Message.options m)))
  /\ Wire.ascending 0
       (map Wire.on_wire (Options.sort_list (Options.list_ (Message.options m)))).
Proof.
  intros [Hcode Hid Htoken Hoptions Hsorted].
  destruct (codeRegistry_get _ _ Hcode) as [_ Hrange].
  assert (Forall (fun o => optionNumberRegistry.get (Option.getNumber o)
                           = Ok (Option.definition o)
                           /\ Z.of_nat (length (Option.getData o)) <= Wire.MAX_FIELD)
                 (Options.sort_list (Options.list_ (Message.options m)))) as Hl.
  { eapply Permutation_Forall; [|exact Hoptions]. symmetry. apply sort_list_Permutation. }
  split; [done|]. split; [rewrite getTokenLength_getToken in *; lia|].
  split; [|split; [done|]].
  - eapply Forall_impl; [exact Hl|]. intros o [Ho Hlen].
    destruct (optionNumberRegistry_get _ _ Ho). unfold Wire.MAX_FIELD in *. lia.
  - apply sort_list_ascending. eapply Forall_impl; [exact Hoptions|].
    intros o [Ho _]. destruct (optionNumberRegistry_get _ _ Ho). lia.
Qed.

(** [toBuffer] writes the datagram of the message. *)
Lemma toBuffer_datagram (m : Message.t) :
  valid_message m -> fst <$> Message.toBuffer m = Ok (Wire.datagram m).
Proof.
  intros Hvalid. destruct (valid_fields m Hvalid) as (Hcode & Htkl & Hnum & _ & Hasc).
  pose proof (valid_id m Hvalid) as Hid.
  unfold Message.toBuffer, Wire.datagram.
  rewrite pushUInt32_header by (done || lia). cbn [mbind result_bind].
  change (codeRegistry.code (Message.codeDefinition m)) with (Message.getCode m).
  assert ((if 0 <? Message.getTokenLength m
           then BufferBuilder.pushBuffer (Message.getToken m)
                  (Wire.header_bytes (Message.type m) (Message.getTokenLength m)
                     (Message.getCode m) (Message.id m))
           else Wire.header_bytes (Message.type m) (Message.getTokenLength m)
                  (Message.getCode m) (Message.id m))
          = Wire.header_bytes (Message.type m) (Message.getTokenLength m)
              (Message.getCode m) (Message.id m) ++ Message.getToken m) as ->.
  { destruct (0 <? _) eqn:Hpos; [done|]. apply Z.ltb_ge in Hpos.
    rewrite getTokenLength_getToken in Hpos.
    assert (Message.getToken m = []) as -> by (apply length_zero_iff_nil; lia).
    by rewrite app_nil_r. }
  set (prefix := _ ++ Message.getToken m).
  assert (forall (os : Options.t) (bb : BufferBuilder.t),
            fst <$> (match Message.payload m with
                     | Some p =>
                         bufferBuilder ← BufferBuilder.pushByte 255 bb;
                         mret (BufferBuilder.pushBuffer p bufferBuilder)
                     | None => Ok bb
                     end ≫= λ bufferBuilder : BufferBuilder.t,
                       mret (BufferBuilder.toBuffer bufferBuilder,
                             Message.with_options os m))
            = Ok (bb ++ Wire.payload_bytes (Message.payload m))) as Hpayload.
  { intros os bb. destruct (Message.payload m) as [p|]; cbn.
    - unfold BufferBuilder.pushBuffer, BufferBuilder.toBuffer.
      by rewrite <- app_assoc.
    - unfold BufferBuilder.toBuffer. by rewrite app_nil_r. }
  destruct (Options.hasAnyOptions (Message.options m)) eqn:Hany.
  - unfold Options.serialize. rewrite (sort_valid m Hvalid).
    rewrite serialize_loop_ok by (done || lia).
    cbn [mbind result_bind mret result_ret]. rewrite Hpayload.
    unfold prefix. by rewrite <- !app_assoc.
  - unfold Options.hasAnyOptions in Hany. apply Nat.ltb_ge in Hany.
    assert (Options.list_ (Message.options m) = []) as ->
      by (apply length_zero_iff_nil; lia).
    cbn [mbind result_bind]. rewrite Hpayload.
    unfold prefix. by rewrite <- !app_assoc.
Qed.

Lemma setType_value (t : Message.Type_) (msg : Message.t) :
  Message.setType (Message.Type_value t) msg = Ok (Message.with_type t msg).
Proof. by destruct t. Qed.

Lemma setCode_registered (code : Z) (d : codeRegistry.CodeDefinition) (msg : Message.t) :
  codeRegistry.get code = Ok d ->
  Message.setCode code msg = Ok (Message.with_codeDefinition d msg).
Proof. intros Hget. unfold Message.setCode. by rewrite Hget. Qed.

Lemma setId_range (id : Z) (msg : Message.t) :
  0 <= id <= 65535 -> Message.setId id msg = Ok (Message.with_id id msg).
Proof.
  intros Hid. unfold Message.setId.
  by replace ((id <? 0) || (65535 <? id)) with false
    by (symmetry; apply orb_false_iff; split; apply Z.ltb_ge; lia).
Qed.

Lemma setToken_short (token : list Z) (msg : Message.t) :
  (length token <= 8)%nat ->
  Message.setToken (Some token) msg = Ok (Message.with_token (Wire.read_data token) msg).
Proof.
  intros Hlen. destruct token as [|b token]; [done|].
  unfold Message.setToken.
  by replace (8 <? length (b :: token))%nat with false
    by (symmetry; apply Nat.ltb_ge; lia).
Qed.

(** [fromBuffer] on a well-formed header and token: what is left is the
    reading of the options and the payload. *)
Lemma fromBuffer_header (now : Z) (t : Message.Type_) (code id : Z)
    (d : codeRegistry.CodeDefinition) (token body : list Z) :
  codeRegistry.get code = Ok d ->
  0 <= id <= 65535 ->
  (length token <= 8)%nat ->
  Message.fromBuffer now
    (Wire.header_bytes t (Z.of_nat (length token)) code id ++ token ++ body)
  = let msg :=
      Message.with_token (Wire.read_data token)
        (Message.with_id id
           (Message.with_codeDefinition d
              (Message.with_type t (Message.setTimestamp now Message.new)))) in
    if (length body =? 0)%nat then Ok msg
    else
      '(options, bufferReader) ← Options.unserialize body (Message.options msg);
      let message := Message.with_options options msg in
      if (0 <? length bufferReader)%nat then Ok (Message.setPayload bufferReader message)
      else Ok message.
Proof.
  intros Hget Hid Htoken.
  pose proof (Type_value_range t) as Ht.
  destruct (first_byte_fields (Message.Type_value t) (Z.of_nat (length token)))
    as (Hversion & Htype & Hlength); [lia..|].
  unfold Message.fromBuffer, Wire.header_bytes.
  cbn [app Buffer.get nth]. rewrite Hversion. cbn [Z.eqb Pos.eqb negb].
  cbn [BufferReader.shiftByte BufferReader.shiftUInt16 mbind result_bind].
  rewrite Htype, Hlength, setType_value. cbn [mbind result_bind].
  rewrite (setCode_registered _ _ _ Hget). cbn [mbind result_bind].
  rewrite id_bytes, setId_range by done. cbn [mbind result_bind].
  set (msg := Message.with_id _ _).
  match goal with
  | |- ?read ≫= _ = _ =>
      assert (read = Ok (Message.with_token (Wire.read_data token) msg, body)) as ->
  end.
  { destruct (0 <? _) eqn:Hpos.
    - rewrite shiftBuffer_app. cbn [mbind result_bind].
      rewrite setToken_short by lia. reflexivity.
    - apply Z.ltb_ge in Hpos.
      assert (token = []) as -> by (apply length_zero_iff_nil; lia).
      unfold msg. reflexivity. }
  reflexivity.
Qed.

(** [fromBuffer] reads the datagram of a valid message back. *)
Lemma fromBuffer_datagram (now : Z) (m : Message.t) :
  valid_message m -> Message.fromBuffer now (Wire.datagram m) = Ok (Wire.read_back now m).
Proof.
  intros Hvalid. destruct (valid_fields m Hvalid) as (Hcode & Htkl & _ & Hreg & Hasc).
  pose proof (valid_id m Hvalid) as Hid. pose proof (valid_code m Hvalid) as Hget.
  unfold Wire.datagram. rewrite getTokenLength_getToken in *.
  rewrite (fromBuffer_header now _ _ _ _ _ _ Hget) by (done || lia).
  set (options := Options.sort_list (Options.list_ (Message.options m))) in *.
  set (rest := Wire.options_bytes 0 (map Wire.on_wire options)
               ++ Wire.payload_bytes (Message.payload m)).
  cbv zeta.
  destruct (length rest =? 0)%nat eqn:Hrest.
  - apply Nat.eqb_eq, length_zero_iff_nil, app_eq_nil in Hrest as [Hopts Hpayload].
    assert (options = []) as Hnil.
    { pose proof (options_bytes_length (map Wire.on_wire options) 0) as Hlen.
      rewrite Hopts, length_map in Hlen. apply length_zero_iff_nil. cbn in Hlen. lia. }
    destruct (Message.payload m) as [p|] eqn:Hp; [done|].
    unfold Wire.read_back, Message.getPayload. fold options. rewrite Hnil, Hp. reflexivity.
  - unfold Options.unserialize, rest.
    rewrite unserialize_loop_ok; [|done|lia|done| |done].
    + cbn [mbind result_bind app Options.list_ Message.options Message.with_token
        Message.with_id Message.with_codeDefinition Message.with_type
        Message.setTimestamp Message.with_timestamp Message.new Options.new].
      unfold Wire.read_back, Message.getPayload. fold options.
      destruct (Message.payload m) as [[|b p]|]; reflexivity.
    + pose proof (options_bytes_length (map Wire.on_wire options) 0) as Hlen.
      rewrite length_map in Hlen. rewrite length_app. lia.
Qed.

Lemma getData_as_read (o : Option.t) : Option.getData (Wire.as_read o) = Option.getData o.
Proof.
  unfold Wire.as_read, Option.getData. cbn. by destruct (default [] (Option.data o)).
Qed.

Lemma option_view_as_read (l : list Option.t) :
  map option_view (map Wire.as_read l) = map option_view l.
Proof.
  rewrite map_map. apply map_ext. intros o. unfold option_view.
  by rewrite getData_as_read.
Qed.

Lemma filter_as_read (number : Z) (l : list Option.t) :
  List.filter (fun o => Option.getNumber o =? number) (map Wire.as_read l)
  = map Wire.as_read (List.filter (fun o => Option.getNumber o =? number) l).
Proof.
  induction l as [|o l IH]; [done|]. cbn [map List.filter].
  change (Option.getNumber (Wire.as_read o)) with (Option.getNumber o).
  destruct (Option.getNumber o =? number); cbn [map]; by rewrite IH.
Qed.

Lemma read_data_default (data : list Z) : default [] (Wire.read_data data) = data.
Proof. by destruct data. Qed.

(** The message read back is the message written, up to the order of
    options with different numbers. *)
Lemma same_message_read_back (now : Z) (m : Message.t) :
  same_message m (Wire.read_back now m).
Proof.
  split; try reflexivity.
  - apply read_data_default.
  - apply read_data_default.
  - cbn [Wire.read_back Message.options Options.list_].
    rewrite option_view_as_read. apply Permutation_map, sort_list_Permutation.
  - intros number. unfold Message.getOptions, Options.getOptions.
    cbn [Wire.read_back Message.options Options.list_].
    by rewrite filter_as_read, option_view_as_read, sort_list_filter.
Qed.

End RoundTrip.

(** C1.  For every valid message [m], [toBuffer] succeeds and
    [fromBuffer] applied to the buffer succeeds with a message equal to
    [m] in type, code, message ID, token and payload, whose options are a
    permutation of those of [m] that keeps, for every option number, the
    options of that number in their order. *)
Theorem fromBuffer_toBuffer (now : Z) (m : Message.t) :
  valid_message m ->
  exists (buffer : list Z) (m0 m' : Message.t),
    Message.toBuffer m = Ok (buffer, m0)
    /\ Message.fromBuffer now buffer = Ok m'
    /\ same_message m m'.
Proof.
  intros Hvalid. pose proof (toBuffer_datagram m Hvalid) as Hwrite.
  destruct (Message.toBuffer m) as [[buffer m0]|e]; [|done].
  cbn in Hwrite. injection Hwrite as ->.
  exists (Wire.datagram m), m0, (Wire.read_back now m).
  split; [done|]. split; [by apply fromBuffer_datagram|].
  apply same_message_read_back.
Qed.

Lemma sample_request_valid : valid_message Scenario.sample_request.
Proof.
  split.
  - by vm_compute.
  - by vm_compute.
  - by vm_compute.
  - let l := eval vm_compute in (Options.list_ (Message.options Scenario.sample_request)) in
    assert (Options.list_ (Message.options Scenario.sample_request) = l) as ->
      by (vm_compute; reflexivity).
    repeat (apply List.Forall_cons; [by vm_compute|]). apply List.Forall_nil.
  - by vm_compute.
Qed.

Lemma fromBuffer_toBuffer_witness :
  valid_message Scenario.sample_request
  /\ exists (buffer : list Z) (m0 m' : Message.t),
       Message.toBuffer Scenario.sample_request = Ok (buffer, m0)
       /\ Message.fromBuffer Scenario.now buffer = Ok m'
       /\ same_message Scenario.sample_request m'.
Proof.
  split; [exact sample_request_valid|].
  apply (fromBuffer_toBuffer Scenario.now Scenario.sample_request).
  exact sample_request_valid.
Defined.

(** The sample request on the wire, and read back: the options come out
    in ascending number order, Uri-Path "b" still before Uri-Path "a". *)
Example sample_request_datagram :
  fst <$> Message.toBuffer Scenario.sample_request
  = Ok [65; 1; 18; 52; 7; 66; 1; 2; 32; 81; 98; 1; 97; 255; 104; 105]
  /\ map Wire.on_wire
       (Options.list_ (Message.options (Wire.read_back 0 Scenario.sample_request)))
     = [(4, [1; 2]); (6, []); (11, [98]); (11, [97])].
Proof. by vm_compute. Qed.

Section UnknownOption.

Local Open Scope Z_scope.

Lemma options_bytes_app (last : Z) (l : list Option.t) (tail : list (Z * list Z)) :
  Wire.options_bytes last (map Wire.on_wire l ++ tail)
  = Wire.options_bytes last (map Wire.on_wire l)
    ++ Wire.options_bytes (Wire.last_number last l) tail.
Proof.
  revert last. induction l as [|o l IH]; intros last; [done|].
  cbn [map app Wire.options_bytes Wire.on_wire Wire.last_number fold_left].
  rewrite IH, <- app_assoc. reflexivity.
Qed.

Lemma last_number_ascending (last : Z) (l : list Option.t) :
  Wire.ascending last (map Wire.on_wire l) -> last <= Wire.last_number last l.
Proof.
  revert last. induction l as [|o l IH]; intros last; cbn; [lia|].
  intros [Hle Hasc]. specialize (IH _ Hasc). unfold Wire.last_number in IH. lia.
Qed.

(** [Options.unserialize] on registered options followed by more bytes
    goes on after them. *)
Lemma unserialize_loop_prefix (l : list Option.t) (fuel : nat) (last : Z) (acc : Options.t)
    (tail : list Z) :
  Forall (fun o => optionNumberRegistry.get (Option.getNumber o) = Ok (Option.definition o)
                   /\ Z.of_nat (length (Option.getData o)) <= Wire.MAX_FIELD) l ->
  0 <= last ->
  Wire.ascending last (map Wire.on_wire l) ->
  Options.unserialize_loop (length l + fuel)
    (Wire.options_bytes last (map Wire.on_wire l) ++ tail) last acc
  = Options.unserialize_loop fuel tail (Wire.last_number last l)
      (fold_left Options.addOption (map Wire.as_read l) acc).
Proof.
  intros Hl. revert last acc.
  induction Hl as [|o l [Ho Hlen] Hl IH]; intros last acc Hlast Hasc; [done|].
  cbn in Hasc. destruct Hasc as [Hle Hasc].
  destruct (optionNumberRegistry_get _ _ Ho) as [_ Hrange].
  cbn [length Nat.add Options.unserialize_loop map Wire.options_bytes Wire.on_wire
    Wire.last_number fold_left].
  rewrite <- app_assoc.
  replace (0 <? length _)%nat with true
    by (symmetry; apply Nat.ltb_lt; unfold Wire.option_bytes; cbn [app length]; lia).
  rewrite unserialize_step_option by (unfold Wire.MAX_FIELD in *; lia).
  replace (last + (Option.getNumber o - last)) with (Option.getNumber o) by lia.
  rewrite Option_new_registered by done.
  cbn [mbind result_bind mret result_ret].
  rewrite IH by (done || lia). reflexivity.
Qed.

(** [Options.unserialize] stops with an error at an option whose number
    has no definition. *)
Lemma unserialize_loop_unknown (fuel : nat) (last number : Z) (acc : Options.t)
    (data rest : list Z) :
  optionNumberRegistry.numberMap !! number = None ->
  last <= number <= Wire.MAX_FIELD ->
  0 <= last ->
  Z.of_nat (length data) <= Wire.MAX_FIELD ->
  Options.unserialize_loop (S fuel)
    (Wire.options_bytes last [(number, data)] ++ rest) last acc
  = Err (UnknownMessageOption number).
Proof.
  intros Hnone Hnumber Hlast Hlen.
  cbn [Options.unserialize_loop Wire.options_bytes]. rewrite app_nil_r.
  replace (0 <? length _)%nat with true
    by (symmetry; apply Nat.ltb_lt; unfold Wire.option_bytes; cbn [app length]; lia).
  rewrite unserialize_step_option by (unfold Wire.MAX_FIELD in *; lia).
  replace (last + (number - last)) with number by lia.
  unfold Option.new, optionNumberRegistry.get. rewrite Hnone. reflexivity.
Qed.

End UnknownOption.

(** C2, as the code has it.  A datagram with a well-formed header and
    token whose option list has, after any number of registered options,
    an option with a number that is not in the option registry is not
    decoded: [Message.fromBuffer] throws "Unknown message option" for
    that number, whatever follows the option. *)
Theorem fromBuffer_unknown_option (now : Z) (type : Message.Type_) (code id : Z)
    (d : codeRegistry.CodeDefinition) (token : list Z) (known : list Option.t)
    (number : Z) (data rest : list Z) :
  codeRegistry.get code = Ok d ->
  0 <= id <= 65535 ->
  (length token <= 8)%nat ->
  Forall (fun o => optionNumberRegistry.get (Option.getNumber o) = Ok (Option.definition o)
                   /\ Z.of_nat (length (Option.getData o)) <= Wire.MAX_FIELD) known ->
  Wire.ascending 0 (map Wire.on_wire known) ->
  optionNumberRegistry.numberMap !! number = None ->
  Wire.last_number 0 known <= number <= Wire.MAX_FIELD ->
  Z.of_nat (length data) <= Wire.MAX_FIELD ->
  Message.fromBuffer now
    (Wire.header_bytes type (Z.of_nat (length token)) code id
     ++ token
     ++ Wire.options_bytes 0 (map Wire.on_wire known ++ [(number, data)])
     ++ rest)
  = Err (UnknownMessageOption number).
Proof.
  intros Hget Hid Htoken Hknown Hasc Hnone Hnumber Hlen.
  rewrite (fromBuffer_header now _ _ _ _ _ _ Hget) by done. cbv zeta.
  rewrite options_bytes_app, <- app_assoc.
  set (body := _ ++ _ ++ rest).
  assert (length known + 1 <= length body)%nat as Hbody.
  { unfold body. rewrite !length_app.
    pose proof (options_bytes_length (map Wire.on_wire known) 0) as Hl.
    rewrite length_map in Hl. unfold Wire.options_bytes at 2, Wire.option_bytes.
    cbn [length app]. lia. }
  replace (length body =? 0)%nat with false by (symmetry; apply Nat.eqb_neq; lia).
  unfold Options.unserialize.
  replace (S (length body)) with (length known + S (length body - length known))%nat by lia.
  unfold body. rewrite unserialize_loop_prefix by (done || lia).
  pose proof (last_number_ascending 0 known Hasc).
  rewrite unserialize_loop_unknown by (done || lia). reflexivity.
Qed.

(** The datagram [40 01 00 01 | d1 00 2a]: a confirmable GET with one
    option of number 13 and value [2a]. *)
Lemma fromBuffer_unknown_option_witness :
  Message.fromBuffer Scenario.now
    (Wire.header_bytes Message.CON (Z.of_nat (length (@nil Z))) 1 1
     ++ []
     ++ Wire.options_bytes 0 (map Wire.on_wire [] ++ [(13, [42])])
     ++ [])
  = Err (UnknownMessageOption 13).
Proof.
  apply (fromBuffer_unknown_option Scenario.now Message.CON 1 1
           {| codeRegistry.code := 1; codeRegistry.name := "get";
              codeRegistry.description := "GET" |} [] [] 13 [42] []).
  - by vm_compute.
  - lia.
  - cbn. lia.
  - apply List.Forall_nil.
  - exact I.
  - by vm_compute.
  - by vm_compute.
  - by vm_compute.
Defined.

(** C2 as stated fails: the wire-legal datagrams [40 01 00 01 d1 00 2a]
    (option 13 with a one-byte value) and [40 01 00 01 d0 57] (option 100
    with an empty value) are rejected, not decoded with an opaque option. *)
Lemma fromBuffer_rejects_option_13 :
  Message.fromBuffer Scenario.now [64; 1; 0; 1; 209; 0; 42] = Err (UnknownMessageOption 13)
  /\ Message.fromBuffer Scenario.now [64; 1; 0; 1; 208; 87] = Err (UnknownMessageOption 100).
Proof. by vm_compute. Qed.

Section BlockReceived.

(** Unpacking a successful bind. *)
Lemma bind_Ok {A B : Type} (r : result A) (k : A -> result B) (b : B) :
  r ≫= k = Ok b -> exists a : A, r = Ok a /\ k a = Ok b.
Proof. destruct r as [a|e]; [|done]. intros H. by exists a. Qed.

Lemma setResponse_calls (e e' : ClientExchange.t) (response : Message.t)
    (deferred : list Events.Deferred) :
  ClientExchange.setResponse e response = Ok (e', deferred) ->
  exists request : Message.t,
    ClientExchange.request e = Some request
    /\ deferred = [Events.emitOn request "response" [Events.AMessage response]].
Proof.
  unfold ClientExchange.setResponse, ClientExchange.theRequest. cbn.
  destruct (ClientExchange.request e) as [request|]; [|done].
  cbn. intros [= <- <-]. by exists request.
Qed.

(** Every block [ClientExchange.handleBlock2Response] accepts defers one
    [block received] call, and that call runs [emit] on the exchange:
    no listener of a message is called by it. *)
Lemma handleBlock2Response_block_received (e e' : ClientExchange.t)
    (blockResponse : Message.t) (block2 : BlockOption.t)
    (serverInitiative : option bool) (deferred : list Events.Deferred) :
  ClientExchange.handleBlock2Response e blockResponse block2 serverInitiative
  = Ok (e', deferred) ->
  exists (d : Events.Deferred) (rest : list Events.Deferred),
    deferred = d :: rest
    /\ Events.event d = "block received"
    /\ Events.receiver d = Events.OnExchange (ClientExchange.exchangeKey e)
    /\ (forall m : Message.t, ~ Events.deliveredTo m d)
    /\ Forall (fun d' => Events.event d' = "response") rest.
Proof.
  unfold ClientExchange.handleBlock2Response.
  intros H. apply bind_Ok in H as [[e1 b] [Hset H]].
  assert (ClientExchange.exchangeKey e1 = ClientExchange.exchangeKey e) as Hkey.
  { unfold ClientExchange.setCurrentBlock2 in Hset.
    apply bind_Ok in Hset as [options [_ Hset]].
    destruct serverInitiative; repeat case_match; injection Hset as <- _; reflexivity. }
  apply bind_Ok in H as [request [_ H]].
  set (e2 := match ClientExchange.blocks2 e1 with
             | Some blocks => _
             | None => _
             end) in H.
  assert (ClientExchange.exchangeKey e2 = ClientExchange.exchangeKey e) as Hkey2
    by (unfold e2; destruct (ClientExchange.blocks2 e1); exact Hkey).
  destruct (BlockOption.m b).
  - injection H as <- <-. eexists _, []. rewrite Hkey2.
    repeat split; [|by apply List.Forall_nil]. intros m. unfold Events.deliveredTo. by cbn.
  - apply bind_Ok in H as [[e3 calls] [Hfin H]]. injection H as <- <-.
    eexists _, calls. rewrite Hkey2. repeat split.
    + intros m. unfold Events.deliveredTo. by cbn.
    + unfold ClientExchange.finalizeBlock2Response in Hfin.
      destruct (ClientExchange.blocks2 e2) as [blocks|]; [|done].
      destruct (last blocks) as [lastBlock|]; [|done].
      do 4 (apply bind_Ok in Hfin as [? [_ Hfin]]).
      apply setResponse_calls in Hfin as [? [_ ->]].
      apply List.Forall_cons; [done|apply List.Forall_nil].
Qed.

End BlockReceived.

(** C4, at the download of a three-block representation.  The three
    accepted blocks defer one [block received] call each, in the order of
    the block numbers 0, 1, 2, and the last block defers a [response]
    call on the request whose message has the payload of the three blocks
    in that order and the type, code, ID, token, options and endpoint of
    the last block.  But every [block received] call runs [emit] on the
    exchange object, not on the request: none of them reaches the
    listeners of the request. *)
Theorem block_received_runs_on_exchange :
  exists (request : Message.t) (c : Client.t),
    Download.run = Ok (request, c)
    /\ map Download.block_number (calls "block received" c)
       = [Some 0; Some 1; Some 2]
    /\ map Events.receiver (calls "block received" c)
       = [Events.OnExchange "127.0.0.1|"; Events.OnExchange "127.0.0.1|";
          Events.OnExchange "127.0.0.1|"]
    /\ Forall (fun d => forall m : Message.t, ~ Events.deliveredTo m d)
         (calls "block received" c)
    /\ exists response : Message.t,
         calls "response" c
         = [Events.emitOn request "response" [Events.AMessage response]]
         /\ Message.getPayload response = [1; 2; 3; 4; 5]
         /\ response
            = Message.setPayload [1; 2; 3; 4; 5] (Message.with_timestamp (-1) Download.block2).
Proof.
  let r := eval vm_compute in Download.run in
  match r with
  | Ok (?request, ?c) =>
      exists request, c;
      split; [vm_compute; reflexivity|]
  end.
  split; [vm_compute; reflexivity|].
  split; [vm_compute; reflexivity|].
  split.
  - match goal with
    | |- Forall _ ?l =>
        let calls := eval vm_compute in l in
        assert (l = calls) as -> by (vm_compute; reflexivity)
    end.
    repeat (apply List.Forall_cons; [intros m; unfold Events.deliveredTo; by cbn|]).
    apply List.Forall_nil.
  - eexists. split; [vm_compute; reflexivity|].
    split; vm_compute; reflexivity.
Qed.

Section InvalidBlock.

(** What [sendMessage] leaves alone: the exchanges and transactions; it
    defers at most an [error] call on the message it was to send. *)
Lemma sendMessage_frame (message : Message.t) (retries : option Z) (c c' : Client.t) :
  Client.sendMessage message retries c = Ok c' ->
  Client.heap c' = Client.heap c
  /\ Client.exchanges c' = Client.exchanges c
  /\ Client.transactions c' = Client.transactions c
  /\ (Client.immediates c' = Client.immediates c
      \/ Client.immediates c' = Client.immediates c ++ [Events.emitOn message "error" []]).
Proof.
  unfold Client.sendMessage. intros H.
  apply bind_Ok in H as [[buffer m0] [_ H]].
  destruct (negb _); injection H as <-; cbn; auto.
Qed.

Lemma sendReply_frame (type : Message.Type_) (message : Message.t) (c0 c c' : Client.t) :
  Client.heap c = Client.heap c0 ->
  Client.exchanges c = Client.exchanges c0 ->
  Client.transactions c = Client.transactions c0 ->
  Client.immediates c = Client.immediates c0 ->
  (reply ← Message.createReply message type Message.Code.EMPTY;
   Client.sendMessage reply None
     (Client.with_replies (<[Message.getTransactionKey message := reply]> (Client.replies c)) c))
  = Ok c' ->
  Client.heap c' = Client.heap c0
  /\ Client.exchanges c' = Client.exchanges c0
  /\ Client.transactions c' = Client.transactions c0
  /\ (Client.immediates c' = Client.immediates c0
      \/ exists reply : Message.t,
           Client.immediates c' = Client.immediates c0 ++ [Events.emitOn reply "error" []]).
Proof.
  intros Hheap Hexchanges Htransactions Himmediates H.
  apply bind_Ok in H as [reply [_ H]].
  apply sendMessage_frame in H as (-> & -> & -> & Hcalls). cbn.
  repeat split; try done.
  destruct Hcalls as [->| ->]; cbn; rewrite Himmediates; [by left|right; by exists reply].
Qed.

(** [isValidBlock2] on a block that is not valid, with or without the
    Observe value of its message. *)
Lemma isValidBlock2_invalid (e : ClientExchange.t) (block2 : BlockOption.t) (observe : Q)
    (given : option Q) :
  invalid_block2 e block2 observe = true ->
  given = Some observe \/ given = None ->
  ClientExchange.isValidBlock2 e block2 given = Ok false.
Proof.
  unfold invalid_block2, ClientExchange.isValidBlock2. intros H Hgiven.
  apply andb_true_iff in H as [Hnum H].
  apply negb_true_iff in Hnum. rewrite Hnum.
  destruct (ClientExchange.currentBlock2 e) as [current|]; [|done].
  destruct (BlockOption.num block2 =? BlockOption.num current + 1); [|done].
  cbn in H |- *.
  replace (BlockOption.szx block2 <=? BlockOption.szx current)
    with (negb (BlockOption.szx block2 >? BlockOption.szx current))
    by (rewrite Z.gtb_ltb, Z.ltb_antisym, negb_involutive; reflexivity).
  destruct (BlockOption.szx block2 >? BlockOption.szx current); [done|].
  cbn in H |- *.
  destruct (ClientExchange.blocks2 e) as [[|first rest]|]; try done.
  destruct Hgiven as [->| ->]; [|done].
  unfold ClientExchange.eqQ. apply negb_true_iff in H. by rewrite H.
Qed.

End InvalidBlock.




Section LateObserve.

Lemma ltQ_spec (x y : Q) : ClientExchange.ltQ x y = true <-> (x < y)%Q.
Proof.
  unfold ClientExchange.ltQ. rewrite negb_true_iff.
  split.
  - intros H. apply Qnot_le_lt. intros Hle. apply Qle_bool_iff in Hle. congruence.
  - intros H. destruct (Qle_bool y x) eqn:Hle; [|done].
    apply Qle_bool_iff in Hle. by apply Qlt_not_le in H.
Qed.

Lemma eqQ_false (x y : Q) : ~ (x == y)%Q -> ClientExchange.eqQ x y = false.
Proof.
  intros H. unfold ClientExchange.eqQ. destruct (Qeq_bool x y) eqn:Heq; [|done].
  by apply Qeq_bool_iff in Heq.
Qed.

(** [isLateObserveResponse] on a response with an Observe value. *)
Lemma isLateObserveResponse_newer (e : ClientExchange.t) (response : Message.t) :
  ~ (Message.getObserve response == -1)%Q ->
  ClientExchange.isLateObserveResponse e response = false <-> newer_than e response.
Proof.
  intros Hobserve. unfold ClientExchange.isLateObserveResponse, newer_than, newer.
  rewrite (eqQ_false _ _ Hobserve), negb_false_iff, !orb_true_iff, !andb_true_iff,
    !ltQ_spec, Z.gtb_lt.
  unfold ClientExchange.MAX_OBSERVE_VALUE_DIFFERENCE,
    ClientExchange.LATE_OBSERVE_ADDITIONAL_TIMESTAMP.
  change (inject_Z (2 ^ 23)) with 8388608%Q. change (128 * 1000) with 128000.
  tauto.
Qed.

Lemma calls_defer (event : string) (deferred : list Events.Deferred) (c : Client.t) :
  calls event (Client.defer deferred c)
  = calls event c ++ filter (fun d => bool_decide (Events.event d = event)) deferred.
Proof. unfold calls, Client.defer. cbn. apply filter_app. Qed.

Lemma finishTransaction_accept_frame (key : option string) (response : Message.t)
    (c : Client.t) :
  Client.heap (Client.finishTransaction key (Some (true, response)) c) = Client.heap c
  /\ calls "response" (Client.finishTransaction key (Some (true, response)) c)
     = calls "response" c.
Proof.
  unfold Client.finishTransaction.
  destruct (key ≫= _) as [transaction|]; [|done].
  rewrite calls_defer. unfold ClientTransaction.accept, ClientTransaction.delayEmit.
  split; [by destruct key|].
  assert (forall c', calls "response" (match key with
                                       | Some k => Client.with_transactions
                                                     (delete k (Client.transactions c')) c'
                                       | None => c'
                                       end) = calls "response" c') as ->
    by (intros c'; by destruct key).
  destruct (ClientTransaction.parentRequest transaction); cbn; by rewrite app_nil_r.
Qed.

(** [handleTransaction] leaves the exchange objects alone and defers no
    [response] call. *)
Lemma handleTransaction_frame (exchange : nat) (response : Message.t)
    (transactionKey : string) (c : Client.t) (e : ClientExchange.t) :
  Client.deref exchange c = Ok e ->
  exists c1 : Client.t,
    Client.handleTransaction exchange response transactionKey c = Ok c1
    /\ Client.heap c1 = Client.heap c
    /\ calls "response" c1 = calls "response" c.
Proof.
  intros Hderef. unfold Client.handleTransaction.
  destruct (Client.transactions c !! transactionKey).
  - eexists. split; [reflexivity|]. apply finishTransaction_accept_frame.
  - rewrite Hderef. cbn [mbind result_bind].
    destruct (ClientExchange.getTransactionKey e ≫= _).
    + eexists. split; [reflexivity|]. apply finishTransaction_accept_frame.
    + by exists c.
Qed.

Lemma sendAckReply_calls (response : Message.t) (c c' : Client.t) :
  Client.sendAckReply response c = Ok c' ->
  calls "response" c' = calls "response" c.
Proof.
  intros H. eapply sendReply_frame in H as (_ & _ & _ & Hcalls); try reflexivity.
  unfold calls. destruct Hcalls as [->|[reply ->]]; [done|].
  rewrite filter_app. cbn. by rewrite app_nil_r.
Qed.

End LateObserve.



Section Retransmission.

Import Retransmission.

Lemma genTransactionTimeout_range (random : Q) (c : Client.t) :
  (0 <= random)%Q -> (random < 1)%Q ->
  (0 < Client.ackTimeout c)%Q -> (1 < Client.ackRandomFactor c)%Q ->
  (Client.ackTimeout c <= Client.genTransactionTimeout random c)%Q
  /\ (Client.genTransactionTimeout random c
      < Client.ackTimeout c * Client.ackRandomFactor c)%Q.
Proof.
  unfold Client.genTransactionTimeout.
  generalize (Client.ackTimeout c), (Client.ackRandomFactor c). intros a f H0 H1 Ha Hf.
  assert (0 < a * f - a)%Q as Hd.
  { assert (0 < a * (f - 1))%Q as H by (apply Qmult_lt_0_compat; lra).
    assert (a * (f - 1) == a * f - a)%Q as Heq by ring. by rewrite <- Heq. }
  pose proof (Qmult_le_0_compat _ _ H0 (Qlt_le_weak _ _ Hd)) as Hlow.
  pose proof (Qmult_lt_compat_r _ _ _ Hd H1) as Hhigh.
  set (p := (random * (a * f - a))%Q) in *.
  split; lra.
Qed.

Lemma doubled_pow (k : nat) (timeout : Q) :
  (doubled k timeout == timeout * inject_Z (2 ^ Z.of_nat k))%Q.
Proof.
  induction k as [|k IH].
  - change (doubled 0 timeout) with timeout.
    change (inject_Z (2 ^ Z.of_nat 0)) with 1%Q. ring.
  - change (doubled (S k) timeout) with (doubled k timeout * 2)%Q.
    rewrite IH, Nat2Z.inj_succ, Z.pow_succ_r, inject_Z_mult by lia.
    change (inject_Z 2) with 2%Q. ring.
Qed.

Lemma retransmissions_S (buffer : list Z) (request : Message.t) (k : nat) :
  retransmissions buffer request (S k)
  = retransmissions buffer request k ++ [copy buffer request (Z.of_nat k + 1)].
Proof.
  unfold retransmissions. rewrite seq_S, map_app. cbn [map].
  do 3 f_equal. lia.
Qed.

Variables (now : Z) (c : Client.t) (tx : ClientTransaction.t) (R : Z).
Variables (buffer : list Z) (sorted : Message.t).

Hypothesis HR :
  RequestOptions.maxRetransmit (ClientTransaction.options tx) = Some R.
Hypothesis Hbuffer :
  Message.toBuffer (ClientTransaction.getRequest tx) = Ok (buffer, sorted).
Hypothesis Hsocket :
  (if EndpointAddress.isIPv6 (Message.getRemoteEndpoint (ClientTransaction.getRequest tx))
   then Client.socket6 c else Client.socket4 c) = true.

(** An expiry before the limit sends one more copy and leaves the timer
    pending with twice the timeout. *)
Lemma expiry_retransmits (k : nat) (c' : Client.t) :
  waiting c tx buffer k c' ->
  Z.of_nat k < R ->
  exists c'' : Client.t,
    Client.transactionTimerExpires now (ClientTransaction.getKey tx) c' = Ok c''
    /\ waiting c tx buffer (S k) c''.
Proof using HR Hbuffer Hsocket.
  intros [Htx Hsent Hexchanges Hheap Hsocket4 Hsocket6] Hk.
  unfold Client.transactionTimerExpires. rewrite Htx.
  unfold after, ClientTransaction.onTimeout, ClientTransaction.isLimitReached.
  cbn [ClientTransaction.with_timer ClientTransaction.timeoutCounter
         ClientTransaction.options ClientTransaction.currentTimeout
         ClientTransaction.timeoutTimer].
  rewrite HR. cbn [default from_option id].
  replace (Z.of_nat k + 1 >=? R + 1) with false by (rewrite Z.geb_leb; symmetry; apply Z.leb_gt; lia).
  unfold Client.onTransactionTimeout, ClientTransaction.isLimitReached,
    ClientTransaction.scheduleTimeoutTimer.
  cbn [ClientTransaction.with_timer ClientTransaction.timeoutCounter
         ClientTransaction.options ClientTransaction.currentTimeout
         ClientTransaction.getRequest ClientTransaction.request].
  rewrite HR. cbn [default from_option id].
  replace (Z.of_nat k + 1 >=? R + 1) with false by (rewrite Z.geb_leb; symmetry; apply Z.leb_gt; lia).
  unfold Client.sendMessage.
  unfold ClientTransaction.getRequest in Hbuffer, Hsocket. rewrite Hbuffer.
  cbn [mbind result_bind Client.defer Client.with_transactions Client.with_effects
         Client.socket4 Client.socket6].
  rewrite Hsocket4, Hsocket6, Hsocket. cbn [negb].
  eexists. split; [reflexivity|].
  split; cbn -[retransmissions after doubled].
  - rewrite lookup_insert_eq. unfold after. rewrite Nat2Z.inj_succ. reflexivity.
  - rewrite Hsent, retransmissions_S, <- app_assoc. reflexivity.
  - exact Hexchanges.
  - exact Hheap.
  - exact Hsocket4.
  - exact Hsocket6.
Qed.

Lemma finishTransaction_timeout (key : string) (c' : Client.t)
    (transaction : ClientTransaction.t) :
  Client.transactions c' !! key = Some transaction ->
  Client.finishTransaction (Some key) None c'
  = Client.with_transactions (delete key (Client.transactions c')) c'.
Proof. intros H. unfold Client.finishTransaction. cbn. by rewrite H. Qed.

(** [finishExchange] on a live exchange sends nothing and keeps the
    transactions, the events and the deferred calls. *)
Lemma finishExchange_frame (exchange : nat) (cancel : option bool) (c' : Client.t)
    (e : ClientExchange.t) (parent : Message.t) :
  Client.deref exchange c' = Ok e ->
  ClientExchange.request e = Some parent ->
  exists c'' : Client.t,
    Client.finishExchange now exchange cancel c' = Ok c''
    /\ Client.transactions c'' = Client.transactions c'
    /\ Client.sent c'' = Client.sent c'
    /\ Client.emitted c'' = Client.emitted c'
    /\ forall d : Events.Deferred,
         In d (Client.immediates c') -> In d (Client.immediates c'').
Proof.
  intros Hderef Hrequest. unfold Client.finishExchange. rewrite Hderef.
  cbn [mbind result_bind].
  destruct (_ && _).
  - unfold ClientExchange.cancel, ClientExchange.theRequest,
      ClientExchange.getTokenString, ClientExchange.theRequest.
    cbn. repeat (rewrite Hrequest; cbn).
    eexists. split; [reflexivity|]. cbn. repeat split; try done.
    intros d Hd. apply in_or_app. by left.
  - unfold ClientExchange.getTokenString, ClientExchange.theRequest.
    cbn. repeat (rewrite Hrequest; cbn).
    eexists. split; [reflexivity|]. cbn. repeat split; done.
Qed.

(** The expiry at the limit sends nothing: the request gets [timeout],
    the client emits [transaction timeout], the transaction is gone. *)
Lemma expiry_times_out (k : nat) (c' : Client.t) (exchange : nat)
    (e : ClientExchange.t) (parent : Message.t) :
  waiting c tx buffer k c' ->
  Z.of_nat k = R ->
  Client.exchanges c !! ClientTransaction.getExchangeKey tx = Some exchange ->
  Client.deref exchange c = Ok e ->
  ClientExchange.request e = Some parent ->
  exists c'' : Client.t,
    Client.transactionTimerExpires now (ClientTransaction.getKey tx) c' = Ok c''
    /\ timed_out c tx buffer k c''.
Proof using HR.
  intros [Htx Hsent Hexchanges Hheap Hsocket4 Hsocket6] Hk Hexchange Hderef Hrequest.
  unfold Client.transactionTimerExpires. rewrite Htx.
  unfold after, ClientTransaction.onTimeout, ClientTransaction.isLimitReached.
  cbn [ClientTransaction.with_timer ClientTransaction.timeoutCounter
         ClientTransaction.options ClientTransaction.currentTimeout
         ClientTransaction.timeoutTimer].
  rewrite HR. cbn [default from_option id].
  replace (Z.of_nat k + 1 >=? R + 1) with true by (rewrite Z.geb_leb; symmetry; apply Z.leb_le; lia).
  unfold Client.onTransactionTimeout, ClientTransaction.isLimitReached.
  cbn [ClientTransaction.with_timer ClientTransaction.timeoutCounter
         ClientTransaction.options ClientTransaction.currentTimeout
         ClientTransaction.getRequest ClientTransaction.request
         ClientTransaction.getKey ClientTransaction.transactionKey
         ClientTransaction.getExchangeKey ClientTransaction.exchangeKey].
  rewrite HR. cbn [default from_option id].
  replace (Z.of_nat k + 1 >=? R + 1) with true by (rewrite Z.geb_leb; symmetry; apply Z.leb_le; lia).
  erewrite finishTransaction_timeout by (cbn; apply lookup_insert_eq).
  cbn [Client.exchanges Client.with_transactions Client.emit Client.defer
         Client.with_effects].
  unfold ClientTransaction.getExchangeKey in Hexchange. rewrite Hexchanges, Hexchange.
  match goal with
  | |- exists c'' : Client.t, Client.finishExchange now exchange None ?c1 = _ /\ _ =>
      destruct (finishExchange_frame exchange None c1 e parent)
        as (c'' & Hfinish & Htransactions & Hsent' & Hemitted & Himmediates);
        [unfold Client.deref in *; cbn; by rewrite Hheap|exact Hrequest|]
  end.
  exists c''. split; [exact Hfinish|].
  split.
  - rewrite Htransactions. cbn. apply lookup_delete_eq.
  - rewrite Hsent'. cbn. exact Hsent.
  - rewrite Hemitted. cbn. apply in_or_app. right. by left.
  - apply Himmediates. cbn. apply in_or_app. right. by left.
Qed.

(** Once the transaction is gone, its timer does nothing. *)
Lemma expiry_without_transaction (c' : Client.t) :
  Client.transactions c' !! ClientTransaction.getKey tx = None ->
  Client.transactionTimerExpires now (ClientTransaction.getKey tx) c' = Ok c'.
Proof. intros H. unfold Client.transactionTimerExpires. by rewrite H. Qed.

Hypothesis Hfresh : after 0 tx = tx.
Hypothesis Hstored : Client.transactions c !! ClientTransaction.getKey tx = Some tx.

Lemma expiries_waiting (k : nat) :
  Z.of_nat k <= R ->
  exists c' : Client.t,
    expiries k now (ClientTransaction.getKey tx) c = Ok c'
    /\ waiting c tx buffer k c'.
Proof using HR Hbuffer Hsocket Hfresh Hstored.
  induction k as [|k IH]; intros Hk.
  - exists c. split; [reflexivity|].
    split; try reflexivity.
    + by rewrite Hfresh.
    + unfold retransmissions. cbn. by rewrite app_nil_r.
  - destruct IH as (c' & Hexpiries & Hwaiting); [lia|].
    destruct (expiry_retransmits k c' Hwaiting) as (c'' & Hexpiry & Hwaiting'); [lia|].
    exists c''. split; [|exact Hwaiting'].
    cbn [expiries]. rewrite Hexpiries. exact Hexpiry.
Qed.

Lemma expiries_timed_out (n : nat) (exchange : nat) (e : ClientExchange.t)
    (parent : Message.t) :
  0 <= R ->
  R < Z.of_nat n ->
  Client.exchanges c !! ClientTransaction.getExchangeKey tx = Some exchange ->
  Client.deref exchange c = Ok e ->
  ClientExchange.request e = Some parent ->
  exists c' : Client.t,
    expiries n now (ClientTransaction.getKey tx) c = Ok c'
    /\ timed_out c tx buffer (Z.to_nat R) c'.
Proof using HR Hbuffer Hsocket Hfresh Hstored.
  intros HR0 Hn Hexchange Hderef Hrequest.
  induction n as [|n IH]; [lia|].
  destruct (decide (R < Z.of_nat n)) as [Hlater|Hlast].
  - destruct (IH Hlater) as (c' & Hexpiries & Hdone).
    exists c'. split; [|exact Hdone].
    cbn [expiries]. rewrite Hexpiries. cbn [mbind result_bind].
    apply expiry_without_transaction, Hdone.
  - assert (Z.of_nat n = R) as Hlimit by lia.
    destruct (expiries_waiting n) as (c' & Hexpiries & Hwaiting); [lia|].
    destruct (expiry_times_out n c' exchange e parent Hwaiting Hlimit Hexchange Hderef
                Hrequest) as (c'' & Hexpiry & Hdone).
    exists c''. split.
    + cbn [expiries]. rewrite Hexpiries. exact Hexpiry.
    + replace (Z.to_nat R) with n by lia. exact Hdone.
Qed.

End Retransmission.

Section SetUp.

Import Retransmission.

(** [setUpTransaction]: the transaction is new, with the options filled
    in, and stored under the transaction key of the request. *)
Lemma setUpTransaction_new (random : Q) (exchange : nat) (request : Message.t)
    (c0 c1 : Client.t) (tx : ClientTransaction.t) (e : ClientExchange.t)
    (options : RequestOptions.t) :
  Client.deref exchange c0 = Ok e ->
  ClientExchange.options e = Some options ->
  Client.setUpTransaction random exchange request c0 = Ok (tx, c1) ->
  tx = ClientTransaction.new request (ClientExchange.getKey e) (completed random c0 options)
  /\ c1 = Client.with_transactions
            (<[Message.getTransactionKey request := tx]> (Client.transactions c0))
            (Client.store exchange
               (ClientExchange.setTransactionKey (Message.getTransactionKey request)
                  (ClientExchange.with_options (Some (completed random c0 options)) e))
               c0).
Proof.
  intros Hderef Hoptions. unfold Client.setUpTransaction, ClientExchange.theOptions.
  rewrite Hderef. cbn [mbind result_bind]. rewrite Hoptions. cbn [mbind result_bind].
  unfold completed.
  destruct options as [blockSize exchangeTimeout includeBlock2 [maxRetransmit|]
                         [transactionTimeout|]];
    cbn; intros [= <- <-]; split; reflexivity.
Qed.

(** [sendMessage] with its socket: one datagram, nothing else moves. *)
Lemma sendMessage_sent (message : Message.t) (retries : option Z) (c c' : Client.t) :
  (if EndpointAddress.isIPv6 (Message.getRemoteEndpoint message)
   then Client.socket6 c else Client.socket4 c) = true ->
  Client.sendMessage message retries c = Ok c' ->
  exists (buffer : list Z) (sorted : Message.t),
    Message.toBuffer message = Ok (buffer, sorted)
    /\ Client.sent c' = Client.sent c ++ [copy buffer message (default 0 retries)]
    /\ Client.transactions c' = Client.transactions c
    /\ Client.exchanges c' = Client.exchanges c
    /\ Client.heap c' = Client.heap c
    /\ Client.socket4 c' = Client.socket4 c
    /\ Client.socket6 c' = Client.socket6 c.
Proof.
  intros Hsocket. unfold Client.sendMessage.
  destruct (Message.toBuffer message) as [[buffer sorted]|]; [|done].
  cbn [mbind result_bind]. rewrite Hsocket. cbn [negb].
  intros [= <-]. by exists buffer, sorted.
Qed.

End SetUp.


